(** * vispy.oogl: deferred textures, upload conversion and enable counting

    A shallow embedding of [vispy/oogl/__init__.py] (the [ENABLE_QUEUE]
    reference counter, [GLObject.delete]) and of [vispy/oogl/texture.py]
    ([_RawTexture], [Texture], [get_format], [convert_data]).

    Python objects that are mutated in place are kept in an explicit
    store: array buffers in [arrays], the module level dictionary in
    [ENABLE_QUEUE], and every call into the OpenGL module is appended to
    [gl_log].  Methods are computations in a state-and-exception monad, so
    that the state left behind by a raising call can be inspected. *)

From Stdlib Require Import ZArith Lia Bool Ascii String.
From Stdlib Require Import Floats.SpecFloat.
From stdpp Require Import base option list gmap strings.

Local Open Scope Z_scope.

(** ** Python control flow: outcomes and the state/exception monad *)

Module Py.

(** The built-in exception classes the two modules can raise. *)
Inductive exn :=
| ValueError | AssertionError | RuntimeError | TypeError | KeyError
| AttributeError | IndexError | ZeroDivisionError | OverflowError
| NotImplementedError.

Inductive outcome (A : Type) :=
| Return (a : A)
| Raise (e : exn).
Arguments Return {A} a.
Arguments Raise {A} e.

(** A statement running on a state [S]: the state survives a raise. *)
Definition M (S A : Type) : Type := S -> outcome A * S.

Definition ret {S A} (a : A) : M S A := fun s => (Return a, s).
Definition raise {S A} (e : exn) : M S A := fun s => (Raise e, s).
Definition bind {S A B} (c : M S A) (k : A -> M S B) : M S B :=
  fun s => match c s with
           | (Return a, s') => k a s'
           | (Raise e, s') => (Raise e, s')
           end.
Definition get {S} : M S S := fun s => (Return s, s).
Definition put {S} (s : S) : M S unit := fun _ => (Return tt, s).
Definition modify {S} (f : S -> S) : M S unit := fun s => (Return tt, f s).

(** [assert b] *)
Definition assert {S} (b : bool) : M S unit :=
  if b then ret tt else raise AssertionError.

(** [try: c  except Exception: pass] *)
Definition try_pass {S} (c : M S unit) : M S unit :=
  fun s => match c s with
           | (Return _, s') => (Return tt, s')
           | (Raise _, s') => (Return tt, s')
           end.

(** Run a computation on a component of a larger state. *)
Definition zoom {S T A} (proj : T -> S) (inj : S -> T -> T) (c : M S A) : M T A :=
  fun t => match c (proj t) with (o, s') => (o, inj s' t) end.

(** The result and the final state of a run. *)
Definition result {S A} (c : M S A) (s : S) : outcome A := fst (c s).
Definition final {S A} (c : M S A) (s : S) : S := snd (c s).

End Py.

Import Py.

Declare Scope py_scope.
Delimit Scope py_scope with py.
Notation "x <- c ;; k" := (bind c (fun x => k))
  (at level 20, c at level 99, k at level 200, only parsing) : py_scope.
Notation "c ;; k" := (bind c (fun _ => k))
  (at level 100, k at level 200, right associativity, only parsing) : py_scope.
Local Open Scope py_scope.

(** ** Python strings: the operations used on [dtype.name] *)

Module PyStr.

(** [s.startswith(p)] *)
Fixpoint startswith (p s : string) : bool :=
  match p, s with
  | EmptyString, _ => true
  | String a p', String b s' => if Ascii.eqb a b then startswith p' s' else false
  | String _ _, EmptyString => false
  end.

(** [p in s] *)
Fixpoint contains (p s : string) : bool :=
  startswith p s ||
  match s with
  | EmptyString => false
  | String _ s' => contains p s'
  end.

(** [s.upper()]: the ASCII letters a..z become A..Z. *)
Definition upper_ascii (a : ascii) : ascii :=
  let n := N_of_ascii a in
  if ((97 <=? n) && (n <=? 122))%N then ascii_of_N (n - 32) else a.

Fixpoint upper (s : string) : string :=
  match s with
  | EmptyString => EmptyString
  | String a s' => String (upper_ascii a) (upper s')
  end.

(** [s[n:]] *)
Fixpoint drop (n : nat) (s : string) : string :=
  match n, s with
  | O, _ => s
  | S n', String _ s' => drop n' s'
  | S _, EmptyString => EmptyString
  end.

Definition digit (a : ascii) : option Z :=
  let n := Z.of_N (N_of_ascii a) in
  if (48 <=? n) && (n <=? 57) then Some (n - 48) else None.

Fixpoint digits (acc : Z) (s : string) : option Z :=
  match s with
  | EmptyString => Some acc
  | String a s' =>
      match digit a with
      | Some d => digits (10 * acc + d) s'
      | None => None
      end
  end.

(** [int(s)] on a string of decimal digits; anything else raises
    [ValueError]. *)
Definition int {S} (s : string) : M S Z :=
  match s with
  | EmptyString => raise ValueError
  | _ => match digits 0 s with
         | Some z => ret z
         | None => raise ValueError
         end
  end.

End PyStr.

(** ** numpy element kinds *)

Module np.
Local Open Scope string_scope.

(** The dtypes numpy can hand to the texture, with the [dtype.name] each
    one reports. *)
Inductive dtype :=
| bool_
| int8 | int16 | int32 | int64
| uint8 | uint16 | uint32 | uint64
| float16 | float32 | float64 | float128
| complex64 | complex128
| object_ | str_ | datetime64.

Definition name (d : dtype) : string :=
  match d with
  | bool_ => "bool"
  | int8 => "int8" | int16 => "int16" | int32 => "int32" | int64 => "int64"
  | uint8 => "uint8" | uint16 => "uint16" | uint32 => "uint32" | uint64 => "uint64"
  | float16 => "float16" | float32 => "float32" | float64 => "float64"
  | float128 => "float128"
  | complex64 => "complex64" | complex128 => "complex128"
  | object_ => "object" | str_ => "str" | datetime64 => "datetime64"
  end.

End np.

Global Instance dtype_eq_dec : EqDecision np.dtype.
Proof. solve_decision. Defined.

(** [data.dtype == np.uint8] and friends. *)
Definition dtype_eqb (a b : np.dtype) : bool := bool_decide (a = b).

(** Python numbers as they occur in contrast limits: [int] is unbounded,
    [float] is IEEE binary64. *)
Inductive pynum :=
| PyInt (z : Z)
| PyFloat (f : spec_float).

Module PyNum.

Definition prec64 : Z := 53.
Definition emax64 : Z := 1024.

Definition zero : spec_float := S754_zero false.
Definition one : spec_float := SFone prec64 emax64.

(** The float literal with the integral value [z] (e.g. [256.0]). *)
Definition of_Z (z : Z) : spec_float := binary_normalize prec64 emax64 z 0 false.

(** [float(z)]: correctly rounded, [OverflowError] when out of range. *)
Definition of_int {S} (z : Z) : M S spec_float :=
  match binary_normalize prec64 emax64 z 0 false with
  | S754_infinity _ => raise OverflowError
  | f => ret f
  end.

(** A Python number handed to a floating array operation: numpy turns it
    into a C double first, so an [int] out of the range of [float] raises
    [OverflowError]. *)
Definition to_float {S} (x : pynum) : M S spec_float :=
  match x with
  | PyInt z => of_int z
  | PyFloat f => ret f
  end.

(** [x != 0.0] *)
Definition ne_zero (x : pynum) : bool :=
  match x with
  | PyInt z => negb (z =? 0)
  | PyFloat f => negb (SFeqb f zero)
  end.

(** [x != 1.0] *)
Definition ne_one (x : pynum) : bool :=
  match x with
  | PyInt z => negb (z =? 1)
  | PyFloat f => negb (SFeqb f one)
  end.

(** [a - b] *)
Definition sub {S} (a b : pynum) : M S pynum :=
  match a, b with
  | PyInt x, PyInt y => ret (PyInt (x - y))
  | PyInt x, PyFloat g =>
      f <- of_int x ;; ret (PyFloat (SFsub prec64 emax64 f g))
  | PyFloat f, PyInt y =>
      g <- of_int y ;; ret (PyFloat (SFsub prec64 emax64 f g))
  | PyFloat f, PyFloat g => ret (PyFloat (SFsub prec64 emax64 f g))
  end.

(** [1.0 / x] *)
Definition recip {S} (x : pynum) : M S pynum :=
  match x with
  | PyInt z =>
      if z =? 0 then raise ZeroDivisionError
      else g <- of_int z ;; ret (PyFloat (SFdiv prec64 emax64 one g))
  | PyFloat g =>
      if SFeqb g zero then raise ZeroDivisionError
      else ret (PyFloat (SFdiv prec64 emax64 one g))
  end.

End PyNum.

(** ** numpy arrays

    An array object is a reference to a buffer together with its element
    kind and shape; the buffers live in the store, so that aliasing and
    in-place arithmetic are visible.  [astype] and [copy] allocate a new
    buffer, the augmented assignments write into the existing one. *)

Inductive scalar :=
| Sbool (b : bool)
| Sint (z : Z)
| Sfloat (f : spec_float)
| Sobject.

Record ndarray := mk_ndarray {
  buffer : nat;
  dtype : np.dtype;
  shape : list Z
}.

Global Instance spec_float_eq_dec : EqDecision spec_float.
Proof. solve_decision. Defined.
Global Instance pynum_eq_dec : EqDecision pynum.
Proof. solve_decision. Defined.
Global Instance scalar_eq_dec : EqDecision scalar.
Proof. solve_decision. Defined.
Global Instance ndarray_eq_dec : EqDecision ndarray.
Proof. solve_decision. Defined.

(** The store of array buffers, addressed by position. *)
Abbreviation heap := (list (list scalar)).

(** numpy's element-wise loops.  They are taken as an interface: the
    texture code relies on which buffer they touch, not on the values
    they compute. *)
Class Kernels := {
  (** one element of [a.astype(dst)] for [a] of kind [src] *)
  k_cast : np.dtype -> np.dtype -> scalar -> scalar;
  (** one element of [a -= c] *)
  k_isub : np.dtype -> pynum -> scalar -> scalar;
  (** one element of [a *= c] *)
  k_imul : np.dtype -> pynum -> scalar -> scalar;
  (** one element of the mask [a < c] *)
  k_lt : np.dtype -> scalar -> pynum -> bool;
  (** one element of the mask [a > c] *)
  k_gt : np.dtype -> scalar -> pynum -> bool;
  (** the element stored by [a[mask] = c] *)
  k_store : np.dtype -> pynum -> scalar
}.

Section Arrays.
Context {K : Kernels}.

Definition contents (h : heap) (a : ndarray) : list scalar :=
  default [] (h !! buffer a).

(** Allocate a new buffer holding [xs]. *)
Definition alloc (dt : np.dtype) (shp : list Z) (xs : list scalar) : M heap ndarray :=
  fun h => (Return (mk_ndarray (List.length h) dt shp), h ++ [xs]).

(** [a.astype(dt)] (always a new array) *)
Definition astype (a : ndarray) (dt : np.dtype) : M heap ndarray :=
  h <- get ;;
  alloc dt (shape a) (k_cast (dtype a) dt <$> contents h a).

(** [a.copy()] *)
Definition copy (a : ndarray) : M heap ndarray :=
  h <- get ;;
  alloc (dtype a) (shape a) (contents h a).

(** Overwrite the buffer of [a] element by element. *)
Definition inplace (a : ndarray) (f : scalar -> scalar) : M heap unit :=
  modify (alter (fmap f) (buffer a)).

(** [a -= c] on an array of a floating kind: the scalar is converted
    before any element is written, so a call that raises leaves the
    buffer as it was. *)
Definition isub (a : ndarray) (c : pynum) : M heap unit :=
  PyNum.to_float c ;;
  inplace a (k_isub (dtype a) c).

(** [a *= c] *)
Definition imul (a : ndarray) (c : pynum) : M heap unit :=
  PyNum.to_float c ;;
  inplace a (k_imul (dtype a) c).

(** [a[a < c] = v] *)
Definition assign_where_lt (a : ndarray) (c v : pynum) : M heap unit :=
  PyNum.to_float c ;;
  PyNum.to_float v ;;
  inplace a (fun x => if k_lt (dtype a) x c then k_store (dtype a) v else x).

(** [a[a > c] = v] *)
Definition assign_where_gt (a : ndarray) (c v : pynum) : M heap unit :=
  PyNum.to_float c ;;
  PyNum.to_float v ;;
  inplace a (fun x => if k_gt (dtype a) x c then k_store (dtype a) v else x).

End Arrays.

(** ** The OpenGL module

    [vispy.gl] is outside the sources.  Its enums are the values of the
    OpenGL headers; its functions are recorded in a log of calls, and the
    two that return something ([glGenTextures], [glIsTexture]) are answered
    by a driver that sees the calls made so far. *)

Module gl.

Definition GL_TEXTURE_2D : Z := 3553.
Definition GL_TEXTURE_3D : Z := 32879.
Definition GL_TEXTURE_CUBE_MAP : Z := 34067.
Definition GL_TEXTURE0 : Z := 33984.
Definition GL_UNSIGNED_BYTE : Z := 5121.
Definition GL_FLOAT : Z := 5126.
Definition GL_HALF_FLOAT : Z := 5131.
Definition GL_ALPHA : Z := 6406.
Definition GL_RGB : Z := 6407.
Definition GL_RGBA : Z := 6408.
Definition GL_LUMINANCE : Z := 6409.
Definition GL_LUMINANCE_ALPHA : Z := 6410.
Definition GL_UNPACK_ALIGNMENT : Z := 3317.
Definition GL_TEXTURE_MAG_FILTER : Z := 10240.
Definition GL_TEXTURE_MIN_FILTER : Z := 10241.
Definition GL_LINEAR : Z := 9729.

(** A positional argument of an image call. *)
Inductive arg :=
| Aint (z : Z)
| Adata (a : ndarray)
| Anone.

Inductive call :=
| glEnable (enum : Z)
| glDisable (enum : Z)
| glGenTextures (n : Z)
| glDeleteTextures (handles : list Z)
| glActiveTexture (texture : Z)
| glBindTexture (target handle : Z)
| glIsTexture (handle : Z)
| glPixelStorei (pname : Z) (param : option Z)
| glTexParameter (target pname param : Z)
| glTexImage2D (args : list arg)
| glTexImage3D (args : list arg)
| glTexSubImage2D (args : list arg)
| glTexSubImage3D (args : list arg).

(** What the driver answers, given the calls issued before. *)
Class Driver := {
  gen_textures : list call -> Z;
  is_texture : list call -> Z -> bool
}.

(** The attributes of the module: [getattr(gl, name)], [None] where the
    module has no such attribute. *)
Class Namespace := {
  getattr : string -> option Z
}.

End gl.

Global Instance gl_arg_eq_dec : EqDecision gl.arg.
Proof. solve_decision. Defined.
Global Instance gl_call_eq_dec : EqDecision gl.call.
Proof. solve_decision. Defined.

(** ** Module state *)

Record world := mk_world {
  arrays : heap;
  ENABLE_QUEUE : gmap Z Z;
  gl_log : list gl.call;
  stdout : list string
}.

Definition set_arrays (h : heap) (w : world) : world :=
  mk_world h (ENABLE_QUEUE w) (gl_log w) (stdout w).
Definition set_ENABLE_QUEUE (q : gmap Z Z) (w : world) : world :=
  mk_world (arrays w) q (gl_log w) (stdout w).
Definition set_gl_log (l : list gl.call) (w : world) : world :=
  mk_world (arrays w) (ENABLE_QUEUE w) l (stdout w).
Definition set_stdout (o : list string) (w : world) : world :=
  mk_world (arrays w) (ENABLE_QUEUE w) (gl_log w) o.

(** The state of a freshly imported module. *)
Definition world0 : world := mk_world [] ∅ [] [].

(** [print(msg)] *)
Definition print (msg : string) : M world unit :=
  modify (fun w => set_stdout (stdout w ++ [msg]) w).

Section Init.
Context {D : gl.Driver}.

(** A call into [gl] that returns nothing. *)
Definition gl_call (c : gl.call) : M world unit :=
  modify (fun w => set_gl_log (gl_log w ++ [c]) w).

(** [gl.glGenTextures(1)] *)
Definition glGenTextures (n : Z) : M world Z :=
  w <- get ;;
  gl_call (gl.glGenTextures n) ;;
  ret (gl.gen_textures (gl_log w)).

(** [gl.glIsTexture(handle)] *)
Definition glIsTexture (handle : Z) : M world bool :=
  w <- get ;;
  gl_call (gl.glIsTexture handle) ;;
  ret (gl.is_texture (gl_log w) handle).

(** [ENABLE_QUEUE.get(enum, 0)] *)
Definition queue_get (enum : Z) : M world Z :=
  w <- get ;; ret (default 0 (ENABLE_QUEUE w !! enum)).

(** [ENABLE_QUEUE[enum] = v] *)
Definition queue_set (enum v : Z) : M world unit :=
  modify (fun w => set_ENABLE_QUEUE (<[enum := v]> (ENABLE_QUEUE w)) w).

Definition push_enable (enum : Z) : M world unit :=
  cur <- queue_get enum ;;
  (if cur =? 0 then gl_call (gl.glEnable enum) else ret tt) ;;
  queue_set enum (cur + 1).

Definition pop_enable (enum : Z) : M world unit :=
  cur <- queue_get enum ;;
  (if cur =? 1 then gl_call (gl.glDisable enum) else ret tt) ;;
  queue_set enum (Z.max 0 (cur - 1)).

(** The body of [ext_available] as it stands ("for now"). *)
Definition ext_available_now (extension_name : string) : bool := true.

End Init.

(** ** texture.py: utility functions *)

(** Contrast limits: a pair [(min, max)]. *)
Abbreviation clim_t := (pynum * pynum)%type.

Section Utility.
Context {K : Kernels}.
(** [ext_available] of the package, kept general: the present body
    answers [True] to everything. *)
Variable ext_available : string -> bool.

Definition len {A} (l : list A) : Z := Z.of_nat (List.length l).

(** [shape[i] == v] *)
Definition item_is (shape : list Z) (i : nat) (v : Z) : bool :=
  bool_decide (shape !! i = Some v).

Definition get_format {S} (shape : option (list Z)) (target : Z) : M S Z :=
  if target =? gl.GL_TEXTURE_2D then
    match shape with
    | None => raise TypeError
    | Some shape =>
        if len shape =? 2 then ret gl.GL_LUMINANCE
        else if (len shape =? 3) && item_is shape 2 1 then ret gl.GL_LUMINANCE
        else if (len shape =? 3) && item_is shape 2 2 then ret gl.GL_LUMINANCE_ALPHA
        else if (len shape =? 3) && item_is shape 2 3 then ret gl.GL_RGB
        else if (len shape =? 3) && item_is shape 2 4 then ret gl.GL_RGBA
        else raise ValueError
    end
  else if target =? gl.GL_TEXTURE_3D then
    match shape with
    | None => raise TypeError
    | Some shape =>
        if len shape =? 3 then ret gl.GL_LUMINANCE
        else if (len shape =? 4) && item_is shape 3 1 then ret gl.GL_LUMINANCE
        else if (len shape =? 4) && item_is shape 3 2 then ret gl.GL_LUMINANCE_ALPHA
        else if (len shape =? 4) && item_is shape 3 3 then ret gl.GL_RGB
        else if (len shape =? 4) && item_is shape 3 4 then ret gl.GL_RGBA
        else raise ValueError
    end
  else raise ValueError.

(** What the first block of [convert_data] leaves in its local
    variables [data], [clim] and [CONVERTING]. *)
Record prepared := mk_prepared {
  p_data : ndarray;
  p_clim : option clim_t;
  p_CONVERTING : bool
}.

(** "Determine clim if not given, copy or make float32 if necessary." *)
Definition determine_clim (FLOAT32_SUPPORT FLOAT16_SUPPORT : bool)
    (data : ndarray) (clim : option clim_t) : M heap prepared :=
  let name := np.name (dtype data) in
  if (name =? "bool")%string then
    data <- astype data np.uint8 ;;
    ret (mk_prepared data None false)
  else if (name =? "uint8")%string then
    match clim with
    | Some _ => data <- astype data np.float32 ;; ret (mk_prepared data clim false)
    | None => ret (mk_prepared data clim false)
    end
  else if (name =? "float16")%string then
    match clim with
    | Some _ => data <- copy data ;; ret (mk_prepared data clim false)
    | None =>
        if negb FLOAT16_SUPPORT
        then data <- copy data ;; ret (mk_prepared data clim true)
        else ret (mk_prepared data clim false)
    end
  else if (name =? "float32")%string then
    match clim with
    | Some _ => data <- copy data ;; ret (mk_prepared data clim false)
    | None =>
        if negb FLOAT32_SUPPORT
        then data <- copy data ;; ret (mk_prepared data clim true)
        else ret (mk_prepared data clim false)
    end
  else if PyStr.contains "float" name then
    data <- astype data np.float32 ;;
    ret (mk_prepared data clim true)
  else if PyStr.startswith "int" name then
    clim <- match clim with
            | None =>
                bits <- PyStr.int (PyStr.drop 3 name) ;;
                let max := 2 ^ bits in
                ret (Some (PyInt ((- max) `div` 2), PyInt (max `div` 2 - 1)))
            | Some _ => ret clim
            end ;;
    data <- astype data np.float32 ;;
    ret (mk_prepared data clim true)
  else if PyStr.startswith "uint" name then
    clim <- match clim with
            | None =>
                bits <- PyStr.int (PyStr.drop 4 name) ;;
                let max := 2 ^ bits in
                ret (Some (PyInt 0, PyInt (max `div` 2)))
            | Some _ => ret clim
            end ;;
    data <- astype data np.float32 ;;
    ret (mk_prepared data clim true)
  else raise RuntimeError.

(** "Apply limits if necessary."  The two asserts on [clim] hold by
    typing. *)
Definition apply_limits (data : ndarray) (clim : option clim_t) : M heap unit :=
  match clim with
  | Some (lo, hi) =>
      (if PyNum.ne_zero lo then isub data lo else ret tt) ;;
      span <- PyNum.sub hi lo ;;
      if PyNum.ne_one span then
        span <- PyNum.sub hi lo ;;
        scale <- PyNum.recip span ;;
        imul data scale
      else ret tt
  | None => ret tt
  end.

(** "Convert if necessary." *)
Definition convert_if_necessary (FLOAT32_SUPPORT FLOAT16_SUPPORT : bool)
    (data : ndarray) : M heap ndarray :=
  if dtype_eqb (dtype data) np.uint8 then ret data
  else if dtype_eqb (dtype data) np.float16 && FLOAT16_SUPPORT then ret data
  else if dtype_eqb (dtype data) np.float32 && FLOAT32_SUPPORT then ret data
  else if bool_decide (dtype data ∈ [np.float16; np.float32]) then
    imul data (PyFloat (PyNum.of_Z 256)) ;;
    assign_where_lt data (PyFloat PyNum.zero) (PyFloat PyNum.zero) ;;
    assign_where_gt data (PyFloat (PyNum.of_Z 256)) (PyFloat (PyNum.of_Z 256)) ;;
    astype data np.uint8
  else raise RuntimeError.

Definition convert_data (data : ndarray) (clim : option clim_t) : M heap ndarray :=
  let FLOAT32_SUPPORT := ext_available "texture_float" in
  let FLOAT16_SUPPORT := ext_available "texture_half_float" in
  p <- determine_clim FLOAT32_SUPPORT FLOAT16_SUPPORT data clim ;;
  apply_limits (p_data p) (p_clim p) ;;
  convert_if_necessary FLOAT32_SUPPORT FLOAT16_SUPPORT (p_data p).

End Utility.

(** ** Python values that reach the texture API, and small dictionaries *)

Inductive pyvalue :=
| PyNone
| PyArray (a : ndarray)
| PyTuple (t : list Z)
| PyOther.

(** A texture parameter as [set_parameter] takes it: an OpenGL constant
    or a string that names one. *)
Inductive pyparam :=
| ParamEnum (enum : Z)
| ParamName (name : string).

(** The tuple stored in [_pending_data]: [data, offset, level, format, clim]. *)
Record pending := mk_pending {
  pd_data : option ndarray;
  pd_offset : option (list Z);
  pd_level : Z;
  pd_format : option Z;
  pd_clim : option clim_t
}.

(** The parameter dictionaries keep insertion order ([items], [popitem]). *)
Module dict.

Fixpoint set (k v : Z) (d : list (Z * Z)) : list (Z * Z) :=
  match d with
  | [] => [(k, v)]
  | (k', v') :: d' => if k' =? k then (k, v) :: d' else (k', v') :: set k v d'
  end.

(** [d.popitem()]: the last item and the rest, [None] on an empty dict. *)
Definition popitem (d : list (Z * Z)) : option ((Z * Z) * list (Z * Z)) :=
  match reverse d with
  | [] => None
  | kv :: r => Some (kv, reverse r)
  end.

End dict.

(** The attributes of a texture object. *)
Record texture := mk_texture {
  _target : Z;
  _handle : Z;
  _unit : Z;
  _pending_data : option pending;
  _texture_shape : option (list Z);
  _texture_params : list (Z * Z);
  _pending_params : list (Z * Z)
}.

Definition with_handle (h : Z) (t : texture) : texture :=
  mk_texture (_target t) h (_unit t) (_pending_data t) (_texture_shape t)
             (_texture_params t) (_pending_params t).
Definition with_unit (u : Z) (t : texture) : texture :=
  mk_texture (_target t) (_handle t) u (_pending_data t) (_texture_shape t)
             (_texture_params t) (_pending_params t).
Definition with_pending_data (p : option pending) (t : texture) : texture :=
  mk_texture (_target t) (_handle t) (_unit t) p (_texture_shape t)
             (_texture_params t) (_pending_params t).
Definition with_texture_shape (s : option (list Z)) (t : texture) : texture :=
  mk_texture (_target t) (_handle t) (_unit t) (_pending_data t) s
             (_texture_params t) (_pending_params t).
Definition with_texture_params (d : list (Z * Z)) (t : texture) : texture :=
  mk_texture (_target t) (_handle t) (_unit t) (_pending_data t) (_texture_shape t)
             d (_pending_params t).
Definition with_pending_params (d : list (Z * Z)) (t : texture) : texture :=
  mk_texture (_target t) (_handle t) (_unit t) (_pending_data t) (_texture_shape t)
             (_texture_params t) d.

(** A method runs on its object and on the module state. *)
Record state := mk_state {
  self : texture;
  globals : world
}.

Definition get_self : M state texture := st <- get ;; ret (self st).
Definition set_self (f : texture -> texture) : M state unit :=
  modify (fun st => mk_state (f (self st)) (globals st)).
Definition in_world {A} (c : M world A) : M state A :=
  zoom globals (fun w st => mk_state (self st) w) c.
Definition in_arrays {A} (c : M heap A) : M world A :=
  zoom arrays set_arrays c.

(** [for x in l: body(x)] *)
Fixpoint for_each {S A} (l : list A) (body : A -> M S unit) : M S unit :=
  match l with
  | [] => ret tt
  | x :: l' => body x ;; for_each l' body
  end.

(** ** __init__.py: GLObject *)

Module GLObject.
Section Methods.
Context {D : gl.Driver}.
(** The subclass hook [self._delete]. *)
Variable _delete : M state unit.

Definition delete : M state unit :=
try_pass (
  t <- get_self ;;
  if _handle t >? 0 then _delete else ret tt
) ;;
set_self (with_handle 0).

End Methods.
End GLObject.

(** ** texture.py: _RawTexture *)

(** [DTYPES]: numpy dtype names to OpenGL element types. *)
Definition DTYPES : gmap string Z :=
  list_to_map [("uint8"%string, gl.GL_UNSIGNED_BYTE);
               ("float16"%string, gl.GL_HALF_FLOAT);
               ("float32"%string, gl.GL_FLOAT)].

Module _RawTexture.
Section Methods.
Context {D : gl.Driver}.

Definition gl_ (c : gl.call) : M state unit := in_world (gl_call c).

(** The state [__init__] leaves in a new object. *)
Definition __init__ {S} (target : Z) : M S texture :=
if bool_decide (target ∈ [gl.GL_TEXTURE_2D; gl.GL_TEXTURE_3D])
then ret (mk_texture target 0 (-1) None None [] [])
else raise ValueError.

Definition _create : M state unit :=
h <- in_world (glGenTextures 1) ;;
set_self (with_handle h).

Definition _delete : M state unit :=
t <- get_self ;;
gl_ (gl.glDeleteTextures [_handle t]).

Definition _enable : M state unit :=
t <- get_self ;;
in_world (push_enable (_target t)) ;;
(if _unit t >=? 0 then gl_ (gl.glActiveTexture (gl.GL_TEXTURE0 + _unit t))
 else ret tt) ;;
gl_ (gl.glBindTexture (_target t) (_handle t)).

Definition _disable : M state unit :=
t <- get_self ;;
(if _unit t >=? 0 then
   gl_ (gl.glActiveTexture (gl.GL_TEXTURE0 + _unit t)) ;;
   set_self (with_unit (-1))
 else ret tt) ;;
gl_ (gl.glBindTexture (_target t) 0) ;;
gl_ (gl.glActiveTexture gl.GL_TEXTURE0) ;;
in_world (pop_enable (_target t)).

(** The dictionaries [D] of [_allocate]/[_upload] and of [_update]:
  the image function and the number of dimensions of a target. *)
Definition D_image {S} (target : Z) : M S ((list gl.arg -> gl.call) * nat) :=
if target =? gl.GL_TEXTURE_2D then ret (gl.glTexImage2D, 2%nat)
else if target =? gl.GL_TEXTURE_3D then ret (gl.glTexImage3D, 3%nat)
else raise KeyError.

Definition D_subimage {S} (target : Z) : M S ((list gl.arg -> gl.call) * nat) :=
if target =? gl.GL_TEXTURE_2D then ret (gl.glTexSubImage2D, 2%nat)
else if target =? gl.GL_TEXTURE_3D then ret (gl.glTexSubImage3D, 3%nat)
else raise KeyError.

Definition _allocate (shape : option (list Z)) (format level : Z) : M state unit :=
t <- get_self ;;
D <- D_image (_target t) ;;
let (uploadFun, ndim) := D in
let gltype := gl.GL_UNSIGNED_BYTE in
shape <- match shape with Some s => ret s | None => raise TypeError end ;;
let size := reverse (take ndim shape) in
let args := [gl.Aint (_target t); gl.Aint level; gl.Aint format]
            ++ (gl.Aint <$> size)
            ++ [gl.Aint 0; gl.Aint format; gl.Aint gltype; gl.Anone] in
gl_ (uploadFun args).

Definition _get_size_and_type {S} (data : ndarray) (ndim : nat) : M S (list Z * Z) :=
let size := reverse (take ndim (shape data)) in
let thetype := np.name (dtype data) in
match DTYPES !! thetype with
| None => raise ValueError
| Some gltype => ret (size, gltype)
end.

(** The first of 4, 8, 2, 1 that divides [width]. *)
Definition _get_alignment (width : Z) : option Z :=
List.find (fun alignment => width `mod` alignment =? 0) [4; 8; 2; 1].

Definition _upload (data : ndarray) (format level : Z) : M state unit :=
t <- get_self ;;
D <- D_image (_target t) ;;
let (uploadFun, ndim) := D in
let thetype := np.name (dtype data) in
match DTYPES !! thetype with
| None => raise ValueError
| Some _ =>
    sg <- _get_size_and_type data ndim ;;
    let (size, gltype) := sg : list Z * Z in
    let args := [gl.Aint (_target t); gl.Aint level; gl.Aint format]
                ++ (gl.Aint <$> size)
                ++ [gl.Aint 0; gl.Aint format; gl.Aint gltype; gl.Adata data] in
    width <- match last (shape data) with
             | Some w => ret w
             | None => raise IndexError
             end ;;
    let alignment := _get_alignment width in
    (if bool_decide (alignment ≠ Some 4)
     then gl_ (gl.glPixelStorei gl.GL_UNPACK_ALIGNMENT alignment) else ret tt) ;;
    gl_ (uploadFun args) ;;
    (if bool_decide (alignment ≠ Some 4)
     then gl_ (gl.glPixelStorei gl.GL_UNPACK_ALIGNMENT (Some 4)) else ret tt)
end.

Definition _update (data : option ndarray) (offset : list Z) (format level : Z)
  : M state unit :=
t <- get_self ;;
D <- D_subimage (_target t) ;;
let (uploadFun, ndim) := D in
data <- match data with Some d => ret d | None => raise AttributeError end ;;
sg <- _get_size_and_type data ndim ;;
let (size, gltype) := sg : list Z * Z in
assert (len offset =? len size) ;;
let args := [gl.Aint (_target t); gl.Aint level]
            ++ (gl.Aint <$> offset) ++ (gl.Aint <$> size)
            ++ [gl.Aint format; gl.Aint gltype; gl.Adata data] in
gl_ (uploadFun args).

End Methods.
End _RawTexture.

(** ** texture.py: Texture *)

Module Texture.
Section Methods.
Context {K : Kernels} {D : gl.Driver} {N : gl.Namespace}.
Variable ext_available : string -> bool.

Import _RawTexture.

(** [GLObject.delete] with [_delete] resolved on a texture. *)
Definition delete : M state unit := GLObject.delete _RawTexture._delete.

(** [Texture.__call__] *)
Definition __call__ (unit_ : Z) : M state unit :=
set_self (with_unit unit_).

(** "Allow strings": the name in upper case, prefixed with
  [GL_TEXTURE_] unless it starts with [GL], looked up in [gl]. *)
Definition param_name (name : string) : string :=
let param := PyStr.upper name in
if negb (PyStr.startswith "GL" param) then ("GL_TEXTURE_" ++ param)%string
else param.

Definition resolve_param {S} (param : pyparam) : M S Z :=
match param with
| ParamName name =>
    match gl.getattr (param_name name) with
    | Some enum => ret enum
    | None => raise AttributeError
    end
| ParamEnum enum => ret enum
end.

Definition set_parameter (param : pyparam) (value : Z) : M state unit :=
param <- resolve_param param ;;
set_self (fun t => with_pending_params (dict.set param value (_pending_params t)) t) ;;
set_self (fun t => with_texture_params (dict.set param value (_texture_params t)) t).

(** [MAP.get(self._target, 0)] *)
Definition MAP_get (target : Z) : nat :=
if target =? gl.GL_TEXTURE_2D then 2%nat
else if target =? gl.GL_TEXTURE_3D then 3%nat
else 0%nat.

(** [format in (None, GL_RGB, GL_RGBA, GL_LUMINANCE, GL_LUMINANCE_ALPHA, GL_ALPHA)] *)
Definition format_ok (format : option Z) : bool :=
match format with
| None => true
| Some f => bool_decide (f ∈ [gl.GL_RGB; gl.GL_RGBA; gl.GL_LUMINANCE;
                              gl.GL_LUMINANCE_ALPHA; gl.GL_ALPHA])
end.

(** "Reset if there was an error earlier" *)
Definition reset_if_error : M state unit :=
t <- get_self ;;
if _handle t <? 0 then
  set_self (with_handle 0) ;;
  set_self (with_texture_shape None)
else ret tt.

Definition set_data (data : pyvalue) (offset : option (list Z)) (level : Z)
  (format : option Z) (clim : option clim_t) : M state unit :=
reset_if_error ;;
t <- get_self ;;
let ndim := MAP_get (_target t) in
data <- match data with
        | PyArray a => ret a
        | _ => raise ValueError
        end ;;
let shape := shape data in
assert (bool_decide (List.length shape ∈ [ndim; S ndim])) ;;
let ndim := MAP_get (_target t) in
offset <- match offset with
          | Some offset =>
              assert (len offset =? len (take ndim shape)) ;;
              ret (Some offset)
          | None =>
              match _texture_shape t with
              | Some texture_shape =>
                  if bool_decide (shape = texture_shape) && (_handle t >? 0)
                  then ret (Some ((fun _ => 0) <$> take ndim texture_shape))
                  else ret None
              | None => ret None
              end
          end ;;
assert (level >=? 0) ;;
assert (format_ok format) ;;
set_self (with_pending_data (Some (mk_pending (Some data) offset level format clim))) ;;
set_self (with_texture_shape (Some shape)).

Definition set_storage (shape : list Z) (level : Z) (format : option Z)
  : M state unit :=
reset_if_error ;;
t <- get_self ;;
let ndim := MAP_get (_target t) in
let same :=
  match format, _texture_shape t with
  | None, Some texture_shape =>
      (level =? 0) && bool_decide (take ndim texture_shape = take ndim shape)
  | _, _ => false
  end in
if same then ret tt
else
  assert (bool_decide (List.length shape ∈ [ndim; S ndim])) ;;
  assert (forallb (fun i => i >? 0) shape) ;;
  assert (level >=? 0) ;;
  assert (format_ok format) ;;
  set_self (with_pending_data (Some (mk_pending None None level format None))) ;;
  set_self (with_texture_shape (Some shape)).

(** [if offset:] -- a list is true when it is not empty. *)
Definition truthy (offset : option (list Z)) : bool :=
match offset with
| Some (_ :: _) => true
| _ => false
end.

Definition _process_pending_data (data : option ndarray) (offset : option (list Z))
  (level : Z) (format : option Z) (clim : option clim_t) : M state unit :=
data <- match data with
        | Some d =>
            d' <- in_world (in_arrays (convert_data ext_available d clim)) ;;
            ret (Some d')
        | None => ret None
        end ;;
t <- get_self ;;
let shape := match data with
             | Some d => Some (shape d)
             | None => _texture_shape t
             end in
format <- match format with
          | None => get_format shape (_target t)
          | Some f => ret f
          end ;;
if truthy offset then
  gl_ (gl.glBindTexture (_target t) (_handle t)) ;;
  missing <- (if _handle t <=? 0 then ret true
              else ok <- in_world (glIsTexture (_handle t)) ;; ret (negb ok)) ;;
  if missing : bool then raise ValueError
  else _update data (default [] offset) format level
else
  delete ;;
  _create ;;
  t <- get_self ;;
  gl_ (gl.glBindTexture (_target t) (_handle t)) ;;
  match data with
  | None => _allocate shape format level
  | Some d => _upload d format level
  end ;;
  for_each (_texture_params t)
    (fun pv => gl_ (gl.glTexParameter (_target t) (fst pv) (snd pv))) ;;
  set_self (with_pending_params []).

(** [while self._pending_params: ... popitem() ...]; the dictionary
  shrinks by one item per round, so its size bounds the rounds. *)
Fixpoint flush_pending_params (rounds : nat) : M state unit :=
match rounds with
| O => ret tt
| S rounds' =>
    t <- get_self ;;
    match dict.popitem (_pending_params t) with
    | None => ret tt
    | Some ((param, value), rest) =>
        set_self (with_pending_params rest) ;;
        gl_ (gl.glTexParameter (_target t) param value) ;;
        flush_pending_params rounds'
    end
end.

Definition _enable : M state unit :=
t <- get_self ;;
if _handle t <? 0 then ret tt
else if (_target t =? gl.GL_TEXTURE_3D) && negb (ext_available "GL_texture_3D")
then set_self (with_handle (-1))
else
  invalid <-
    match _pending_data t with
    | Some pendingData =>
        set_self (with_pending_data None) ;;
        _process_pending_data (pd_data pendingData) (pd_offset pendingData)
          (pd_level pendingData) (pd_format pendingData) (pd_clim pendingData) ;;
        t <- get_self ;;
        ok <- in_world (glIsTexture (_handle t)) ;;
        if ok : bool then ret false
        else
          set_self (with_handle (-1)) ;;
          in_world (print "Warning enabling texture, the texture is not valid.") ;;
          ret true
    | None => ret false
    end ;;
  if invalid : bool then ret tt
  else
    t <- get_self ;;
    if _handle t =? 0 then ret tt
    else
      ok <- in_world (glIsTexture (_handle t)) ;;
      if negb ok then raise RuntimeError
      else
        _RawTexture._enable ;;
        t <- get_self ;;
        flush_pending_params (List.length (_pending_params t)).

(** [Texture.__init__]: the object a constructor call returns. *)
Definition __init__ (target : Z) (data : pyvalue) (format : option Z)
  (clim : option clim_t) : M world texture :=
fun w =>
  match _RawTexture.__init__ target w with
  | (Raise e, w') => (Raise e, w')
  | (Return t0, w') =>
      let body :=
        set_parameter (ParamEnum gl.GL_TEXTURE_MIN_FILTER) gl.GL_LINEAR ;;
        set_parameter (ParamEnum gl.GL_TEXTURE_MAG_FILTER) gl.GL_LINEAR ;;
        match data with
        | PyNone => ret tt
        | PyArray _ => set_data data None 0 format clim
        | PyTuple shape => set_storage shape 0 format
        | PyOther => raise ValueError
        end in
      match body (mk_state t0 w') with
      | (Return _, st) => (Return (self st), globals st)
      | (Raise e, st) => (Raise e, globals st)
      end
  end.

End Methods.
End Texture.

(** [Texture2D(...)] and [Texture3D(...)] *)
Definition Texture2D {N : gl.Namespace} := Texture.__init__ gl.GL_TEXTURE_2D.
Definition Texture3D {N : gl.Namespace} := Texture.__init__ gl.GL_TEXTURE_3D.

(** ** Reference platform

    A concrete instance of the interfaces, used to run the code on
    examples: IEEE 754 element loops built on [SpecFloat], and a driver
    that hands out texture names 1, 2, 3, ... and knows a name as a
    texture from its first bind until it is deleted. *)

Module ieee.

(** Precision and exponent bound of a floating kind. *)
Definition format (d : np.dtype) : option (Z * Z) :=
  match d with
  | np.float16 => Some (11, 16)
  | np.float32 => Some (24, 128)
  | np.float64 => Some (53, 1024)
  | np.float128 => Some (64, 16384)
  | _ => None
  end.

(** Signedness and width of an integer kind. *)
Definition width (d : np.dtype) : option (bool * Z) :=
  match d with
  | np.int8 => Some (true, 8) | np.int16 => Some (true, 16)
  | np.int32 => Some (true, 32) | np.int64 => Some (true, 64)
  | np.uint8 => Some (false, 8) | np.uint16 => Some (false, 16)
  | np.uint32 => Some (false, 32) | np.uint64 => Some (false, 64)
  | _ => None
  end.

Definition round (prec emax : Z) (f : spec_float) : spec_float :=
  match f with
  | S754_finite s m e => binary_normalize prec emax (cond_Zopp s (Zpos m)) e s
  | _ => f
  end.

(** A Python scalar as an element of precision [prec]: an [int] goes
    through a C double first, then to the element kind. *)
Definition of_pynum (prec emax : Z) (c : pynum) : spec_float :=
  match c with
  | PyInt z => round prec emax (binary_normalize PyNum.prec64 PyNum.emax64 z 0 false)
  | PyFloat f => round prec emax f
  end.

(** Truncation toward zero; not-a-number and infinities give 0. *)
Definition trunc (f : spec_float) : Z :=
  match f with
  | S754_finite s m e =>
      cond_Zopp s (if e >=? 0 then Zpos m * 2 ^ e else Z.shiftr (Zpos m) (- e))
  | _ => 0
  end.

Definition wrap (signed : bool) (bits z : Z) : Z :=
  if signed then (z + 2 ^ (bits - 1)) `mod` 2 ^ bits - 2 ^ (bits - 1)
  else z `mod` 2 ^ bits.

Definition to_Z (x : scalar) : Z :=
  match x with
  | Sbool b => if b then 1 else 0
  | Sint z => z
  | Sfloat f => trunc f
  | Sobject => 0
  end.

Definition cast (src dst : np.dtype) (x : scalar) : scalar :=
  match format dst, width dst with
  | Some (p, e), _ =>
      Sfloat match x with
             | Sfloat f => round p e f
             | _ => binary_normalize p e (to_Z x) 0 false
             end
  | None, Some (sg, bits) => Sint (wrap sg bits (to_Z x))
  | None, None => x
  end.

Definition arith (op : Z -> Z -> spec_float -> spec_float -> spec_float)
    (dt : np.dtype) (c : pynum) (x : scalar) : scalar :=
  match format dt, x with
  | Some (p, e), Sfloat f => Sfloat (op p e f (of_pynum p e c))
  | _, _ => x
  end.

(** The comparisons are made in the element kind: the scalar is brought
    to the precision of the array first, so both sides are in the same
    normal form. *)
Definition lt (dt : np.dtype) (x : scalar) (c : pynum) : bool :=
  match format dt, x with
  | Some (p, e), Sfloat f => SFltb (round p e f) (of_pynum p e c)
  | _, _ => false
  end.

Definition gt (dt : np.dtype) (x : scalar) (c : pynum) : bool :=
  match format dt, x with
  | Some (p, e), Sfloat f => SFltb (of_pynum p e c) (round p e f)
  | _, _ => false
  end.

Definition store (dt : np.dtype) (c : pynum) : scalar :=
  match format dt with
  | Some (p, e) => Sfloat (of_pynum p e c)
  | None => Sint (to_Z (Sfloat (of_pynum PyNum.prec64 PyNum.emax64 c)))
  end.

Definition kernels : Kernels :=
  {| k_cast := cast; k_isub := arith SFsub; k_imul := arith SFmul;
     k_lt := lt; k_gt := gt; k_store := store |}.

End ieee.

Module driver.

(** The names that are textures after a log of calls. *)
Fixpoint live (log : list gl.call) (acc : list Z) : list Z :=
  match log with
  | [] => acc
  | gl.glBindTexture _ h :: log' =>
      live log' (if h =? 0 then acc else h :: acc)
  | gl.glDeleteTextures hs :: log' =>
      live log' (filter (fun h => h ∉ hs) acc)
  | _ :: log' => live log' acc
  end.

Definition generated (log : list gl.call) : Z :=
  len (List.filter (fun c => match c with gl.glGenTextures _ => true | _ => false end) log).

(** A working context. *)
Definition counting : gl.Driver :=
  {| gl.gen_textures log := generated log + 1;
     gl.is_texture log h := bool_decide (h ∈ live log []) |}.

(** No usable context: no name is ever a texture. *)
Definition absent : gl.Driver :=
  {| gl.gen_textures log := 0;
     gl.is_texture log h := false |}.

(** The attributes of [gl] that are used here, by name. *)
Definition names : gl.Namespace :=
  {| gl.getattr name :=
       (list_to_map
          [("GL_TEXTURE_2D"%string, gl.GL_TEXTURE_2D);
           ("GL_TEXTURE_3D"%string, gl.GL_TEXTURE_3D);
           ("GL_TEXTURE_MIN_FILTER"%string, gl.GL_TEXTURE_MIN_FILTER);
           ("GL_TEXTURE_MAG_FILTER"%string, gl.GL_TEXTURE_MAG_FILTER);
           ("GL_LINEAR"%string, gl.GL_LINEAR)] : gmap string Z) !! name |}.

End driver.

(** ** Vocabulary of the properties *)

(** [c] run [n] times in a row. *)
Fixpoint times {S} (n : nat) (c : M S unit) : M S unit :=
  match n with
  | O => ret tt
  | S n' => c ;; times n' c
  end.

(** The shared counter of a capability. *)
Definition counter (w : world) (enum : Z) : Z :=
  default 0 (ENABLE_QUEUE w !! enum).

(** A call of [push_enable] or [pop_enable]. *)
Inductive enable_op :=
| Push (enum : Z)
| Pop (enum : Z).

Definition run_op (o : enable_op) : M world unit :=
  match o with
  | Push e => push_enable e
  | Pop e => pop_enable e
  end.

Definition run_ops (ops : list enable_op) : M world unit :=
  for_each ops run_op.

(** The element kinds [convert_data] accepts: booleans, integers and
    floating kinds. *)
Definition supported (d : np.dtype) : bool :=
  match d with
  | np.complex64 | np.complex128 | np.object_ | np.str_ | np.datetime64 => false
  | _ => true
  end.

(** The bit width of an unsigned integer kind. *)
Definition uint_bits (d : np.dtype) : option Z :=
  match d with
  | np.uint8 => Some 8
  | np.uint16 => Some 16
  | np.uint32 => Some 32
  | np.uint64 => Some 64
  | _ => None
  end.

(** The kinds OpenGL takes as they are, given the float capabilities. *)
Definition passes (FLOAT32_SUPPORT FLOAT16_SUPPORT : bool) (d : np.dtype) : Prop :=
  d = np.uint8 \/ (d = np.float16 /\ FLOAT16_SUPPORT = true)
  \/ (d = np.float32 /\ FLOAT32_SUPPORT = true).

Definition uploadable (ext_available : string -> bool) (r : ndarray) : Prop :=
  passes (ext_available "texture_float") (ext_available "texture_half_float") (dtype r).

(** The Python expression [1.0 / (clim[1] - clim[0])]. *)
Definition scale {S} (clim : clim_t) : M S pynum :=
  span <- PyNum.sub (snd clim) (fst clim) ;;
  PyNum.recip span.

(** Contrast limits that can be applied: the lower limit can be handed
    to the subtraction, and the scale can be computed. *)
Definition limits_fine (clim : option clim_t) : Prop :=
  forall c, clim = Some c ->
    (exists lo, result (PyNum.to_float (fst c)) tt = Return lo) /\
    (exists s, result (scale c) tt = Return s).

(** A store [h] that still holds every buffer of [h0], unchanged. *)
Definition extends (h0 h : heap) : Prop := exists extra, h = h0 ++ extra.

(** An array made after the store was [h0]. *)
Definition fresh (h0 : heap) (a : ndarray) : Prop :=
  (List.length h0 <= buffer a)%nat.

(** [c], started in a store that extends [h0], ends in one that extends
    [h0], with an outcome in [Q]. *)
Definition grows (h0 : heap) {A} (c : M heap A) (Q : outcome A -> Prop) : Prop :=
  forall h, extends h0 h -> extends h0 (final c h) /\ Q (result c h).

(** The kinds that come out of the first block of [convert_data]. *)
Definition gl_kind (d : np.dtype) : Prop :=
  d = np.uint8 \/ d = np.float16 \/ d = np.float32.

(** What the first block of [convert_data] leaves behind: an array of a
    kind OpenGL knows, of the shape of the input, and either a fresh one
    or the input itself, the latter only without limits and for a kind
    that will pass as it is. *)
Definition prepared_ok (h0 : heap) (F32 F16 : bool) (data : ndarray)
    (clim : option clim_t) (p : prepared) : Prop :=
  shape (p_data p) = shape data /\
  gl_kind (dtype (p_data p)) /\
  (fresh h0 (p_data p) \/
   (p_data p = data /\ p_clim p = None /\ passes F32 F16 (dtype data))) /\
  (limits_fine clim -> limits_fine (p_clim p)).

(** Example inputs: a store with an 8-bit and a 16-bit unsigned image. *)
Definition heap_ex : heap :=
  [[Sint 3; Sint 200; Sint 255; Sint 0];
   [Sint 0; Sint 32768; Sint 65535]].
Definition image8 : ndarray := mk_ndarray 0 np.uint8 [2; 2].
Definition image16 : ndarray := mk_ndarray 1 np.uint16 [1; 3].

(** A store with one 32-bit float array holding 0.5, 0.25, 0, 2, -1, 1,
    and limits far beyond the range of [float] that are two apart. *)
Definition float32_of (m e : Z) : scalar :=
  Sfloat (binary_normalize 24 128 m e false).
Definition heap_f32 : heap :=
  [[float32_of 1 (-1); float32_of 1 (-2); float32_of 0 0;
    float32_of 2 0; float32_of (-1) 0; float32_of 1 0]].
Definition image_f32 : ndarray := mk_ndarray 0 np.float32 [6].
Definition huge_limits : clim_t := (PyInt (10 ^ 400), PyInt (10 ^ 400 + 2)).

(** The calls of a full (re)upload: release, create, allocate. *)
Definition is_realloc (c : gl.call) : bool :=
  match c with
  | gl.glDeleteTextures _ | gl.glGenTextures _
  | gl.glTexImage2D _ | gl.glTexImage3D _ => true
  | _ => false
  end.

Definition no_realloc (c : gl.call) : bool := negb (is_realloc c).
Definition any_call (c : gl.call) : bool := true.

(** One step of the life of a texture: target and recorded shape stay,
    an empty pending slot stays empty, and the log of OpenGL calls grows
    by calls in [safe]. *)
Definition evolves (safe : gl.call -> bool) (st st' : state) : Prop :=
  _target (self st') = _target (self st) /\
  _texture_shape (self st') = _texture_shape (self st) /\
  (_pending_data (self st) = None -> _pending_data (self st') = None) /\
  exists calls, gl_log (globals st') = gl_log (globals st) ++ calls
                /\ forallb safe calls = true.

(** Every run of [c] is a step of [R]. *)
Definition respects {S A} (R : S -> S -> Prop) (c : M S A) : Prop :=
  forall s, R s (final c s).

(** The state an errored 2D texture of shape (4, 4) is in. *)
Definition errored_texture : texture :=
  mk_texture gl.GL_TEXTURE_2D (-1) (-1) None (Some [4; 4])
    [(gl.GL_TEXTURE_MIN_FILTER, gl.GL_LINEAR); (gl.GL_TEXTURE_MAG_FILTER, gl.GL_LINEAR)]
    [].

(** Two states of a texture with the same handle and module state. *)
Definition same_handle (st st' : state) : Prop :=
  _handle (self st') = _handle (self st) /\ globals st' = globals st.

(** A 2D texture constructed with storage of shape (4, 4), before its
    first activation. *)
Definition storage44 : texture :=
  mk_texture gl.GL_TEXTURE_2D 0 (-1) (Some (mk_pending None None 0 None None))
    (Some [4; 4])
    [(gl.GL_TEXTURE_MIN_FILTER, gl.GL_LINEAR); (gl.GL_TEXTURE_MAG_FILTER, gl.GL_LINEAR)]
    [(gl.GL_TEXTURE_MIN_FILTER, gl.GL_LINEAR); (gl.GL_TEXTURE_MAG_FILTER, gl.GL_LINEAR)].

(** A resident 2D texture of shape (4, 4): handle 1, nothing pending. *)
Definition resident44 : texture :=
  mk_texture gl.GL_TEXTURE_2D 1 (-1) None (Some [4; 4])
    [(gl.GL_TEXTURE_MIN_FILTER, gl.GL_LINEAR); (gl.GL_TEXTURE_MAG_FILTER, gl.GL_LINEAR)]
    [].

(** The sub-image function of a target. *)
Definition glTexSubImage (target : Z) : list gl.arg -> gl.call :=
  if target =? gl.GL_TEXTURE_2D then gl.glTexSubImage2D else gl.glTexSubImage3D.

(** The argument list of a sub-image update of [data] at the origin. *)
Definition update_args (target level : Z) (ndim : nat) (data : ndarray)
    (format gltype : Z) : list gl.arg :=
  [gl.Aint target; gl.Aint level]
  ++ (gl.Aint <$> replicate ndim 0)
  ++ (gl.Aint <$> reverse (take ndim (shape data)))
  ++ [gl.Aint format; gl.Aint gltype; gl.Adata data].

(** A resident 2D texture holding the 8-bit example image, and the module
    state with the example store. *)
Definition resident22 : texture :=
  mk_texture gl.GL_TEXTURE_2D 1 (-1) None (Some [2; 2])
    [(gl.GL_TEXTURE_MIN_FILTER, gl.GL_LINEAR); (gl.GL_TEXTURE_MAG_FILTER, gl.GL_LINEAR)]
    [].
Definition world_ex : world := set_arrays heap_ex world0.

(** ** __init__.py: the context manager protocol of GLObject

    [__enter__] and [__exit__] as they resolve on a texture ([_enable] is
    overloaded by [Texture], [_disable] is inherited from [_RawTexture]),
    and the statement [with texture: body]. *)

Module ContextManager.
Section Methods.
Context {K : Kernels} {D : gl.Driver}.
Variable ext_available : string -> bool.

Definition __enter__ : M state unit := Texture._enable ext_available.

Definition __exit__ : M state unit := _RawTexture._disable.

(** [with self: body]: [__exit__] runs when the body returns and when it
    raises; it returns nothing, so the exception of the body goes on. *)
Definition with_ (body : M state unit) : M state unit :=
  __enter__ ;;
  fun st =>
    match body st with
    | (Return _, st') => __exit__ st'
    | (Raise e, st') =>
        match __exit__ st' with
        | (Return _, st'') => (Raise e, st'')
        | (Raise e', st'') => (Raise e', st'')
        end
    end.

End Methods.
End ContextManager.

(** [d.get(k)] on a parameter dictionary. *)
Definition dict_get (k : Z) (d : list (Z * Z)) : option Z :=
  snd <$> List.find (fun kv => fst kv =? k) d.

(** The keys of a parameter dictionary, in insertion order. *)
Definition dict_keys (d : list (Z * Z)) : list Z := fst <$> d.

(** The bit width of a signed integer kind. *)
Definition int_bits (d : np.dtype) : option Z :=
  match d with
  | np.int8 => Some 8
  | np.int16 => Some 16
  | np.int32 => Some 32
  | np.int64 => Some 64
  | _ => None
  end.

(** Two states with the same module state: nothing was sent to OpenGL,
    no array was touched. *)
Definition same_world (st st' : state) : Prop := globals st' = globals st.

(** The texture the reset step of [set_data] and [set_storage] leaves. *)
Definition after_reset (t : texture) : texture :=
  if _handle t <? 0 then with_texture_shape None (with_handle 0 t) else t.

(** The image function of a target (full upload). *)
Definition glTexImage (target : Z) : list gl.arg -> gl.call :=
  if target =? gl.GL_TEXTURE_2D then gl.glTexImage2D else gl.glTexImage3D.

(** The calls that replay a parameter dictionary on a target. *)
Definition parameter_calls (target : Z) (d : list (Z * Z)) : list gl.call :=
  (fun pv => gl.glTexParameter target (fst pv) (snd pv)) <$> d.

(** The alignment the upload chooses for a row of [width] elements. *)
Definition alignment_of (width : Z) : Z :=
  if width `mod` 4 =? 0 then 4 else if width `mod` 2 =? 0 then 2 else 1.

(** The number of channels a format stands for when deduced from a shape. *)
Definition format_of_channels (c : Z) : option Z :=
  if c =? 1 then Some gl.GL_LUMINANCE
  else if c =? 2 then Some gl.GL_LUMINANCE_ALPHA
  else if c =? 3 then Some gl.GL_RGB
  else if c =? 4 then Some gl.GL_RGBA
  else None.

(** [d'] is [d] after [d[k] = v]: the value is there, the other keys
    keep theirs, a key that was there keeps its position and a new one
    goes to the end, and no key is duplicated. *)
Definition recorded (k v : Z) (d d' : list (Z * Z)) : Prop :=
  dict_get k d' = Some v /\
  (forall q, q <> k -> dict_get q d' = dict_get q d) /\
  dict_keys d' = (if bool_decide (k ∈ dict_keys d) then dict_keys d
                  else dict_keys d ++ [k]) /\
  (NoDup (dict_keys d) -> NoDup (dict_keys d')).

(** The capability a call of [push_enable] or [pop_enable] is about. *)
Definition op_enum (o : enable_op) : Z :=
  match o with
  | Push e => e
  | Pop e => e
  end.

(** The argument list of a full image call. *)
Definition image_args (target level format : Z) (size : list Z) (gltype : Z)
    (pixels : gl.arg) : list gl.arg :=
  [gl.Aint target; gl.Aint level; gl.Aint format]
  ++ (gl.Aint <$> size)
  ++ [gl.Aint 0; gl.Aint format; gl.Aint gltype; pixels].

(** Calls issued under an unpack alignment other than the default 4. *)
Definition with_alignment (alignment : Z) (calls : list gl.call) : list gl.call :=
  if alignment =? 4 then calls
  else [gl.glPixelStorei gl.GL_UNPACK_ALIGNMENT (Some alignment)]
       ++ calls
       ++ [gl.glPixelStorei gl.GL_UNPACK_ALIGNMENT (Some 4)].

(** What [delete] sends for a texture. *)
Definition release_calls (t : texture) : list gl.call :=
  if _handle t >? 0 then [gl.glDeleteTextures [_handle t]] else [].

(** The unpack alignment in force after a log of calls; 4 is the default
    of OpenGL. *)
Definition unpack_alignment (log : list gl.call) : Z :=
  fold_left
    (fun a c =>
       match c with
       | gl.glPixelStorei pname (Some v) =>
           if pname =? gl.GL_UNPACK_ALIGNMENT then v else a
       | _ => a
       end)
    log 4.

(** The warning of an activation whose upload left no valid texture. *)
Definition warning : string :=
  "Warning enabling texture, the texture is not valid.".

(** * Properties *)

(** ** The monad *)

Section MonadFacts.
Context {S : Type}.

Lemma run_bind {A B} (c : M S A) (k : A -> M S B) s a s' :
  c s = (Return a, s') -> bind c k s = k a s'.
Proof. intros E. unfold bind. now rewrite E. Qed.

Lemma run_bind_raise {A B} (c : M S A) (k : A -> M S B) s e s' :
  c s = (Raise e, s') -> bind c k s = (Raise e, s').
Proof. intros E. unfold bind. now rewrite E. Qed.

Lemma times_succ_r (n : nat) (c : M S unit) s :
  result (times n c) s = Return tt ->
  times (Datatypes.S n) c s = c (final (times n c) s).
Proof.
  revert s. induction n as [|n IH]; intros s R.
  - cbn. unfold bind, final. cbn. destruct (c s) as [[[]|e] s']; reflexivity.
  - unfold result, final in *.
    change (times (Datatypes.S (Datatypes.S n)) c)
      with (bind c (fun _ => times (Datatypes.S n) c)).
    change (times (Datatypes.S n) c s)
      with (bind c (fun _ => times n c) s) in R |- *.
    destruct (c s) as [[[]|e] s1] eqn:E.
    + rewrite (run_bind _ _ _ _ _ E) in R.
      rewrite !(run_bind _ _ _ _ _ E). apply IH, R.
    + rewrite (run_bind_raise _ _ _ _ _ E) in R. discriminate.
Qed.

End MonadFacts.

(** ** The enable counter *)

Section EnableCounter.

Lemma push_enable_run enum w :
  push_enable enum w =
    (Return tt,
     mk_world (arrays w) (<[enum := counter w enum + 1]> (ENABLE_QUEUE w))
              (gl_log w ++ (if counter w enum =? 0 then [gl.glEnable enum] else []))
              (stdout w)).
Proof.
  unfold push_enable, queue_get, queue_set, gl_call, bind, get, modify, ret, counter.
  cbn. destruct (default 0 (ENABLE_QUEUE w !! enum) =? 0); cbn.
  - reflexivity.
  - now rewrite app_nil_r.
Qed.

Lemma pop_enable_run enum w :
  pop_enable enum w =
    (Return tt,
     mk_world (arrays w) (<[enum := Z.max 0 (counter w enum - 1)]> (ENABLE_QUEUE w))
              (gl_log w ++ (if counter w enum =? 1 then [gl.glDisable enum] else []))
              (stdout w)).
Proof.
  unfold pop_enable, queue_get, queue_set, gl_call, bind, get, modify, ret, counter.
  cbn. destruct (default 0 (ENABLE_QUEUE w !! enum) =? 1); cbn.
  - reflexivity.
  - now rewrite app_nil_r.
Qed.

Lemma counter_insert q a l o enum v :
  counter (mk_world a (<[enum := v]> q) l o) enum = v.
Proof. unfold counter. cbn. now rewrite lookup_insert_eq. Qed.

Lemma counter_insert_ne q a l o enum e v :
  enum <> e -> counter (mk_world a (<[enum := v]> q) l o) e
               = default 0 (q !! e).
Proof. intros Hne. unfold counter. cbn. now rewrite lookup_insert_ne. Qed.

(** [j >= 1] pushes on a capability at rest: one [glEnable], counter [j]. *)
Lemma pushes_run enum w (j : nat) :
  counter w enum = 0 -> (1 <= j)%nat ->
  result (times j (push_enable enum)) w = Return tt /\
  counter (final (times j (push_enable enum)) w) enum = Z.of_nat j /\
  gl_log (final (times j (push_enable enum)) w) = gl_log w ++ [gl.glEnable enum].
Proof.
  intros H0 Hj. induction j as [|j IH]; [lia|].
  destruct (decide (j = 0%nat)) as [->|Hne].
  - unfold result, final. cbn. unfold bind. rewrite push_enable_run. cbn.
    rewrite counter_insert, H0. cbn. auto.
  - destruct IH as (R & C & L); [lia|].
    unfold result, final in *. rewrite (times_succ_r _ _ _ R).
    rewrite push_enable_run. cbn. rewrite counter_insert.
    unfold final in *. rewrite C, L.
    replace (Z.of_nat j =? 0) with false by lia.
    rewrite app_nil_r. repeat split; [lia].
Qed.

(** [k] pops after that: the counter goes down to zero and stays there;
    [glDisable] is issued by the pop that finds the counter at one. *)
Lemma pops_run enum w (n : Z) (k : nat) :
  counter w enum = n -> 0 <= n ->
  result (times k (pop_enable enum)) w = Return tt /\
  counter (final (times k (pop_enable enum)) w) enum = Z.max 0 (n - Z.of_nat k) /\
  gl_log (final (times k (pop_enable enum)) w) =
    gl_log w ++ (if bool_decide (1 <= n <= Z.of_nat k) then [gl.glDisable enum] else []).
Proof.
  intros Hn Hpos. induction k as [|k IH].
  - unfold result, final. cbn. rewrite Hn.
    rewrite bool_decide_eq_false_2 by lia. rewrite app_nil_r.
    repeat split; lia.
  - destruct IH as (R & C & L).
    unfold result, final in *. rewrite (times_succ_r _ _ _ R).
    rewrite pop_enable_run. cbn. rewrite counter_insert.
    unfold final in *. rewrite C, L. split; [reflexivity|]. split; [lia|].
    rewrite <- app_assoc. f_equal.
    destruct (Z.max 0 (n - Z.of_nat k) =? 1) eqn:E1.
    + rewrite (bool_decide_eq_false_2 (1 <= n <= Z.of_nat k)) by lia.
      rewrite bool_decide_eq_true_2 by lia. reflexivity.
    + destruct (decide (1 <= n <= Z.of_nat k)) as [Y|Nn].
      * rewrite (bool_decide_eq_true_2 _ Y).
        rewrite bool_decide_eq_true_2 by lia. reflexivity.
      * rewrite (bool_decide_eq_false_2 _ Nn).
        rewrite bool_decide_eq_false_2 by lia. reflexivity.
Qed.

(** No call of either function makes a counter negative. *)
Lemma run_ops_nonneg ops : forall w,
  (forall e, 0 <= counter w e) ->
  result (run_ops ops) w = Return tt /\
  forall e, 0 <= counter (final (run_ops ops) w) e.
Proof.
  induction ops as [|o ops IH]; intros w Hw.
  - split; [reflexivity | exact Hw].
  - unfold run_ops, result, final in *. cbn [for_each]. unfold bind.
    assert (Hstep : exists w1, run_op o w = (Return tt, w1) /\
                               forall e, 0 <= counter w1 e).
    { destruct o as [enum|enum]; cbn [run_op];
        [rewrite push_enable_run | rewrite pop_enable_run];
        eexists; (split; [reflexivity|]); intros e;
        destruct (decide (enum = e)) as [->|Hne];
        rewrite ?counter_insert; try (rewrite counter_insert_ne by done);
        try apply Hw; specialize (Hw e); lia. }
    destruct Hstep as (w1 & -> & Hw1). apply IH, Hw1.
Qed.

End EnableCounter.

(** C7.  For every capability and every [N >= 1], [N] calls of
    [push_enable] followed by [N] calls of [pop_enable], on a capability
    whose counter is at rest, bring the counter back to exactly 0; the only
    calls into OpenGL are one [glEnable], made by the first push, and one
    [glDisable], made by the last pop.  Further pops leave the counter at
    0, and no sequence of pushes and pops, whatever their order and
    number, makes a counter negative. *)
Theorem enable_refcount (enum : Z) (N : nat) (w : world) :
  (1 <= N)%nat ->
  counter w enum = 0 ->
  let pushed := final (times N (push_enable enum)) w in
  let popped := final (times N (pop_enable enum)) pushed in
  result (times N (push_enable enum) ;; times N (pop_enable enum)) w = Return tt /\
  counter popped enum = 0 /\
  gl_log popped = gl_log w ++ [gl.glEnable enum; gl.glDisable enum] /\
  gl_log (final (push_enable enum) w) = gl_log w ++ [gl.glEnable enum] /\
  gl_log pushed = gl_log w ++ [gl.glEnable enum] /\
  gl_log (final (times (N - 1) (pop_enable enum)) pushed)
    = gl_log w ++ [gl.glEnable enum] /\
  (forall k : nat, (N <= k)%nat ->
     counter (final (times k (pop_enable enum)) pushed) enum = 0) /\
  (forall (ops : list enable_op) (w0 : world),
     (forall e, 0 <= counter w0 e) ->
     forall e, 0 <= counter (final (run_ops ops) w0) e).
Proof.
  intros HN H0 pushed popped.
  destruct (pushes_run enum w N H0 HN) as (Rp & Cp & Lp).
  fold pushed in Cp, Lp.
  assert (Hpos : 0 <= Z.of_nat N) by lia.
  split.
  { unfold result in *. unfold bind.
    destruct (times N (push_enable enum) w) as [[[]|e] w1] eqn:E; [|discriminate].
    apply (pops_run enum w1 (counter w1 enum) N eq_refl).
    assert (w1 = pushed) as -> by (unfold pushed, final; now rewrite E).
    lia. }
  destruct (pops_run enum pushed _ N Cp Hpos) as (_ & Cq & Lq).
  fold popped in Cq, Lq.
  split; [lia|]. split.
  { rewrite Lq, Lp, bool_decide_eq_true_2 by lia. now rewrite <- app_assoc. }
  split.
  { unfold final. rewrite push_enable_run. cbn. now rewrite H0. }
  split; [exact Lp|]. split.
  { destruct (pops_run enum pushed _ (N - 1) Cp Hpos) as (_ & _ & L1).
    rewrite L1, Lp, bool_decide_eq_false_2 by lia. now rewrite app_nil_r. }
  split.
  { intros k Hk. destruct (pops_run enum pushed _ k Cp Hpos) as (_ & C1 & _). lia. }
  intros ops w0 Hw0. apply run_ops_nonneg, Hw0.
Qed.

Lemma enable_refcount_witness :
  (1 <= 3)%nat /\
  counter world0 gl.GL_TEXTURE_2D = 0 /\
  counter (final (times 3 (pop_enable gl.GL_TEXTURE_2D))
             (final (times 3 (push_enable gl.GL_TEXTURE_2D)) world0))
          gl.GL_TEXTURE_2D = 0.
Proof.
  split; [lia|]. split; [reflexivity|].
  exact (proj1 (proj2 (enable_refcount gl.GL_TEXTURE_2D 3 world0
                         ltac:(lia) eq_refl))).
Defined.

(** ** Conversion: which buffers are written, and what comes back *)

(** Scalar arithmetic does not look at the state. *)

Lemma of_int_run {S} (z : Z) (s : S) :
  PyNum.of_int z s = (result (PyNum.of_int z) tt, s).
Proof.
  unfold PyNum.of_int, result.
  destruct (binary_normalize _ _ _ _ _); reflexivity.
Qed.

Lemma sub_run {S} (a b : pynum) (s : S) :
  PyNum.sub a b s = (result (PyNum.sub a b) tt, s).
Proof.
  unfold PyNum.sub, result.
  destruct a as [x|f], b as [y|g]; try reflexivity;
    unfold bind; rewrite (of_int_run _ s), (of_int_run _ tt); cbn;
    destruct (result (PyNum.of_int _) tt); reflexivity.
Qed.

Lemma recip_run {S} (x : pynum) (s : S) :
  PyNum.recip x s = (result (PyNum.recip x) tt, s).
Proof.
  unfold PyNum.recip, result.
  destruct x as [z|g].
  - destruct (z =? 0); [reflexivity|].
    unfold bind; rewrite (of_int_run _ s), (of_int_run _ tt); cbn;
      destruct (result (PyNum.of_int _) tt); reflexivity.
  - destruct (SFeqb g PyNum.zero); reflexivity.
Qed.

Lemma of_int_raises z e :
  result (PyNum.of_int z) tt = Raise e -> e = OverflowError.
Proof.
  unfold PyNum.of_int, result.
  destruct (binary_normalize _ _ _ _ _); cbn; congruence.
Qed.

Lemma sub_raises a b e :
  result (PyNum.sub a b) tt = Raise e -> e = OverflowError.
Proof.
  unfold PyNum.sub, result.
  destruct a as [x|f], b as [y|g]; cbn; try discriminate;
    unfold bind; rewrite (of_int_run _ tt);
    destruct (result (PyNum.of_int _) tt) eqn:E; cbn; try discriminate;
    intros [= <-]; apply of_int_raises in E; exact E.
Qed.

Lemma recip_raises x e :
  result (PyNum.recip x) tt = Raise e ->
  e = ZeroDivisionError \/ e = OverflowError.
Proof.
  unfold PyNum.recip, result.
  destruct x as [z|g].
  - destruct (z =? 0); cbn; [intros [= <-]; now left|].
    unfold bind; rewrite (of_int_run _ tt);
      destruct (result (PyNum.of_int _) tt) eqn:E; cbn; try discriminate.
    intros [= <-]; apply of_int_raises in E; now right.
  - destruct (SFeqb g PyNum.zero); cbn; [intros [= <-]; now left|discriminate].
Qed.

Lemma to_float_run {S} (x : pynum) (s : S) :
  PyNum.to_float x s = (result (PyNum.to_float x) tt, s).
Proof. destruct x; [apply of_int_run | reflexivity]. Qed.

Lemma to_float_raises x e :
  result (PyNum.to_float x) tt = Raise e -> e = OverflowError.
Proof. destruct x; [apply of_int_raises | discriminate]. Qed.

Section Frame.
Context {K : Kernels}.
(** The store at the time of the call. *)
Variable h0 : heap.

Lemma extends_refl : extends h0 h0.
Proof. exists []. now rewrite app_nil_r. Qed.

Lemma grows_ret {A} (a : A) (Q : outcome A -> Prop) :
  Q (Return a) -> grows h0 (ret a) Q.
Proof. intros HQ h Hh. split; assumption. Qed.

Lemma grows_raise {A} (e : exn) (Q : outcome A -> Prop) :
  Q (Raise e) -> grows h0 (raise e) Q.
Proof. intros HQ h Hh. split; assumption. Qed.

Lemma grows_bind {A B} (c : M heap A) (k : A -> M heap B) P (Q : outcome B -> Prop) :
  grows h0 c P ->
  (forall a, P (Return a) -> grows h0 (k a) Q) ->
  (forall e, P (Raise e) -> Q (Raise e)) ->
  grows h0 (bind c k) Q.
Proof.
  intros Hc Hk He h Hh. destruct (Hc h Hh) as [E1 P1].
  unfold final, result, bind in *.
  destruct (c h) as [[a|e] h1]; cbn in *.
  - apply (Hk a P1 h1 E1).
  - split; [exact E1 | apply He, P1].
Qed.

Lemma grows_weaken {A} (c : M heap A) (P Q : outcome A -> Prop) :
  grows h0 c P -> (forall o, P o -> Q o) -> grows h0 c Q.
Proof. intros Hc HPQ h Hh. destruct (Hc h Hh). split; auto. Qed.

(** Scalar steps: the store is not involved. *)
Lemma grows_pure {A} (c : M heap A) (o : outcome A) (Q : outcome A -> Prop) :
  (forall h, c h = (o, h)) -> Q o -> grows h0 c Q.
Proof.
  intros Hc HQ h Hh. unfold final, result. rewrite Hc. split; assumption.
Qed.

Lemma grows_alloc dt shp xs :
  grows h0 (alloc dt shp xs)
    (fun o => exists r, o = Return r /\ fresh h0 r /\ dtype r = dt /\ shape r = shp).
Proof.
  intros h [extra ->]. split.
  - exists (extra ++ [xs]). unfold final, alloc. cbn. now rewrite app_assoc.
  - eexists. split; [reflexivity|]. unfold fresh. cbn.
    rewrite length_app. repeat split. lia.
Qed.

Lemma grows_astype a dt :
  grows h0 (astype a dt)
    (fun o => exists r, o = Return r /\ fresh h0 r /\ dtype r = dt
                        /\ shape r = shape a).
Proof. intros h Hh. apply (grows_alloc _ _ _ h Hh). Qed.

Lemma grows_copy a :
  grows h0 (copy a)
    (fun o => exists r, o = Return r /\ fresh h0 r /\ dtype r = dtype a
                        /\ shape r = shape a).
Proof. intros h Hh. apply (grows_alloc _ _ _ h Hh). Qed.

(** Writing into a fresh array leaves the buffers of [h0] alone. *)
Lemma grows_inplace a f :
  fresh h0 a -> grows h0 (inplace a f) (fun o => o = Return tt).
Proof.
  intros Hf h [extra ->]. split; [|reflexivity].
  unfold final, inplace, modify. cbn.
  exists (alter (fmap f) (buffer a - List.length h0)%nat extra).
  unfold fresh in Hf.
  now rewrite alter_app_r_alt by lia.
Qed.

(** An operation with a scalar operand raises when the operand cannot
    be converted, and then writes nothing; otherwise it writes into its
    array. *)
Lemma grows_operand c (k : M heap unit) :
  grows h0 k (fun o => o = Return tt) ->
  grows h0 (PyNum.to_float c ;; k)
    (fun o => o = match result (PyNum.to_float c) tt with
                  | Return _ => Return tt
                  | Raise e => Raise e
                  end).
Proof.
  intros Hk.
  apply grows_bind with (P := fun o => o = result (PyNum.to_float c) tt).
  - eapply grows_pure; [intros; apply to_float_run | reflexivity].
  - intros f Hf. rewrite <- Hf. exact Hk.
  - intros e He. now rewrite <- He.
Qed.

Lemma grows_isub a c :
  fresh h0 a ->
  grows h0 (isub a c)
    (fun o => o = match result (PyNum.to_float c) tt with
                  | Return _ => Return tt
                  | Raise e => Raise e
                  end).
Proof. intros Hf. apply grows_operand, grows_inplace, Hf. Qed.

Lemma grows_imul_float a f :
  fresh h0 a -> grows h0 (imul a (PyFloat f)) (fun o => o = Return tt).
Proof.
  intros Hf. eapply grows_weaken; [apply grows_operand, grows_inplace, Hf|].
  intros o ->. reflexivity.
Qed.

Lemma grows_assign_lt_float a f g :
  fresh h0 a ->
  grows h0 (assign_where_lt a (PyFloat f) (PyFloat g)) (fun o => o = Return tt).
Proof.
  intros Hf. eapply grows_weaken; [apply grows_operand|].
  - eapply grows_weaken; [apply grows_operand, grows_inplace, Hf|].
    intros o ->. reflexivity.
  - intros o ->. reflexivity.
Qed.

Lemma grows_assign_gt_float a f g :
  fresh h0 a ->
  grows h0 (assign_where_gt a (PyFloat f) (PyFloat g)) (fun o => o = Return tt).
Proof.
  intros Hf. eapply grows_weaken; [apply grows_operand|].
  - eapply grows_weaken; [apply grows_operand, grows_inplace, Hf|].
    intros o ->. reflexivity.
  - intros o ->. reflexivity.
Qed.

(** *** The three blocks of [convert_data] *)

Lemma extends_app extra xs : extends h0 ((h0 ++ extra) ++ xs).
Proof. exists (extra ++ xs). now rewrite app_assoc. Qed.

Lemma extends_base extra : extends h0 (h0 ++ extra).
Proof. now exists extra. Qed.

Lemma fresh_alloc extra dt shp :
  fresh h0 (mk_ndarray (List.length (h0 ++ extra)) dt shp).
Proof. unfold fresh. cbn. rewrite length_app. lia. Qed.

Lemma determine_clim_spec F32 F16 data clim :
  grows h0 (determine_clim F32 F16 data clim)
    (fun o => (forall p, o = Return p -> prepared_ok h0 F32 F16 data clim p)
           /\ (supported (dtype data) = true -> exists p, o = Return p)
           /\ (forall e, o = Raise e -> supported (dtype data) = false)).
Proof.
  intros h [extra ->]. destruct data as [b dt shp].
  destruct dt; cbn.
  all: try (destruct clim as [c|]); try destruct F16; try destruct F32; cbn.
  all: (split; [first [apply extends_app | apply extends_base]|]).
  all: (split; [|split; [first [intros _; eexists; reflexivity | discriminate]
                        | first [discriminate | reflexivity]]]).
  all: try discriminate.
  all: intros p [= <-]; unfold prepared_ok; cbn.
  all: (split; [reflexivity|]).
  all: (split; [unfold gl_kind; auto|]).
  all: (split; [first [left; apply fresh_alloc
                      | right; unfold passes; auto 6]|]).
  all: try (intros Hl; exact Hl).
  all: intros _ c' [= <-]; try discriminate.
  all: split; eexists; vm_compute; reflexivity.
Qed.

Lemma apply_limits_spec d clim :
  fresh h0 d \/ clim = None ->
  grows h0 (apply_limits d clim)
    (fun o => (limits_fine clim -> o = Return tt) /\
              (forall e, o = Raise e -> e = ZeroDivisionError \/ e = OverflowError)).
Proof.
  intros Hd. destruct clim as [[lo hi]|].
  2: { apply grows_ret. split; [reflexivity | discriminate]. }
  destruct Hd as [Hd|]; [|discriminate].
  unfold apply_limits.
  apply grows_bind
    with (P := fun o => (limits_fine (Some (lo, hi)) -> o = Return tt) /\
                        (forall e, o = Raise e -> e = OverflowError)).
  { destruct (PyNum.ne_zero lo).
    - eapply grows_weaken; [apply grows_isub, Hd|].
      intros o ->. destruct (result (PyNum.to_float lo) tt) as [f|e0] eqn:E.
      + split; [reflexivity | discriminate].
      + split.
        * intros Hl. destruct (Hl _ eq_refl) as [[f Hf] _]. cbn in Hf. congruence.
        * intros e' [= <-]. eapply to_float_raises, E.
    - apply grows_ret. split; [reflexivity | discriminate]. }
  2: { intros e [Hfine Hexn]. split; [exact Hfine|].
       intros e' [= <-]. right. apply Hexn. reflexivity. }
  intros _ _.
  assert (Hsub : grows h0 (PyNum.sub hi lo)
                   (fun o => o = result (PyNum.sub hi lo) tt)).
  { eapply grows_pure; [intros; apply sub_run | reflexivity]. }
  assert (Hraise : forall e, Raise e = result (PyNum.sub hi lo) tt ->
            (limits_fine (Some (lo, hi)) -> @Raise unit e = Return tt) /\
            (forall e', @Raise unit e = Raise e' ->
                        e' = ZeroDivisionError \/ e' = OverflowError)).
  { intros e He. split.
    - intros Hl. destruct (Hl _ eq_refl) as [_ [s Hs]].
      unfold scale, result, bind in Hs. cbn in Hs.
      rewrite (sub_run hi lo tt), <- He in Hs. discriminate.
    - intros e' [= <-]. right. eapply sub_raises. symmetry. exact He. }
  apply grows_bind with (P := fun o => o = result (PyNum.sub hi lo) tt);
    [exact Hsub | | exact Hraise].
  intros span Hspan.
  destruct (PyNum.ne_one span).
  2: { apply grows_ret. split; [reflexivity | discriminate]. }
  apply grows_bind with (P := fun o => o = result (PyNum.sub hi lo) tt);
    [exact Hsub | | exact Hraise].
  intros span' Hspan'. assert (span' = span) as -> by congruence.
  apply grows_bind with (P := fun o => o = result (PyNum.recip span) tt).
  { eapply grows_pure; [intros; apply recip_run | reflexivity]. }
  - intros sc Hsc.
    assert (Esc : exists f, sc = PyFloat f).
    { clear -Hsc. unfold PyNum.recip, result in Hsc. destruct span as [z|g].
      - destruct (z =? 0); [discriminate|].
        unfold bind in Hsc. rewrite (of_int_run _ tt) in Hsc.
        destruct (result (PyNum.of_int z) tt); cbn in Hsc; [|discriminate].
        injection Hsc as ->. eauto.
      - destruct (SFeqb g PyNum.zero); [discriminate|].
        cbn in Hsc. injection Hsc as ->. eauto. }
    destruct Esc as [f ->].
    eapply grows_weaken; [apply grows_imul_float, Hd|].
    intros o ->. split; [reflexivity | discriminate].
  - intros e He. split.
    + intros Hl. destruct (Hl _ eq_refl) as [_ [s Hs]].
      unfold scale, result, bind in Hs. cbn in Hs.
      rewrite (sub_run hi lo tt), <- Hspan in Hs.
      rewrite (recip_run span tt), <- He in Hs. discriminate.
    + intros e' [= <-]. eapply recip_raises. symmetry. exact He.
Qed.

Lemma convert_if_necessary_spec F32 F16 d :
  gl_kind (dtype d) ->
  fresh h0 d \/ passes F32 F16 (dtype d) ->
  grows h0 (convert_if_necessary F32 F16 d)
    (fun o => exists r, o = Return r /\ passes F32 F16 (dtype r)
                        /\ shape r = shape d).
Proof.
  intros Hk Hd. unfold convert_if_necessary.
  assert (Hpass : passes F32 F16 (dtype d) ->
            grows h0 (ret d) (fun o => exists r, o = Return r /\
              passes F32 F16 (dtype r) /\ shape r = shape d)).
  { intros Hp. apply grows_ret. eauto. }
  assert (Hconv : fresh h0 d ->
    grows h0
      (imul d (PyFloat (PyNum.of_Z 256)) ;;
       assign_where_lt d (PyFloat PyNum.zero) (PyFloat PyNum.zero) ;;
       assign_where_gt d (PyFloat (PyNum.of_Z 256)) (PyFloat (PyNum.of_Z 256)) ;;
       astype d np.uint8)
      (fun o => exists r, o = Return r /\ passes F32 F16 (dtype r)
                          /\ shape r = shape d)).
  { intros Hf.
    repeat (apply grows_bind with (P := fun o => o = Return tt);
            [first [apply grows_imul_float | apply grows_assign_lt_float
                   | apply grows_assign_gt_float]; exact Hf
            | intros _ _ | intros e [=]]).
    eapply grows_weaken; [apply grows_astype|].
    intros o (r & -> & _ & Hdt & Hsh). exists r. unfold passes. auto. }
  destruct Hk as [Hk|[Hk|Hk]]; rewrite Hk in *; cbn.
  - apply Hpass. unfold passes. auto.
  - destruct F16; cbn.
    + apply Hpass. unfold passes. auto.
    + apply Hconv. destruct Hd as [Hd|[Hd|[[_ Hd]|[Hd _]]]];
        [exact Hd | discriminate.. ].
  - destruct F32; cbn.
    + apply Hpass. unfold passes. auto.
    + apply Hconv. destruct Hd as [Hd|[Hd|[[Hd _]|[_ Hd]]]];
        [exact Hd | discriminate.. ].
Qed.

(** [convert_data]: the buffers of [h0] are kept as they are; what is
    returned has the shape of the input and a kind OpenGL accepts; for a
    supported kind the only way to raise is the arithmetic on the
    limits. *)
Lemma convert_data_spec ext_available data clim :
  grows h0 (convert_data ext_available data clim)
    (fun o =>
       (forall r, o = Return r ->
          uploadable ext_available r /\ shape r = shape data) /\
       (supported (dtype data) = true -> limits_fine clim ->
          exists r, o = Return r) /\
       (supported (dtype data) = true -> forall e, o = Raise e ->
          e = ZeroDivisionError \/ e = OverflowError)).
Proof.
  unfold convert_data.
  eapply grows_bind; [apply determine_clim_spec | |].
  - intros p (Hp & _ & _).
    destruct (Hp p eq_refl) as (Hsh & Hk & Hd & Hl).
    eapply grows_bind.
    + apply apply_limits_spec. destruct Hd as [Hd|(_ & Hd & _)]; auto.
    + intros [] _. eapply grows_weaken.
      * apply convert_if_necessary_spec; [exact Hk|].
        destruct Hd as [Hd|(E & _ & Hd)]; [now left | right; now rewrite E].
      * intros o (r & -> & Hr & Hs). cbn. split; [|split].
        -- intros r' [= <-]. split; [exact Hr | congruence].
        -- eauto.
        -- discriminate.
    + intros e (Hfine & Hexn). cbn. split; [discriminate|]. split.
      * intros _ Hc. specialize (Hfine (Hl Hc)). discriminate.
      * intros _ e' [= <-]. apply Hexn. reflexivity.
  - intros e (_ & Hsup & Huns). cbn. split; [discriminate|]. split.
    + intros Hs. destruct (Hsup Hs) as [p Hp]. discriminate.
    + intros Hs. specialize (Huns e eq_refl). congruence.
Qed.

End Frame.

Section Conversion.
Context {K : Kernels}.
Variable ext_available : string -> bool.

(** C10.  [convert_data] never writes into a buffer that existed when
    it was called: whatever the input, the limits and the outcome, the
    store it leaves is the store it found followed by the buffers it
    allocated itself, so every in-place operation went to an array
    produced by [astype] or [copy]; in particular the contents of the
    caller's array are the same before and after. *)
Theorem convert_data_frame (data : ndarray) (clim : option clim_t) (h : heap) :
  (exists allocated,
     final (convert_data ext_available data clim) h = h ++ allocated) /\
  (forall (i : nat) (xs : list scalar),
     h !! i = Some xs ->
     final (convert_data ext_available data clim) h !! i = Some xs) /\
  ((buffer data < List.length h)%nat ->
     contents (final (convert_data ext_available data clim) h) data
     = contents h data).
Proof.
  destruct (convert_data_spec h ext_available data clim h (extends_refl h))
    as [[allocated E] _].
  split; [eauto|]. split.
  - intros i xs Hi. rewrite E. now apply lookup_app_l_Some.
  - intros Hb. unfold contents. rewrite E.
    now rewrite lookup_app_l by exact Hb.
Qed.

(** C9.  An unsigned 8-bit array without contrast limits comes back as
    it is: the result is the very same array object (same buffer, no
    copy), and the store, hence every byte of the array, is
    untouched. *)
Theorem convert_data_uint8_passthrough (data : ndarray) (h : heap) :
  dtype data = np.uint8 ->
  convert_data ext_available data None h = (Return data, h).
Proof.
  intros Hd. destruct data as [b dt shp]. cbn in Hd. subst dt. reflexivity.
Qed.


End Conversion.

(** ** Steps of a texture *)

Section Respects.
Context {S : Type} (R : S -> S -> Prop).
Hypothesis R_preorder : PreOrder R.

Lemma respects_run {A} (c : M S A) s : respects R c -> R s (final c s).
Proof. intros Hc. apply Hc. Qed.

Lemma respects_ret {A} (a : A) : respects R (ret a).
Proof. intros s. reflexivity. Qed.

Lemma respects_raise {A} (e : exn) : respects R (@raise S A e).
Proof. intros s. reflexivity. Qed.

Lemma respects_assert b : respects R (assert b).
Proof. destruct b; [apply respects_ret | apply respects_raise]. Qed.

Lemma respects_pure {A} (c : M S A) :
  (forall s, final c s = s) -> respects R c.
Proof. intros Hc s. rewrite Hc. reflexivity. Qed.

(** After a first statement that returns, the rest decides. *)
Lemma final_bind_respects {A B} (c : M S A) (k : A -> M S B) s a s1 :
  c s = (Return a, s1) -> respects R (k a) -> R s1 (final (bind c k) s).
Proof. intros E Hk. unfold final. rewrite (run_bind _ _ _ _ _ E). apply Hk. Qed.

Lemma respects_bind {A B} (c : M S A) (k : A -> M S B) :
  respects R c -> (forall a, respects R (k a)) -> respects R (bind c k).
Proof.
  intros Hc Hk s. specialize (Hc s). unfold final, bind in *.
  destruct (c s) as [[a|e] s1]; cbn in *; [|exact Hc].
  etransitivity; [exact Hc | apply Hk].
Qed.

(** What follows a first statement is a step from where it stopped. *)
Lemma respects_after {A B} (c : M S A) (k : A -> M S B) s :
  (forall a, respects R (k a)) -> R (final c s) (final (bind c k) s).
Proof.
  intros Hk. unfold final, bind.
  destruct (c s) as [[a|e] s1]; cbn; [apply Hk | reflexivity].
Qed.

Lemma respects_try_pass (c : M S unit) : respects R c -> respects R (try_pass c).
Proof.
  intros Hc s. specialize (Hc s). unfold final, try_pass in *.
  destruct (c s) as [[a|e] s1]; exact Hc.
Qed.

Lemma respects_for_each {A} (l : list A) (body : A -> M S unit) :
  (forall x, respects R (body x)) -> respects R (for_each l body).
Proof.
  intros Hb. induction l as [|x l IH]; cbn.
  - apply respects_ret.
  - apply respects_bind; auto.
Qed.

End Respects.

(** One step in the structure of a computation. *)
Ltac respects_step :=
  lazymatch goal with
  | |- respects _ (bind (ret ?x) ?k) => change (bind (ret x) k) with (k x); cbv beta iota
  | |- respects _ (bind (raise _) _) => apply respects_raise; apply _
  | |- respects _ (bind (if ?b then _ else _) _) => destruct b
  | |- respects _ (bind (match ?x with _ => _ end) _) => destruct x
  | |- respects _ (bind _ _) => apply respects_bind; [apply _ | | intros ?]
  | |- respects _ (ret _) => apply respects_ret; apply _
  | |- respects _ (raise _) => apply respects_raise; apply _
  | |- respects _ (assert _) => apply respects_assert; apply _
  | |- respects _ (try_pass _) => apply respects_try_pass
  | |- respects _ (for_each _ _) => apply respects_for_each; [apply _ | intros ?]
  | |- respects _ (if ?b then _ else _) => destruct b
  | |- respects _ (match ?x with _ => _ end) => destruct x
  end.

Section Evolution.
Variable safe : gl.call -> bool.
(** Every call that is not part of a reallocation is allowed. *)
Hypothesis safe_light : forall c, is_realloc c = false -> safe c = true.

Global Instance evolves_preorder : PreOrder (evolves safe).
Proof.
  split.
  - intros st. repeat split; auto. exists []. now rewrite app_nil_r.
  - intros s1 s2 s3 (T1 & S1 & P1 & c1 & L1 & F1) (T2 & S2 & P2 & c2 & L2 & F2).
    repeat split; try congruence; auto.
    exists (c1 ++ c2). rewrite L2, L1, <- app_assoc, forallb_app, F1, F2. auto.
Qed.

Lemma evolves_quiet st st' :
  self st' = self st -> gl_log (globals st') = gl_log (globals st) ->
  evolves safe st st'.
Proof.
  intros E L. unfold evolves. rewrite E, L. repeat split; auto.
  exists []. now rewrite app_nil_r.
Qed.

Lemma respects_get_self : respects (evolves safe) get_self.
Proof. now apply respects_pure; [apply _|]. Qed.

Lemma respects_set_self f :
  (forall t, _target (f t) = _target t /\
             _texture_shape (f t) = _texture_shape t /\
             (_pending_data t = None -> _pending_data (f t) = None)) ->
  respects (evolves safe) (set_self f).
Proof.
  intros Hf st. destruct (Hf (self st)) as (T & Sh & P).
  unfold evolves, final, set_self, modify. cbn.
  repeat split; auto. exists []. now rewrite app_nil_r.
Qed.

Lemma respects_gl c :
  safe c = true -> respects (evolves safe) (_RawTexture.gl_ c).
Proof.
  intros Hc st. unfold evolves, final. cbn. repeat split; auto.
  exists [c]. cbn. now rewrite Hc.
Qed.

Lemma respects_glIsTexture `{gl.Driver} h :
  respects (evolves safe) (in_world (glIsTexture h)).
Proof.
  intros st. unfold evolves, final. cbn. repeat split; auto.
  exists [gl.glIsTexture h]. cbn. now rewrite safe_light.
Qed.

Lemma respects_in_arrays {A} (c : M heap A) :
  respects (evolves safe) (in_world (in_arrays c)).
Proof.
  intros st. apply evolves_quiet; unfold final, in_world, in_arrays, zoom; cbn;
    destruct (c _); reflexivity.
Qed.

Lemma respects_print msg : respects (evolves safe) (in_world (print msg)).
Proof. intros st. now apply evolves_quiet. Qed.

Lemma respects_push_enable enum :
  respects (evolves safe) (in_world (push_enable enum)).
Proof.
  intros st. unfold final, in_world, zoom. rewrite push_enable_run.
  unfold evolves. cbn. repeat split; auto. eexists. split; [reflexivity|].
  destruct (counter _ _ =? 0); cbn; [now rewrite safe_light|reflexivity].
Qed.

Lemma respects_pop_enable enum :
  respects (evolves safe) (in_world (pop_enable enum)).
Proof.
  intros st. unfold final, in_world, zoom. rewrite pop_enable_run.
  unfold evolves. cbn. repeat split; auto. eexists. split; [reflexivity|].
  destruct (counter _ _ =? 1); cbn; [now rewrite safe_light|reflexivity].
Qed.

Lemma respects_get_format shape target :
  respects (evolves safe) (get_format shape target).
Proof.
  apply respects_pure; [apply _|]. intros s. unfold get_format.
  repeat match goal with
         | |- context [if ?b then _ else _] => destruct b
         | |- context [match ?x with _ => _ end] => destruct x
         end; reflexivity.
Qed.

Ltac evolve :=
  repeat first
    [ respects_step
    | apply respects_get_self
    | apply respects_set_self; intros []; cbn; now auto
    | apply respects_gl; apply safe_light; reflexivity
    | apply respects_glIsTexture
    | apply respects_in_arrays
    | apply respects_print
    | apply respects_push_enable
    | apply respects_pop_enable
    | apply respects_get_format ].

Lemma respects_raw_enable : respects (evolves safe) _RawTexture._enable.
Proof. unfold _RawTexture._enable. evolve. Qed.

Lemma respects_raw_disable : respects (evolves safe) _RawTexture._disable.
Proof. unfold _RawTexture._disable. evolve. Qed.

Lemma respects_update data offset format level :
  respects (evolves safe) (_RawTexture._update data offset format level).
Proof.
  unfold _RawTexture._update, _RawTexture.D_subimage,
    _RawTexture._get_size_and_type. evolve.
Qed.

Section WithPlatform.
Context {K : Kernels} {D : gl.Driver}.
Variable ext_available : string -> bool.

Lemma respects_flush rounds :
  respects (evolves safe) (Texture.flush_pending_params rounds).
Proof. induction rounds as [|n IH]; cbn; evolve. exact IH. Qed.

(** Processing a pending description that carries an offset. *)
Lemma respects_process_update data z zs level format clim :
  respects (evolves safe)
    (Texture._process_pending_data ext_available data (Some (z :: zs))
       level format clim).
Proof.
  unfold Texture._process_pending_data. cbn [Texture.truthy]. evolve.
  all: apply respects_update.
Qed.

(** Activation, given what processing the pending description does. *)
Lemma respects_enable_with st :
  (forall pd, _pending_data (self st) = Some pd ->
     respects (evolves safe)
       (Texture._process_pending_data ext_available (pd_data pd)
          (pd_offset pd) (pd_level pd) (pd_format pd) (pd_clim pd))) ->
  evolves safe st (final (Texture._enable ext_available) st).
Proof.
  intros Hpd. unfold Texture._enable.
  change (final (bind get_self ?k) st) with (final (k (self st)) st).
  apply respects_run.
  destruct (_pending_data (self st)) as [pd|] eqn:E.
  - specialize (Hpd pd eq_refl). evolve.
    all: first [exact Hpd | apply respects_raw_enable | apply respects_flush].
  - evolve.
    all: first [apply respects_raw_enable | apply respects_flush].
Qed.

End WithPlatform.

(** A full (re)upload, when every call is allowed. *)
Section Full.
Context {K : Kernels} {D : gl.Driver}.
Variable ext_available : string -> bool.
Hypothesis safe_all : forall c, safe c = true.

Lemma respects_glGenTextures n :
  respects (evolves safe) (in_world (glGenTextures n)).
Proof.
  intros st. unfold evolves, final. cbn. repeat split; auto.
  exists [gl.glGenTextures n]. cbn. now rewrite safe_all.
Qed.

Lemma respects_process data offset level format clim :
  respects (evolves safe)
    (Texture._process_pending_data ext_available data offset level format clim).
Proof.
  unfold Texture._process_pending_data, Texture.delete, GLObject.delete,
    _RawTexture._delete, _RawTexture._create, _RawTexture._allocate,
    _RawTexture._upload, _RawTexture.D_image, _RawTexture._get_size_and_type.
  repeat first
    [ respects_step
    | apply respects_get_self
    | apply respects_set_self; intros []; cbn; now auto
    | apply respects_gl; apply safe_all
    | apply respects_glIsTexture
    | apply respects_glGenTextures
    | apply respects_in_arrays
    | apply respects_get_format
    | apply respects_update ].
Qed.

End Full.

End Evolution.

Section Activation.
Context {K : Kernels} {D : gl.Driver}.
Variable ext_available : string -> bool.

(** Activation keeps the target and the recorded shape, and never
    fills the pending slot. *)
Lemma enable_evolves st :
  evolves any_call st (final (Texture._enable ext_available) st).
Proof.
  apply respects_enable_with; [reflexivity|].
  intros pd _. now apply respects_process.
Qed.

(** With an offset in the pending description, activation issues no
    call of a reallocation. *)
Lemma enable_evolves_update st pd z zs :
  _pending_data (self st) = Some pd ->
  pd_offset pd = Some (z :: zs) ->
  evolves no_realloc st (final (Texture._enable ext_available) st).
Proof.
  intros Hpd Hoff. apply respects_enable_with.
  - intros c Hc. unfold no_realloc. now rewrite Hc.
  - intros pd' E. rewrite Hpd in E. injection E as <-. rewrite Hoff.
    apply respects_process_update. intros c Hc. unfold no_realloc. now rewrite Hc.
Qed.

End Activation.

(** ** The error state and the bookkeeping calls *)

Global Instance same_handle_preorder : PreOrder same_handle.
Proof.
  split.
  - intros st. split; reflexivity.
  - intros s1 s2 s3 [H1 G1] [H2 G2]. split; congruence.
Qed.

Lemma same_handle_set_self f :
  (forall t, _handle (f t) = _handle t) -> respects same_handle (set_self f).
Proof. intros Hf st. split; cbn; [apply Hf | reflexivity]. Qed.

Ltac keep_handle :=
  repeat first
    [ respects_step
    | apply respects_pure; [apply _ | reflexivity]
    | apply same_handle_set_self; intros []; reflexivity ].

Section Bookkeeping.
Context {K : Kernels} {D : gl.Driver}.
Variable ext_available : string -> bool.

Lemma enable_errored t w :
  _handle t < 0 ->
  Texture._enable ext_available (mk_state t w) = (Return tt, mk_state t w).
Proof.
  intros Hh. unfold Texture._enable, bind, get_self, get, ret. cbn.
  now rewrite (proj2 (Z.ltb_lt _ _) Hh).
Qed.

(** C4.  On a texture whose handle is negative, activation returns at
    once: it raises nothing, leaves the texture and the module state as
    they are, and in particular adds no call to the OpenGL log; the same
    holds for any number of activations in a row. *)
Theorem enable_sticky_error (t : texture) (w : world) (n : nat) :
  _handle t < 0 ->
  Texture._enable ext_available (mk_state t w) = (Return tt, mk_state t w) /\
  times n (Texture._enable ext_available) (mk_state t w)
    = (Return tt, mk_state t w) /\
  gl_log (globals (final (times n (Texture._enable ext_available)) (mk_state t w)))
    = gl_log w.
Proof.
  intros Hh.
  assert (Hn : times n (Texture._enable ext_available) (mk_state t w)
               = (Return tt, mk_state t w)).
  { induction n as [|n IH]; [reflexivity|].
    cbn [times]. rewrite (run_bind _ _ _ _ _ (enable_errored t w Hh)). exact IH. }
  split; [apply enable_errored, Hh|]. split; [exact Hn|].
  unfold final. now rewrite Hn.
Qed.

Lemma reset_if_error_errored t w :
  _handle t < 0 ->
  Texture.reset_if_error (mk_state t w)
  = (Return tt, mk_state (with_texture_shape None (with_handle 0 t)) w).
Proof.
  intros Hh. unfold Texture.reset_if_error, bind, get_self, get, ret. cbn.
  now rewrite (proj2 (Z.ltb_lt _ _) Hh).
Qed.

Lemma reset_if_error_sound t w :
  0 <= _handle t ->
  Texture.reset_if_error (mk_state t w) = (Return tt, mk_state t w).
Proof.
  intros Hh. unfold Texture.reset_if_error, bind, get_self, get, ret. cbn.
  now rewrite (proj2 (Z.ltb_ge _ _) Hh).
Qed.

(** C2 (as the code has it).  On a texture in the errored state, a call
    of [set_data] or of [set_storage] clears the error in its first
    step: whatever the arguments, and whether the call returns or
    raises, the handle is 0 afterwards.  Activation is the operation
    that does not reset a negative handle: it returns at once and leaves
    the texture errored. *)
Theorem description_resets_error (t : texture) (w : world)
    (data : pyvalue) (offset : option (list Z)) (level : Z) (format : option Z)
    (clim : option clim_t) (shape : list Z) :
  _handle t < 0 ->
  _handle (self (final (Texture.set_data data offset level format clim)
                   (mk_state t w))) = 0 /\
  _handle (self (final (Texture.set_storage shape level format)
                   (mk_state t w))) = 0 /\
  Texture._enable ext_available (mk_state t w) = (Return tt, mk_state t w).
Proof.
  intros Hh. split; [|split].
  - assert (Hs : same_handle
                     (mk_state (with_texture_shape None (with_handle 0 t)) w)
                     (final (Texture.set_data data offset level format clim)
                        (mk_state t w))).
    { unfold Texture.set_data.
      apply (final_bind_respects same_handle _ _ _ _ _
               (reset_if_error_errored t w Hh)).
      keep_handle. }
    exact (proj1 Hs).
  - assert (Hs : same_handle
                     (mk_state (with_texture_shape None (with_handle 0 t)) w)
                     (final (Texture.set_storage shape level format)
                        (mk_state t w))).
    { unfold Texture.set_storage.
      apply (final_bind_respects same_handle _ _ _ _ _
               (reset_if_error_errored t w Hh)).
      keep_handle. }
    exact (proj1 Hs).
  - apply enable_errored, Hh.
Qed.

(** C3 (as the code has it).  For an array whose rank is neither [ndim]
    nor [ndim + 1], [set_data] raises (an assertion failure) and records
    nothing: module state, pending description, parameter sets, target
    and unit are as before.  On a texture that is not errored the whole
    object is as before; on an errored one the reset step has already
    run, so the handle is 0 and the recorded shape is cleared. *)
Theorem set_data_bad_rank (t : texture) (w : world) (a : ndarray)
    (offset : option (list Z)) (level : Z) (format : option Z)
    (clim : option clim_t) :
  List.length (shape a) ∉
    [Texture.MAP_get (_target t); Datatypes.S (Texture.MAP_get (_target t))] ->
  Texture.set_data (PyArray a) offset level format clim (mk_state t w)
  = (Raise AssertionError,
     mk_state (if _handle t <? 0
               then with_texture_shape None (with_handle 0 t)
               else t) w) /\
  (0 <= _handle t ->
     final (Texture.set_data (PyArray a) offset level format clim) (mk_state t w)
     = mk_state t w).
Proof.
  intros Hrank.
  assert (E : Texture.set_data (PyArray a) offset level format clim (mk_state t w)
              = (Raise AssertionError,
                 mk_state (if _handle t <? 0
                           then with_texture_shape None (with_handle 0 t)
                           else t) w)).
  { unfold Texture.set_data.
    destruct (_handle t <? 0) eqn:E.
    - rewrite (run_bind _ _ _ _ _
                 (reset_if_error_errored t w (proj1 (Z.ltb_lt _ _) E))).
      unfold bind, get_self, get, ret. cbn.
      now rewrite bool_decide_eq_false_2 by exact Hrank.
    - rewrite (run_bind _ _ _ _ _
                 (reset_if_error_sound t w (proj1 (Z.ltb_ge _ _) E))).
      unfold bind, get_self, get, ret. cbn.
      now rewrite bool_decide_eq_false_2 by exact Hrank. }
  split; [exact E|].
  intros Hh. unfold final. rewrite E. cbn.
  now rewrite (proj2 (Z.ltb_ge _ _) Hh).
Qed.

End Bookkeeping.

Lemma enable_sticky_error_witness :
  _handle errored_texture < 0 /\
  times 5 (Texture._enable (K := ieee.kernels) (D := driver.counting)
             ext_available_now) (mk_state errored_texture world0)
  = (Return tt, mk_state errored_texture world0).
Proof.
  split; [reflexivity|].
  exact (proj1 (proj2 (enable_sticky_error (K := ieee.kernels) (D := driver.counting)
                         ext_available_now errored_texture world0 5 eq_refl))).
Defined.

(** The errored example is what a failed first activation leaves: a 2D
    texture given storage of shape (4, 4) and activated without a usable
    context. *)
Example errored_texture_reachable :
  Texture2D (N := driver.names) (PyTuple [4; 4]) None None world0
  = (Return storage44, world0) /\
  result (Texture._enable (K := ieee.kernels) (D := driver.absent) ext_available_now)
    (mk_state storage44 world0) = Return tt /\
  self (final (Texture._enable (K := ieee.kernels) (D := driver.absent)
                 ext_available_now) (mk_state storage44 world0))
  = errored_texture.
Proof. repeat split; vm_compute; reflexivity. Qed.

Lemma description_resets_error_witness :
  _handle errored_texture < 0 /\
  _handle (self (final (Texture.set_data (PyArray image8) None 0 None None)
                   (mk_state errored_texture world0))) = 0.
Proof.
  split; [reflexivity|].
  exact (proj1 (description_resets_error (K := ieee.kernels) (D := driver.counting)
                  ext_available_now errored_texture world0
                  (PyArray image8) None 0 None None [] eq_refl)).
Defined.

(** C2, as stated, fails: the handle of the errored example does not stay
    negative across [set_data], nor across [set_storage]. *)
Lemma set_data_keeps_error_counterexample :
  _handle errored_texture < 0 /\
  ~ (_handle (self (final (Texture.set_data (PyArray image8) None 0 None None)
                      (mk_state errored_texture world0))) < 0) /\
  ~ (_handle (self (final (Texture.set_storage [4; 4] 0 None)
                      (mk_state errored_texture world0))) < 0).
Proof. repeat split; vm_compute; intros E; discriminate E. Qed.

(** A rank-1 array, outside {2, 3} for a 2D texture. *)
Lemma set_data_bad_rank_witness :
  (List.length (shape (mk_ndarray 0 np.uint8 [4])) ∉
     [Texture.MAP_get (_target errored_texture);
      S (Texture.MAP_get (_target errored_texture))]) /\
  Texture.set_data (PyArray (mk_ndarray 0 np.uint8 [4])) None 0 None None
    (mk_state errored_texture world0)
  = (Raise AssertionError,
     mk_state (with_texture_shape None (with_handle 0 errored_texture)) world0).
Proof.
  assert (Hr : List.length (shape (mk_ndarray 0 np.uint8 [4])) ∉
                 [Texture.MAP_get (_target errored_texture);
                  S (Texture.MAP_get (_target errored_texture))]).
  { intros Hin. apply (bool_decide_eq_true_2 _) in Hin. discriminate Hin. }
  split; [exact Hr|].
  exact (proj1 (set_data_bad_rank errored_texture world0
                  (mk_ndarray 0 np.uint8 [4]) None 0 None None Hr)).
Defined.

(** C3, as stated, fails: on the errored example [set_data] raises for
    the rank-1 array, but handle and recorded shape are not what they
    were. *)
Lemma set_data_bad_rank_counterexample :
  (List.length (shape (mk_ndarray 0 np.uint8 [4])) ∉ [2%nat; 3%nat]) /\
  result (Texture.set_data (PyArray (mk_ndarray 0 np.uint8 [4])) None 0 None None)
    (mk_state errored_texture world0) = Raise AssertionError /\
  _handle (self (final (Texture.set_data (PyArray (mk_ndarray 0 np.uint8 [4]))
                          None 0 None None) (mk_state errored_texture world0)))
    <> _handle errored_texture /\
  _texture_shape (self (final (Texture.set_data (PyArray (mk_ndarray 0 np.uint8 [4]))
                                 None 0 None None) (mk_state errored_texture world0)))
    <> _texture_shape errored_texture.
Proof.
  split; [intros Hin; apply (bool_decide_eq_true_2 _) in Hin; discriminate Hin|].
  split; [vm_compute; reflexivity|].
  split; vm_compute; intros E; discriminate E.
Qed.

Lemma any_call_light c : is_realloc c = false -> any_call c = true.
Proof. reflexivity. Qed.

Lemma no_realloc_light c : is_realloc c = false -> no_realloc c = true.
Proof. intros E. unfold no_realloc. now rewrite E. Qed.

Ltac evolve_top :=
  repeat first
    [ respects_step
    | apply respects_get_self
    | apply respects_set_self; intros []; cbn; now auto
    | apply respects_gl; reflexivity
    | apply respects_glIsTexture;
        first [apply any_call_light | apply no_realloc_light]
    | apply respects_in_arrays
    | apply respects_print
    | apply respects_push_enable;
        first [apply any_call_light | apply no_realloc_light]
    | apply respects_get_format
    | apply respects_raw_enable;
        first [apply any_call_light | apply no_realloc_light]
    | apply respects_flush;
        first [apply any_call_light | apply no_realloc_light]
    | apply respects_process; reflexivity ].

(** ** Storage that is already there *)

Section Storage.
Context {K : Kernels} {D : gl.Driver}.
Variable ext_available : string -> bool.

(** A texture that comes out of an activation not errored has an empty
    pending slot. *)
Lemma enable_consumes st :
  0 <= _handle (self (final (Texture._enable ext_available) st)) ->
  _pending_data (self (final (Texture._enable ext_available) st)) = None.
Proof.
  destruct st as [t w]. unfold Texture._enable.
  change (final (bind get_self ?k) (mk_state t w))
    with (final (k t) (mk_state t w)).
  cbv beta.
  destruct (_handle t <? 0) eqn:Eh.
  { cbn. apply Z.ltb_lt in Eh. intros. lia. }
  destruct ((_target t =? gl.GL_TEXTURE_3D) && negb (ext_available "GL_texture_3D")).
  { cbn. intros. lia. }
  intros _.
  match goal with
  | |- _pending_data (self (final (bind ?c ?k) ?s)) = None =>
      assert (Hc : _pending_data (self (final c s)) = None);
      [| assert (Hk : evolves any_call (final c s) (final (bind c k) s));
         [apply respects_after; [apply _|]; intros a; evolve_top
         | exact (proj1 (proj2 (proj2 Hk)) Hc)] ]
  end.
  destruct (_pending_data t) as [pd|] eqn:Ep; [|exact Ep].
  match goal with
  | |- _pending_data (self (final (bind ?c ?k) ?s)) = None =>
      assert (Hk : evolves any_call (final c s) (final (bind c k) s));
      [apply respects_after; [apply _|]; intros a; evolve_top
      | exact (proj1 (proj2 (proj2 Hk)) eq_refl)]
  end.
Qed.

(** What a returning [set_storage] leaves as recorded shape. *)
Lemma set_storage_records shape level format st :
  result (Texture.set_storage shape level format) st = Return tt ->
  exists ts,
    _texture_shape (self (final (Texture.set_storage shape level format) st))
      = Some ts /\
    take (Texture.MAP_get (_target (self st))) ts
      = take (Texture.MAP_get (_target (self st))) shape /\
    _target (self (final (Texture.set_storage shape level format) st))
      = _target (self st).
Proof.
  destruct st as [t w]. unfold Texture.set_storage, result, final.
  unfold Texture.reset_if_error, bind, get_self, get, ret, set_self, modify, assert.
  cbn.
  destruct (_handle t <? 0); cbn.
  - destruct format; cbn;
      repeat (match goal with
              | |- context [if ?b then _ else _] => destruct b; cbn
              end); try discriminate; intros _; eexists; eauto.
  - destruct format, (_texture_shape t) as [ts|] eqn:Ets; cbn;
      repeat (match goal with
              | |- context [if ?b then _ else _] => destruct b eqn:?; cbn
              end); try discriminate; intros _;
      try (eexists; split; [reflexivity | split; reflexivity]).
    exists ts. split; [exact Ets|]. split; [|reflexivity].
    match goal with
    | E : (_ && bool_decide _) = true |- _ =>
        apply andb_true_iff in E as [_ E]; apply bool_decide_eq_true_1 in E
    end. assumption.
Qed.

(** C8 (as the code has it).  On a texture that is not errored,
    [set_storage] with level 0, no format and a shape whose leading
    dimensions are those of the recorded shape does nothing: it returns
    with the texture and the module state exactly as they were, so no
    pending description is recorded and the recorded shape stays.  In
    particular, after a first such call has been resolved by an
    activation that left the texture not errored, the pending slot is
    empty and a second call with the same shape leaves it empty. *)
Theorem set_storage_same_shape (t : texture) (w : world) (shape ts : list Z) :
  0 <= _handle t ->
  _texture_shape t = Some ts ->
  take (Texture.MAP_get (_target t)) ts = take (Texture.MAP_get (_target t)) shape ->
  Texture.set_storage shape 0 None (mk_state t w) = (Return tt, mk_state t w) /\
  (forall (t0 : texture) (w0 : world),
     result (Texture.set_storage shape 0 None) (mk_state t0 w0) = Return tt ->
     let resolved :=
       final (Texture._enable ext_available)
         (final (Texture.set_storage shape 0 None) (mk_state t0 w0)) in
     0 <= _handle (self resolved) ->
     _pending_data (self resolved) = None /\
     Texture.set_storage shape 0 None resolved = (Return tt, resolved)).
Proof.
  assert (Hnoop : forall t w ts,
    0 <= _handle t -> _texture_shape t = Some ts ->
    take (Texture.MAP_get (_target t)) ts
      = take (Texture.MAP_get (_target t)) shape ->
    Texture.set_storage shape 0 None (mk_state t w) = (Return tt, mk_state t w)).
  { clear. intros t w ts Hh Hs Ht. unfold Texture.set_storage.
    rewrite (run_bind _ _ _ _ _ (reset_if_error_sound t w Hh)).
    unfold bind, get_self, get, ret. cbn. rewrite Hs. cbn.
    now rewrite bool_decide_eq_true_2 by exact Ht. }
  intros Hh Hs Ht. split; [apply (Hnoop t w ts Hh Hs Ht)|].
  intros t0 w0 Hret resolved Hres.
  split; [apply enable_consumes, Hres|].
  destruct (set_storage_records shape 0 None (mk_state t0 w0) Hret)
    as (ts1 & Hs1 & Ht1 & Htg).
  pose proof (enable_evolves ext_available
                (final (Texture.set_storage shape 0 None) (mk_state t0 w0)))
    as (Etg & Esh & _).
  fold resolved in Etg, Esh.
  destruct resolved as [tr wr] eqn:Er. cbn in *.
  apply (Hnoop tr wr ts1 Hres).
  - now rewrite Esh.
  - now rewrite Etg, Htg.
Qed.

End Storage.

Lemma set_storage_same_shape_witness :
  0 <= _handle resident44 /\
  _texture_shape resident44 = Some [4; 4] /\
  take (Texture.MAP_get (_target resident44)) [4; 4]
    = take (Texture.MAP_get (_target resident44)) [4; 4; 3] /\
  Texture.set_storage [4; 4; 3] 0 None (mk_state resident44 world0)
    = (Return tt, mk_state resident44 world0).
Proof.
  split; [discriminate|]. split; [reflexivity|]. split; [reflexivity|].
  exact (proj1 (set_storage_same_shape (K := ieee.kernels) (D := driver.counting)
                  ext_available_now resident44 world0 [4; 4; 3] [4; 4]
                  ltac:(discriminate) eq_refl eq_refl)).
Defined.

(** C8, as stated, fails on an errored texture: the reset step clears the
    recorded shape first, so the call with the recorded shape (4, 4),
    level 0 and no format is not a no-op; it records a pending
    description. *)
Lemma set_storage_same_shape_counterexample :
  _texture_shape errored_texture = Some [4; 4] /\
  take (Texture.MAP_get (_target errored_texture)) [4; 4]
    = take (Texture.MAP_get (_target errored_texture)) [4; 4] /\
  _pending_data errored_texture = None /\
  _pending_data (self (final (Texture.set_storage [4; 4] 0 None)
                         (mk_state errored_texture world0)))
    = Some (mk_pending None None 0 None None).
Proof. repeat split; vm_compute; reflexivity. Qed.

(** ** Limits derived for unsigned integers *)

Section Unsigned.
Context {K : Kernels}.
Variable ext_available : string -> bool.

(** C1 (as the code has it).  For an unsigned integer array of bit
    width [b] other than 8 (16, 32 or 64 bits) and no limits given, the
    first block of [convert_data] casts the data to 32-bit float, into a
    new array, and derives the limits (0, 2^(b-1)); the limits are then
    applied to that float array.  (Unsigned 8-bit data has its own
    branch and gets no limits.) *)
Theorem unsigned_limits (data : ndarray) (b : Z) (h : heap) :
  uint_bits (dtype data) = Some b ->
  b <> 8 ->
  let cast := mk_ndarray (List.length h) np.float32 (shape data) in
  let h' := h ++ [k_cast (dtype data) np.float32 <$> contents h data] in
  let F32 := ext_available "texture_float" in
  let F16 := ext_available "texture_half_float" in
  determine_clim F32 F16 data None h
    = (Return (mk_prepared cast (Some (PyInt 0, PyInt (2 ^ (b - 1)))) true), h') /\
  convert_data ext_available data None h
    = (apply_limits cast (Some (PyInt 0, PyInt (2 ^ (b - 1)))) ;;
       convert_if_necessary F32 F16 cast) h'.
Proof.
  intros Hb Hne. destruct data as [buf dt shp].
  destruct dt; cbn in Hb; try discriminate; injection Hb as <-;
    try (now contradiction Hne); cbn; split; reflexivity.
Qed.

End Unsigned.

Lemma unsigned_limits_witness :
  uint_bits (dtype image16) = Some 16 /\ 16 <> 8 /\
  determine_clim (K := ieee.kernels) true true image16 None heap_ex
  = (Return (mk_prepared (mk_ndarray 2 np.float32 [1; 3])
               (Some (PyInt 0, PyInt 32768)) true),
     heap_ex ++ [k_cast (Kernels := ieee.kernels) np.uint16 np.float32
                   <$> [Sint 0; Sint 32768; Sint 65535]]).
Proof.
  split; [reflexivity|]. split; [discriminate|].
  exact (proj1 (unsigned_limits (K := ieee.kernels) ext_available_now image16 16
                  heap_ex eq_refl ltac:(discriminate))).
Defined.

(** C1, as stated, fails for unsigned 8-bit data: no limits are derived
    (not (0, 128)) and the data is not cast to float. *)
Lemma unsigned_limits_counterexample :
  uint_bits (dtype image8) = Some 8 /\
  determine_clim (K := ieee.kernels) true true image8 None heap_ex
    = (Return (mk_prepared image8 None false), heap_ex) /\
  p_clim (mk_prepared image8 None false) <> Some (PyInt 0, PyInt (2 ^ (8 - 1))) /\
  dtype (p_data (mk_prepared image8 None false)) <> np.float32.
Proof.
  split; [reflexivity|]. split; [reflexivity|]. split; discriminate.
Qed.

Lemma convert_data_uint8_passthrough_witness :
  dtype image8 = np.uint8 /\
  convert_data (K := ieee.kernels) ext_available_now image8 None heap_ex
  = (Return image8, heap_ex).
Proof.
  split; [reflexivity|].
  exact (convert_data_uint8_passthrough (K := ieee.kernels) ext_available_now
           image8 heap_ex eq_refl).
Defined.


(** Limits that cannot be applied although their scale is 0.5: the lower
    limit does not fit a [float], and [data -= clim[0]] raises. *)
Example huge_offset_overflows :
  result (scale (S := unit) huge_limits) tt
  = Return (PyFloat (S754_finite false 4503599627370496 (-53))) /\
  ~ limits_fine (Some huge_limits) /\
  result (convert_data (K := ieee.kernels) ext_available_now image8
            (Some huge_limits)) heap_ex
  = Raise OverflowError.
Proof.
  split; [vm_compute; reflexivity|]. split; [|vm_compute; reflexivity].
  intros Hl. destruct (Hl _ eq_refl) as [[lo Hlo] _].
  vm_compute in Hlo. discriminate Hlo.
Qed.

(** The conversion without float textures: scaled by 256, clipped to
    [0, 256], cast to unsigned 8-bit (where 256 wraps to 0). *)
Example clip_scenario :
  result (convert_data (K := ieee.kernels) (fun _ => false) image_f32 None) heap_f32
  = Return (mk_ndarray 2 np.uint8 [6]) /\
  final (convert_data (K := ieee.kernels) (fun _ => false) image_f32 None) heap_f32
    !! 2%nat
  = Some [Sint 128; Sint 64; Sint 0; Sint 0; Sint 0; Sint 0] /\
  final (convert_data (K := ieee.kernels) (fun _ => false) image_f32 None) heap_f32
    !! 0%nat
  = heap_f32 !! 0%nat.
Proof. repeat split; vm_compute; reflexivity. Qed.

(** ** The fast path *)

Lemma get_format_run {S} shape target (s : S) :
  get_format shape target s = (result (get_format shape target) tt, s).
Proof.
  unfold get_format, result.
  repeat match goal with
         | |- context [if ?b then _ else _] => destruct b
         | |- context [match ?x with _ => _ end] => destruct x
         end; reflexivity.
Qed.

Lemma DTYPES_gl_kind d : gl_kind d -> exists g, DTYPES !! np.name d = Some g.
Proof. intros [->|[->| ->]]; eexists; vm_compute; reflexivity. Qed.

Lemma fmap_zero_replicate (l : list Z) :
  (fun _ => 0) <$> l = replicate (List.length l) 0.
Proof. induction l as [|x l IH]; cbn; [reflexivity | now rewrite IH]. Qed.

Section FastPath.
Context {K : Kernels} {D : gl.Driver}.
Variable ext_available : string -> bool.

Lemma process_update_run t w a d' h' level format clim fmt :
  _target t ∈ [gl.GL_TEXTURE_2D; gl.GL_TEXTURE_3D] ->
  0 < _handle t ->
  (Texture.MAP_get (_target t) <= List.length (shape a))%nat ->
  convert_data ext_available a clim (arrays w) = (Return d', h') ->
  result (match format with
          | None => get_format (Some (shape a)) (_target t)
          | Some f => ret f
          end) tt = Return fmt ->
  gl.is_texture (gl_log w ++ [gl.glBindTexture (_target t) (_handle t)]) (_handle t)
    = true ->
  exists gltype,
    DTYPES !! np.name (dtype d') = Some gltype /\
    Texture._process_pending_data ext_available (Some a)
      (Some (replicate (Texture.MAP_get (_target t)) 0)) level format clim
      (mk_state t w)
    = (Return tt,
       mk_state t
         (mk_world h' (ENABLE_QUEUE w)
            (gl_log w ++
               [gl.glBindTexture (_target t) (_handle t);
                gl.glIsTexture (_handle t);
                glTexSubImage (_target t)
                  (update_args (_target t) level (Texture.MAP_get (_target t))
                     d' fmt gltype)])
            (stdout w))).
Proof.
  intros Htg Hh Hrank Hconv Hfmt Htex.
  assert (Ht2 : _target t = gl.GL_TEXTURE_2D \/ _target t = gl.GL_TEXTURE_3D).
  { apply elem_of_cons in Htg as [Htg|Htg]; [now left|].
    apply elem_of_cons in Htg as [Htg|Htg]; [now right|].
    now apply not_elem_of_nil in Htg. }
  clear Htg.
  destruct (convert_data_spec (arrays w) ext_available a clim (arrays w)
              (extends_refl _)) as [_ (Hr & _)].
  unfold result in Hr. rewrite Hconv in Hr.
  destruct (Hr d' eq_refl) as [Hup Hshape].
  assert (Hk : gl_kind (dtype d')).
  { destruct Hup as [E|[[E _]|[E _]]]; unfold gl_kind; auto. }
  destruct (DTYPES_gl_kind _ Hk) as [gltype Hg]. exists gltype. split; [exact Hg|].
  unfold Texture._process_pending_data.
  assert (E1 : bind (in_world (in_arrays (convert_data ext_available a clim)))
                 (fun d' => ret (Some d')) (mk_state t w)
               = (Return (Some d'), mk_state t (set_arrays h' w))).
  { unfold bind, in_world, in_arrays, zoom. cbn. now rewrite Hconv. }
  rewrite (run_bind _ _ _ _ _ E1). cbv beta iota.
  rewrite (run_bind get_self _ _ _ _ eq_refl). cbv beta iota.
  cbn [self].
  assert (E3 : match format with
               | None => get_format (Some (shape d')) (_target t)
               | Some f => ret f
               end (mk_state t (set_arrays h' w))
               = (Return fmt, mk_state t (set_arrays h' w))).
  { rewrite Hshape. destruct format as [f|].
    - cbn in Hfmt. now injection Hfmt as ->.
    - rewrite get_format_run. now rewrite Hfmt. }
  rewrite (run_bind _ _ _ _ _ E3). cbv beta iota.
  assert (Hleb : (_handle t <=? 0) = false) by lia.
  unfold glTexSubImage, update_args.
  assert (Hlen : (len (replicate (Texture.MAP_get (_target t)) 0)
                  =? len (reverse (take (Texture.MAP_get (_target t)) (shape d'))))
                 = true).
  { unfold len. rewrite length_replicate, length_reverse, length_take, Hshape.
    apply Z.eqb_eq. lia. }
  destruct Ht2 as [Et | Et]; rewrite Et in *.
  - change (Texture.MAP_get gl.GL_TEXTURE_2D) with 2%nat in *.
    cbn [Texture.truthy replicate default] in *. unfold id.
    rewrite (run_bind (_RawTexture.gl_ _) _ _ _ _ eq_refl). cbv beta iota.
    rewrite Hleb.
    cbn [self globals gl_log set_gl_log set_arrays arrays ENABLE_QUEUE stdout].
    match goal with
    | |- bind (bind (in_world (glIsTexture _)) _) _ ?st = _ =>
        assert (E5 : bind (in_world (glIsTexture (_handle t)))
                       (fun ok => ret (negb ok)) st
                     = (Return false,
                        mk_state t
                          (mk_world h' (ENABLE_QUEUE w)
                             (gl_log w ++ [gl.glBindTexture gl.GL_TEXTURE_2D (_handle t);
                                           gl.glIsTexture (_handle t)])
                             (stdout w))))
    end.
    { unfold bind, in_world, zoom, glIsTexture, gl_call, get, modify, ret. cbn.
      rewrite Htex. cbn. now rewrite <- app_assoc. }
    rewrite (run_bind _ _ _ _ _ E5). cbv beta iota.
    unfold _RawTexture._update.
    rewrite (run_bind get_self _ _ _ _ eq_refl). cbv beta iota. cbn [self].
    rewrite Et.
    rewrite (run_bind (_RawTexture.D_subimage gl.GL_TEXTURE_2D) _ _ _ _ eq_refl). cbv beta iota.
    rewrite (run_bind (ret d') _ _ _ _ eq_refl). cbv beta iota.
    unfold _RawTexture._get_size_and_type. rewrite Hg.
    rewrite (run_bind (ret _) _ _ _ _ eq_refl). cbv beta iota.
    rewrite Hlen.
    rewrite (run_bind (assert true) _ _ _ _ eq_refl). cbv beta iota.
    cbn. now rewrite <- app_assoc.
  - change (Texture.MAP_get gl.GL_TEXTURE_3D) with 3%nat in *.
    cbn [Texture.truthy replicate default] in *. unfold id.
    rewrite (run_bind (_RawTexture.gl_ _) _ _ _ _ eq_refl). cbv beta iota.
    rewrite Hleb.
    cbn [self globals gl_log set_gl_log set_arrays arrays ENABLE_QUEUE stdout].
    match goal with
    | |- bind (bind (in_world (glIsTexture _)) _) _ ?st = _ =>
        assert (E5 : bind (in_world (glIsTexture (_handle t)))
                       (fun ok => ret (negb ok)) st
                     = (Return false,
                        mk_state t
                          (mk_world h' (ENABLE_QUEUE w)
                             (gl_log w ++ [gl.glBindTexture gl.GL_TEXTURE_3D (_handle t);
                                           gl.glIsTexture (_handle t)])
                             (stdout w))))
    end.
    { unfold bind, in_world, zoom, glIsTexture, gl_call, get, modify, ret. cbn.
      rewrite Htex. cbn. now rewrite <- app_assoc. }
    rewrite (run_bind _ _ _ _ _ E5). cbv beta iota.
    unfold _RawTexture._update.
    rewrite (run_bind get_self _ _ _ _ eq_refl). cbv beta iota. cbn [self].
    rewrite Et.
    rewrite (run_bind (_RawTexture.D_subimage gl.GL_TEXTURE_3D) _ _ _ _ eq_refl). cbv beta iota.
    rewrite (run_bind (ret d') _ _ _ _ eq_refl). cbv beta iota.
    unfold _RawTexture._get_size_and_type. rewrite Hg.
    rewrite (run_bind (ret _) _ _ _ _ eq_refl). cbv beta iota.
    rewrite Hlen.
    rewrite (run_bind (assert true) _ _ _ _ eq_refl). cbv beta iota.
    cbn. now rewrite <- app_assoc.
Qed.

(** Activation of a texture whose pending description carries the
    all-zeros offset: the sub-image update, then calls that are not a
    reallocation. *)
Lemma enable_update_run t w a d' h' level format clim fmt :
  _target t ∈ [gl.GL_TEXTURE_2D; gl.GL_TEXTURE_3D] ->
  0 < _handle t ->
  (Texture.MAP_get (_target t) <= List.length (shape a))%nat ->
  _pending_data t
    = Some (mk_pending (Some a) (Some (replicate (Texture.MAP_get (_target t)) 0))
              level format clim) ->
  (_target t = gl.GL_TEXTURE_3D -> ext_available "GL_texture_3D" = true) ->
  convert_data ext_available a clim (arrays w) = (Return d', h') ->
  result (match format with
          | None => get_format (Some (shape a)) (_target t)
          | Some f => ret f
          end) tt = Return fmt ->
  gl.is_texture (gl_log w ++ [gl.glBindTexture (_target t) (_handle t)]) (_handle t)
    = true ->
  exists gltype,
    DTYPES !! np.name (dtype d') = Some gltype /\
    evolves no_realloc
      (mk_state (with_pending_data None t)
         (mk_world h' (ENABLE_QUEUE w)
            (gl_log w ++
               [gl.glBindTexture (_target t) (_handle t);
                gl.glIsTexture (_handle t);
                glTexSubImage (_target t)
                  (update_args (_target t) level (Texture.MAP_get (_target t))
                     d' fmt gltype)])
            (stdout w)))
      (final (Texture._enable ext_available) (mk_state t w)).
Proof.
  intros Htg Hh Hrank Hpd H3D Hconv Hfmt Htex.
  destruct (process_update_run (with_pending_data None t) w a d' h' level format
              clim fmt Htg Hh Hrank Hconv Hfmt Htex) as (gltype & Hg & Hrun).
  exists gltype. split; [exact Hg|].
  change (_target (with_pending_data None t)) with (_target t) in Hrun.
  change (_handle (with_pending_data None t)) with (_handle t) in Hrun.
  unfold Texture._enable.
  change (final (bind get_self ?k) (mk_state t w))
    with (final (k t) (mk_state t w)).
  cbv beta.
  replace (_handle t <? 0) with false by lia.
  replace ((_target t =? gl.GL_TEXTURE_3D) && negb (ext_available "GL_texture_3D"))
    with false.
  2: { destruct (_target t =? gl.GL_TEXTURE_3D) eqn:E3; [|reflexivity].
       apply Z.eqb_eq in E3. now rewrite (H3D E3). }
  rewrite Hpd. cbn [pd_data pd_offset pd_level pd_format pd_clim].
  match goal with
  | |- evolves _ ?s3 (final (bind ?c ?K) ?s) =>
      assert (HK : evolves no_realloc (final c s) (final (bind c K) s));
      [apply (respects_after (evolves no_realloc) _ c K s); intros x; evolve_top|];
      assert (Hc : evolves no_realloc s3 (final c s));
      [|etransitivity; [exact Hc | exact HK]]
  end.
  unfold final at 1.
  rewrite (run_bind (set_self (with_pending_data None)) _ _ _ _ eq_refl).
  cbv beta.
  match goal with
  | |- evolves _ ?s3 (snd (bind ?c ?k ?s)) =>
      change (snd (bind c k s)) with (final (bind c k) s);
      assert (E : s3 = final c s) by (unfold final; cbn [self globals]; now rewrite Hrun);
      rewrite E; apply (respects_after (evolves no_realloc) _ c k s);
      intros x; evolve_top
  end.
Qed.

(** [set_data] with an array of the recorded shape, no offset, on a
    resident texture: the call is accepted when rank, level and format
    are, and records the all-zeros offset. *)
Lemma set_data_fast_run t w a level format clim :
  0 < _handle t ->
  _texture_shape t = Some (shape a) ->
  List.length (shape a) ∈
    [Texture.MAP_get (_target t); S (Texture.MAP_get (_target t))] ->
  0 <= level ->
  Texture.format_ok format = true ->
  (Texture.MAP_get (_target t) <= List.length (shape a))%nat /\
  Texture.set_data (PyArray a) None level format clim (mk_state t w)
  = (Return tt,
     mk_state
       (with_pending_data
          (Some (mk_pending (Some a)
                   (Some (replicate (Texture.MAP_get (_target t)) 0))
                   level format clim)) t) w).
Proof.
  intros Hh Hs Hr Hl Hf.
  assert (Hrank : (Texture.MAP_get (_target t) <= List.length (shape a))%nat).
  { apply elem_of_cons in Hr as [Hr|Hr]; [lia|].
    apply elem_of_cons in Hr as [Hr|Hr]; [lia|].
    now apply not_elem_of_nil in Hr. }
  split; [exact Hrank|].
  unfold Texture.set_data.
  rewrite (run_bind _ _ _ _ _ (reset_if_error_sound t w ltac:(lia))). cbv beta.
  rewrite (run_bind get_self _ _ _ _ eq_refl). cbv beta iota. cbn [self].
  rewrite (run_bind (ret a) _ _ _ _ eq_refl). cbv beta iota.
  rewrite (bool_decide_eq_true_2 _ Hr).
  rewrite (run_bind (assert true) _ _ _ _ eq_refl). cbv beta iota.
  rewrite Hs. rewrite bool_decide_eq_true_2 by reflexivity.
  replace (_handle t >? 0) with true by lia. cbn [andb].
  rewrite (run_bind (ret (Some _)) _ _ _ _ eq_refl). cbv beta iota.
  replace (level >=? 0) with true by lia.
  rewrite (run_bind (assert true) _ _ _ _ eq_refl). cbv beta iota.
  rewrite Hf.
  rewrite (run_bind (assert true) _ _ _ _ eq_refl). cbv beta iota.
  rewrite fmap_zero_replicate, length_take, Nat.min_l by exact Hrank.
  destruct t as [tg hd un pd ts tp pp]. cbn in Hs |- *. now rewrite Hs.
Qed.

(** C6.  A call of [set_data] with no offset, on a texture with a
    positive handle whose recorded shape is the shape of the array (with
    rank, level and format as [set_data] requires them), returns and
    records the all-zeros offset, one zero per dimension of the target,
    in the pending description; nothing else changes.  The next
    activation then issues no call of a full reallocation
    (no [glDeleteTextures], [glGenTextures], [glTexImage2D/3D]),
    whatever happens; and when the data converts, the format resolves
    and the driver knows the handle as a texture, it binds the texture
    and issues [glTexSubImage2D/3D] at the all-zeros offset with the
    converted data. *)
Theorem set_data_fast_path (t : texture) (w : world) (a : ndarray)
    (level : Z) (format : option Z) (clim : option clim_t) :
  _target t ∈ [gl.GL_TEXTURE_2D; gl.GL_TEXTURE_3D] ->
  0 < _handle t ->
  _texture_shape t = Some (shape a) ->
  List.length (shape a) ∈
    [Texture.MAP_get (_target t); S (Texture.MAP_get (_target t))] ->
  0 <= level ->
  Texture.format_ok format = true ->
  let ndim := Texture.MAP_get (_target t) in
  let described :=
    with_pending_data
      (Some (mk_pending (Some a) (Some (replicate ndim 0)) level format clim)) t in
  Texture.set_data (PyArray a) None level format clim (mk_state t w)
    = (Return tt, mk_state described w) /\
  (forall w' : world,
     exists calls,
       gl_log (globals (final (Texture._enable ext_available)
                          (mk_state described w')))
         = gl_log w' ++ calls /\
       forallb no_realloc calls = true) /\
  (forall (w' : world) (d' : ndarray) (h' : heap) (fmt : Z),
     (_target t = gl.GL_TEXTURE_3D -> ext_available "GL_texture_3D" = true) ->
     convert_data ext_available a clim (arrays w') = (Return d', h') ->
     result (match format with
             | None => get_format (Some (shape a)) (_target t)
             | Some f => ret f
             end) tt = Return fmt ->
     gl.is_texture (gl_log w' ++ [gl.glBindTexture (_target t) (_handle t)])
       (_handle t) = true ->
     exists gltype rest,
       DTYPES !! np.name (dtype d') = Some gltype /\
       gl_log (globals (final (Texture._enable ext_available)
                          (mk_state described w')))
         = gl_log w' ++
           [gl.glBindTexture (_target t) (_handle t);
            gl.glIsTexture (_handle t);
            glTexSubImage (_target t)
              (update_args (_target t) level ndim d' fmt gltype)] ++ rest /\
       forallb no_realloc rest = true).
Proof.
  intros Htg Hh Hs Hr Hl Hf ndim described.
  destruct (set_data_fast_run t w a level format clim Hh Hs Hr Hl Hf)
    as [Hrank Hrun].
  split; [exact Hrun|]. split.
  - intros w'.
    assert (Hnd : exists n, ndim = S n).
    { unfold ndim. apply elem_of_cons in Htg as [->|Htg]; [now exists 1%nat|].
      apply elem_of_cons in Htg as [->|Htg]; [now exists 2%nat|].
      now apply not_elem_of_nil in Htg. }
    destruct Hnd as [n Hn].
    destruct (enable_evolves_update ext_available (mk_state described w')
                (mk_pending (Some a) (Some (replicate ndim 0)) level format clim)
                0 (replicate n 0) eq_refl)
      as (_ & _ & _ & calls & Hc & Hcalls).
    { cbn. now rewrite Hn. }
    exists calls. split; [exact Hc | exact Hcalls].
  - intros w' d' h' fmt H3D Hconv Hfmt Htex.
    destruct (enable_update_run described w' a d' h' level format clim fmt
                Htg Hh Hrank eq_refl H3D Hconv Hfmt Htex)
      as (gltype & Hg & _ & _ & _ & rest & Hlog & Hrest).
    exists gltype, rest. split; [exact Hg|]. split; [|exact Hrest].
    rewrite Hlog. cbn [globals gl_log]. now rewrite <- app_assoc.
Qed.

End FastPath.

Lemma set_data_fast_path_witness :
  _target resident22 ∈ [gl.GL_TEXTURE_2D; gl.GL_TEXTURE_3D] /\
  0 < _handle resident22 /\
  _texture_shape resident22 = Some (shape image8) /\
  (List.length (shape image8) ∈
     [Texture.MAP_get (_target resident22);
      S (Texture.MAP_get (_target resident22))]) /\
  0 <= 0 /\
  Texture.format_ok None = true /\
  Texture.set_data (PyArray image8) None 0 None None (mk_state resident22 world_ex)
  = (Return tt,
     mk_state
       (with_pending_data
          (Some (mk_pending (Some image8) (Some [0; 0]) 0 None None)) resident22)
       world_ex).
Proof.
  assert (H1 : _target resident22 ∈ [gl.GL_TEXTURE_2D; gl.GL_TEXTURE_3D])
    by (apply elem_of_cons; left; reflexivity).
  assert (H2 : 0 < _handle resident22) by reflexivity.
  assert (H3 : List.length (shape image8) ∈
                 [Texture.MAP_get (_target resident22);
                  S (Texture.MAP_get (_target resident22))])
    by (apply elem_of_cons; left; reflexivity).
  assert (H4 : 0 <= 0) by lia.
  split; [exact H1|]. split; [exact H2|]. split; [reflexivity|].
  split; [exact H3|]. split; [exact H4|]. split; [reflexivity|].
  exact (proj1 (set_data_fast_path (K := ieee.kernels) (D := driver.counting)
                  ext_available_now resident22 world_ex image8 0 None None
                  H1 H2 eq_refl H3 H4 eq_refl)).
Defined.

(** The same scenario run on the reference platform: the activation after
    the fast-path [set_data] binds, updates the sub-image and enables the
    target; nothing is deleted, created or reallocated. *)
Example fast_path_scenario :
  gl_log (globals
            (final (Texture._enable (K := ieee.kernels) (D := driver.counting)
                      ext_available_now)
               (final (Texture.set_data (PyArray image8) None 0 None None)
                  (mk_state resident22 world_ex))))
  = [gl.glBindTexture gl.GL_TEXTURE_2D 1;
     gl.glIsTexture 1;
     gl.glTexSubImage2D
       [gl.Aint gl.GL_TEXTURE_2D; gl.Aint 0; gl.Aint 0; gl.Aint 0;
        gl.Aint 2; gl.Aint 2; gl.Aint gl.GL_LUMINANCE; gl.Aint gl.GL_UNSIGNED_BYTE;
        gl.Adata image8];
     gl.glIsTexture 1;
     gl.glIsTexture 1;
     gl.glEnable gl.GL_TEXTURE_2D;
     gl.glBindTexture gl.GL_TEXTURE_2D 1].
Proof. vm_compute. reflexivity. Qed.

(** ** Further properties of the conversion *)

Section ConversionMore.
Context {K : Kernels}.
Variable ext_available : string -> bool.

(** X1.  For a signed integer array of bit width [b] and no limits given,
    the first block of [convert_data] casts the data to 32-bit float, into
    a new array, and derives the limits (-2^(b-1), 2^(b-1) - 1), e.g.
    (-128, 127) for signed 8-bit; the limits are then applied to that
    float array. *)
Theorem signed_limits (data : ndarray) (b : Z) (h : heap) :
  int_bits (dtype data) = Some b ->
  let cast := mk_ndarray (List.length h) np.float32 (shape data) in
  let h' := h ++ [k_cast (dtype data) np.float32 <$> contents h data] in
  let F32 := ext_available "texture_float" in
  let F16 := ext_available "texture_half_float" in
  let clim := Some (PyInt (- 2 ^ (b - 1)), PyInt (2 ^ (b - 1) - 1)) in
  determine_clim F32 F16 data None h = (Return (mk_prepared cast clim true), h') /\
  convert_data ext_available data None h
    = (apply_limits cast clim ;; convert_if_necessary F32 F16 cast) h'.
Proof.
  intros Hb. destruct data as [buf dt shp].
  destruct dt; cbn in Hb; try discriminate; injection Hb as <-;
    cbn; split; reflexivity.
Qed.

(** X2.  A boolean array is cast to unsigned 8-bit, into a new array, and
    the limits given with it are discarded: whatever the limits, degenerate
    ones included, the call returns, and returns what it returns without
    limits. *)
Theorem convert_data_bool (data : ndarray) (clim : option clim_t) (h : heap) :
  dtype data = np.bool_ ->
  convert_data ext_available data clim h
    = (Return (mk_ndarray (List.length h) np.uint8 (shape data)),
       h ++ [k_cast np.bool_ np.uint8 <$> contents h data]) /\
  convert_data ext_available data clim h = convert_data ext_available data None h.
Proof.
  intros Hd. destruct data as [buf dt shp]. cbn in Hd. subst dt.
  split; reflexivity.
Qed.

(** X3.  For an element kind that is neither boolean, integer nor
    floating (complex, object, string, datetime), [convert_data] raises
    [RuntimeError] at once: nothing is allocated and the store is left as
    it was, whatever the limits. *)
Theorem convert_data_unsupported (data : ndarray) (clim : option clim_t) (h : heap) :
  supported (dtype data) = false ->
  convert_data ext_available data clim h = (Raise RuntimeError, h).
Proof.
  intros Hs. destruct data as [buf dt shp].
  destruct dt; cbn in Hs; try discriminate; reflexivity.
Qed.


End ConversionMore.

Section ConversionOrigin.
Context {K : Kernels}.
Variable h0 : heap.

Lemma convert_if_necessary_origin F32 F16 d :
  gl_kind (dtype d) ->
  fresh h0 d \/ passes F32 F16 (dtype d) ->
  grows h0 (convert_if_necessary F32 F16 d)
    (fun o => forall r, o = Return r -> r = d \/ fresh h0 r).
Proof.
  intros Hk Hd. unfold convert_if_necessary.
  assert (Hconv : fresh h0 d ->
    grows h0
      (imul d (PyFloat (PyNum.of_Z 256)) ;;
       assign_where_lt d (PyFloat PyNum.zero) (PyFloat PyNum.zero) ;;
       assign_where_gt d (PyFloat (PyNum.of_Z 256)) (PyFloat (PyNum.of_Z 256)) ;;
       astype d np.uint8)
      (fun o => forall r, o = Return r -> r = d \/ fresh h0 r)).
  { intros Hf.
    repeat (apply grows_bind with (P := fun o => o = Return tt);
            [first [apply grows_imul_float | apply grows_assign_lt_float
                   | apply grows_assign_gt_float]; exact Hf
            | intros _ _ | intros e [=]]).
    eapply grows_weaken; [apply grows_astype|].
    intros o (r & -> & Hr & _) r' [= <-]. now right. }
  assert (Hret : grows h0 (ret d)
                   (fun o => forall r, o = Return r -> r = d \/ fresh h0 r)).
  { apply grows_ret. intros r [= <-]. now left. }
  destruct Hk as [Hk|[Hk|Hk]]; rewrite Hk in *; cbn.
  - exact Hret.
  - destruct F16; cbn; [exact Hret|].
    apply Hconv. destruct Hd as [Hd|[Hd|[[_ Hd]|[Hd _]]]];
      [exact Hd | discriminate.. ].
  - destruct F32; cbn; [exact Hret|].
    apply Hconv. destruct Hd as [Hd|[Hd|[[Hd _]|[_ Hd]]]];
      [exact Hd | discriminate.. ].
Qed.

Lemma grows_and {A} (c : M heap A) (P Q : outcome A -> Prop) :
  grows h0 c P -> grows h0 c Q -> grows h0 c (fun o => P o /\ Q o).
Proof.
  intros HP HQ h Hh. destruct (HP h Hh) as [E p], (HQ h Hh) as [_ q]. auto.
Qed.

(** The first block hands the input on only when no limits were given. *)
Lemma determine_clim_origin F32 F16 data clim :
  grows h0 (determine_clim F32 F16 data clim)
    (fun o => forall p, o = Return p ->
       fresh h0 (p_data p) \/ (p_data p = data /\ clim = None)).
Proof.
  intros h [extra ->]. destruct data as [b dt shp].
  destruct dt; cbn.
  all: try (destruct clim as [c|]); try destruct F16; try destruct F32; cbn.
  all: (split; [first [apply extends_app | apply extends_base]|]).
  all: try discriminate.
  all: intros p [= <-]; cbn.
  all: first [left; apply fresh_alloc | right; split; reflexivity].
Qed.

Lemma convert_data_origin ext_available data clim :
  grows h0 (convert_data ext_available data clim)
    (fun o => forall r, o = Return r ->
       (r = data /\ clim = None /\ uploadable ext_available data) \/ fresh h0 r).
Proof.
  unfold convert_data.
  eapply grows_bind;
    [apply grows_and; [apply determine_clim_spec | apply determine_clim_origin]
    | | discriminate].
  intros p [(Hp & _ & _) Ho].
  destruct (Hp p eq_refl) as (Hsh & Hk & Hd & Hl).
  specialize (Ho p eq_refl).
  eapply grows_bind; [| |discriminate].
  - apply apply_limits_spec. destruct Hd as [Hd|(_ & Hd & _)]; auto.
  - intros [] _. eapply grows_weaken.
    + apply convert_if_necessary_origin; [exact Hk|].
      destruct Hd as [Hd|(E & _ & Hd)]; [now left | right; now rewrite E].
    + cbn. intros o Hr r Er. destruct (Hr r Er) as [->|Hf]; [|now right].
      destruct Ho as [Ho|[E Ec]]; [now right|].
      destruct Hd as [Hd|(_ & _ & Hpass)]; [now right|]. left. auto.
Qed.

End ConversionOrigin.

Section ConversionAlias.
Context {K : Kernels}.
Variable ext_available : string -> bool.

(** X5.  For an array that lives in the store, [convert_data] returns the
    caller's own array exactly when no limits are given and its kind is one
    OpenGL takes as it is; in every other case what it returns is a new
    array, in a buffer that did not exist before the call.  It always has
    the shape of the input and a kind [DTYPES] knows, so the type check of
    the upload accepts it. *)
Theorem convert_data_result (data : ndarray) (clim : option clim_t) (h : heap)
    (r : ndarray) :
  (buffer data < List.length h)%nat ->
  result (convert_data ext_available data clim) h = Return r ->
  (r = data <-> clim = None /\ uploadable ext_available data) /\
  (r <> data -> (List.length h <= buffer r)%nat) /\
  shape r = shape data /\
  (exists gltype, DTYPES !! np.name (dtype r) = Some gltype).
Proof.
  intros Hb Hr.
  destruct (convert_data_origin h ext_available data clim h (extends_refl h))
    as [_ Ho].
  destruct (convert_data_spec h ext_available data clim h (extends_refl h))
    as [_ (Hs & _)].
  destruct (Hs r Hr) as [Hup Hsh]. specialize (Ho r Hr).
  split; [|split; [|split]].
  - split.
    + intros ->. destruct Ho as [(_ & Hc & Hu)|Hf]; [auto|].
      unfold fresh in Hf. lia.
    + intros [-> Hu].
      assert (E : convert_data ext_available data None h = (Return data, h)).
      { clear -Hu. destruct data as [buf dt shp]. unfold uploadable, passes in Hu.
        cbn in Hu. unfold convert_data.
        destruct Hu as [->|[[-> E]|[-> E]]]; cbn; rewrite ?E; reflexivity. }
      unfold result in Hr. rewrite E in Hr. now injection Hr as <-.
  - intros Hne. destruct Ho as [(E & _)|Hf]; [contradiction | exact Hf].
  - exact Hsh.
  - apply DTYPES_gl_kind.
    destruct Hup as [E|[[E _]|[E _]]]; unfold gl_kind; auto.
Qed.

End ConversionAlias.

Lemma signed_limits_witness :
  int_bits np.int8 = Some 8 /\
  determine_clim (K := ieee.kernels) true true (mk_ndarray 0 np.int8 [2; 2]) None heap_ex
  = (Return (mk_prepared (mk_ndarray 2 np.float32 [2; 2])
               (Some (PyInt (-128), PyInt 127)) true),
     heap_ex ++ [k_cast (Kernels := ieee.kernels) np.int8 np.float32
                   <$> [Sint 3; Sint 200; Sint 255; Sint 0]]).
Proof.
  split; [reflexivity|].
  exact (proj1 (signed_limits (K := ieee.kernels) ext_available_now
                  (mk_ndarray 0 np.int8 [2; 2]) 8 heap_ex eq_refl)).
Defined.

Lemma convert_data_bool_witness :
  dtype (mk_ndarray 0 np.bool_ [2; 2]) = np.bool_ /\
  convert_data (K := ieee.kernels) ext_available_now (mk_ndarray 0 np.bool_ [2; 2])
    (Some (PyInt 1, PyInt 1)) heap_ex
  = convert_data (K := ieee.kernels) ext_available_now (mk_ndarray 0 np.bool_ [2; 2])
      None heap_ex.
Proof.
  split; [reflexivity|].
  exact (proj2 (convert_data_bool (K := ieee.kernels) ext_available_now
                  (mk_ndarray 0 np.bool_ [2; 2]) (Some (PyInt 1, PyInt 1)) heap_ex
                  eq_refl)).
Defined.

Lemma convert_data_unsupported_witness :
  supported np.complex64 = false /\
  convert_data (K := ieee.kernels) ext_available_now
    (mk_ndarray 0 np.complex64 [2; 2]) None heap_ex
  = (Raise RuntimeError, heap_ex).
Proof.
  split; [reflexivity|].
  exact (convert_data_unsupported (K := ieee.kernels) ext_available_now
           (mk_ndarray 0 np.complex64 [2; 2]) None heap_ex eq_refl).
Defined.


Lemma convert_data_result_witness :
  (buffer image16 < List.length heap_ex)%nat /\
  result (convert_data (K := ieee.kernels) ext_available_now image16 None) heap_ex
    = Return (mk_ndarray 2 np.float32 [1; 3]) /\
  (List.length heap_ex <= buffer (mk_ndarray 2 np.float32 [1%Z; 3%Z]))%nat.
Proof.
  assert (Hb : (buffer image16 < List.length heap_ex)%nat) by (cbn; lia).
  assert (Hr : result (convert_data (K := ieee.kernels) ext_available_now
                         image16 None) heap_ex
               = Return (mk_ndarray 2 np.float32 [1; 3])) by reflexivity.
  split; [exact Hb|]. split; [exact Hr|].
  apply (proj1 (proj2 (convert_data_result (K := ieee.kernels) ext_available_now
                         image16 None heap_ex _ Hb Hr))).
  discriminate.
Defined.

(** ** Formats and alignments *)

(** The shapes [get_format] accepts for a 2D or 3D target. *)
Lemma get_format_shapes (shape : list Z) (target : Z) :
  target ∈ [gl.GL_TEXTURE_2D; gl.GL_TEXTURE_3D] ->
  let ndim := Texture.MAP_get target in
  (forall f,
     result (get_format (Some shape) target) tt = Return f <->
     (List.length shape = ndim /\ f = gl.GL_LUMINANCE) \/
     (List.length shape = S ndim /\
      exists c, shape !! ndim = Some c /\ format_of_channels c = Some f)) /\
  (forall e, result (get_format (Some shape) target) tt = Raise e -> e = ValueError) /\
  (forall f,
     result (get_format (Some shape) target) tt = Return f ->
     Texture.format_ok (Some f) = true /\ f <> gl.GL_ALPHA).
Proof.
  intros Htg ndim.
  assert (Ht : target = gl.GL_TEXTURE_2D \/ target = gl.GL_TEXTURE_3D).
  { apply elem_of_cons in Htg as [Htg|Htg]; [now left|].
    apply elem_of_cons in Htg as [Htg|Htg]; [now right|].
    now apply not_elem_of_nil in Htg. }
  assert (Hfmt : forall c f, format_of_channels c = Some f ->
            (c = 1 /\ f = gl.GL_LUMINANCE) \/ (c = 2 /\ f = gl.GL_LUMINANCE_ALPHA)
            \/ (c = 3 /\ f = gl.GL_RGB) \/ (c = 4 /\ f = gl.GL_RGBA)).
  { intros c f. unfold format_of_channels.
    destruct (c =? 1) eqn:E1; [intros [= <-]; left; lia|].
    destruct (c =? 2) eqn:E2; [intros [= <-]; right; left; lia|].
    destruct (c =? 3) eqn:E3; [intros [= <-]; right; right; left; lia|].
    destruct (c =? 4) eqn:E4; [intros [= <-]; right; right; right; lia|].
    discriminate. }
  assert (Hok : forall c f, format_of_channels c = Some f ->
            Texture.format_ok (Some f) = true /\ f <> gl.GL_ALPHA).
  { intros c f Hc.
    destruct (Hfmt c f Hc) as [[_ ->]|[[_ ->]|[[_ ->]|[_ ->]]]];
      split; first [reflexivity | discriminate]. }
  assert (Hclosed :
    result (get_format (Some shape) target) tt =
      if (List.length shape =? ndim)%nat then Return gl.GL_LUMINANCE
      else if (List.length shape =? S ndim)%nat then
        match shape !! ndim with
        | Some c => match format_of_channels c with
                    | Some f => Return f
                    | None => Raise ValueError
                    end
        | None => Raise ValueError
        end
      else Raise ValueError).
  { unfold ndim, result, get_format, item_is, len, format_of_channels.
    destruct Ht as [-> | ->]; cbn.
    - destruct (Z.of_nat (List.length shape) =? 2) eqn:E2.
      { apply Z.eqb_eq in E2.
        now replace (List.length shape =? 2)%nat with true
          by (symmetry; apply Nat.eqb_eq; lia). }
      apply Z.eqb_neq in E2.
      replace (List.length shape =? 2)%nat with false
        by (symmetry; apply Nat.eqb_neq; lia).
      destruct (Z.of_nat (List.length shape) =? 3) eqn:E3; cbn [andb].
      2: { apply Z.eqb_neq in E3.
           now replace (List.length shape =? 3)%nat with false
             by (symmetry; apply Nat.eqb_neq; lia). }
      apply Z.eqb_eq in E3.
      replace (List.length shape =? 3)%nat with true
        by (symmetry; apply Nat.eqb_eq; lia).
      destruct (shape !! 2%nat) as [c|]; [|reflexivity].
      repeat case_bool_decide; simplify_eq; try reflexivity.
      repeat match goal with
             | |- context [?c =? ?k] =>
                 replace (c =? k) with false by (symmetry; apply Z.eqb_neq; congruence)
             end.
      reflexivity.
    - destruct (Z.of_nat (List.length shape) =? 3) eqn:E2.
      { apply Z.eqb_eq in E2.
        now replace (List.length shape =? 3)%nat with true
          by (symmetry; apply Nat.eqb_eq; lia). }
      apply Z.eqb_neq in E2.
      replace (List.length shape =? 3)%nat with false
        by (symmetry; apply Nat.eqb_neq; lia).
      destruct (Z.of_nat (List.length shape) =? 4) eqn:E3; cbn [andb].
      2: { apply Z.eqb_neq in E3.
           now replace (List.length shape =? 4)%nat with false
             by (symmetry; apply Nat.eqb_neq; lia). }
      apply Z.eqb_eq in E3.
      replace (List.length shape =? 4)%nat with true
        by (symmetry; apply Nat.eqb_eq; lia).
      destruct (shape !! 3%nat) as [c|]; [|reflexivity].
      repeat case_bool_decide; simplify_eq; try reflexivity.
      repeat match goal with
             | |- context [?c =? ?k] =>
                 replace (c =? k) with false by (symmetry; apply Z.eqb_neq; congruence)
             end.
      reflexivity. }
  rewrite Hclosed. clear Hclosed.
  destruct (List.length shape =? ndim)%nat eqn:E1.
  { apply Nat.eqb_eq in E1. split; [|split].
    - intros f. split.
      + intros [= <-]. now left.
      + intros [[_ ->]|[E _]]; [reflexivity | lia].
    - discriminate.
    - intros f [= <-]. split; [reflexivity | discriminate]. }
  apply Nat.eqb_neq in E1.
  destruct (List.length shape =? S ndim)%nat eqn:E2.
  2: { apply Nat.eqb_neq in E2. split; [|split].
       - intros f. split; [discriminate|].
         intros [[E _]|[E _]]; contradiction.
       - now intros e [= <-].
       - discriminate. }
  apply Nat.eqb_eq in E2.
  destruct (shape !! ndim) as [c|] eqn:Ec.
  2: { split; [|split].
       - intros f. split; [discriminate|].
         intros [[E _]|[_ (c & Hc & _)]]; [contradiction | discriminate].
       - now intros e [= <-].
       - discriminate. }
  destruct (format_of_channels c) as [f0|] eqn:Ef.
  - split; [|split].
    + intros f. split.
      * intros [= <-]. right. eauto.
      * intros [[E _]|[_ (c' & Hc & Hf)]]; [contradiction|].
        injection Hc as <-. congruence.
    + discriminate.
    + intros f [= <-]. apply (Hok c f0 Ef).
  - split; [|split].
    + intros f. split; [discriminate|].
      intros [[E _]|[_ (c' & Hc & Hf)]]; [contradiction|].
      injection Hc as <-. congruence.
    + now intros e [= <-].
    + discriminate.
Qed.

(** X6.  [get_format] by target and shape.  For a target other than 2D
    and 3D it raises [ValueError], whatever the shape, a missing one
    included.  For a 2D or 3D target, a missing shape ([None]) raises
    [TypeError]; among the shapes it accepts exactly those of rank
    [ndim], which give [GL_LUMINANCE], and those of rank [ndim + 1] whose
    last dimension is 1, 2, 3 or 4, which give luminance,
    luminance-alpha, RGB and RGBA; every other shape raises [ValueError].
    A format it returns is one [set_data] accepts, and is never
    [GL_ALPHA]. *)
Theorem get_format_accepts (target : Z) :
  (target ∉ [gl.GL_TEXTURE_2D; gl.GL_TEXTURE_3D] ->
   forall shape : option (list Z),
     result (get_format shape target) tt = Raise ValueError) /\
  (target ∈ [gl.GL_TEXTURE_2D; gl.GL_TEXTURE_3D] ->
   result (get_format None target) tt = Raise TypeError /\
   forall shape : list Z,
     let ndim := Texture.MAP_get target in
     (forall f,
        result (get_format (Some shape) target) tt = Return f <->
        (List.length shape = ndim /\ f = gl.GL_LUMINANCE) \/
        (List.length shape = S ndim /\
         exists c, shape !! ndim = Some c /\ format_of_channels c = Some f)) /\
     (forall e,
        result (get_format (Some shape) target) tt = Raise e -> e = ValueError) /\
     (forall f,
        result (get_format (Some shape) target) tt = Return f ->
        Texture.format_ok (Some f) = true /\ f <> gl.GL_ALPHA)).
Proof.
  split.
  - intros Hout shape. unfold result, get_format.
    destruct (target =? gl.GL_TEXTURE_2D) eqn:E2.
    { exfalso. apply Hout. apply Z.eqb_eq in E2. subst target.
      apply elem_of_cons. now left. }
    destruct (target =? gl.GL_TEXTURE_3D) eqn:E3; [|reflexivity].
    exfalso. apply Hout. apply Z.eqb_eq in E3. subst target.
    apply elem_of_cons. right. apply elem_of_cons. now left.
  - intros Htg. split.
    + apply elem_of_cons in Htg as [->|Htg]; [reflexivity|].
      apply elem_of_cons in Htg as [->|Htg]; [reflexivity|].
      now apply not_elem_of_nil in Htg.
    + intros shape. apply get_format_shapes, Htg.
Qed.

Lemma get_format_accepts_witness :
  (gl.GL_TEXTURE_2D ∈ [gl.GL_TEXTURE_2D; gl.GL_TEXTURE_3D]) /\
  (gl.GL_TEXTURE_CUBE_MAP ∉ [gl.GL_TEXTURE_2D; gl.GL_TEXTURE_3D]) /\
  result (get_format (Some [4; 4; 3]) gl.GL_TEXTURE_2D) tt = Return gl.GL_RGB /\
  Texture.format_ok (Some gl.GL_RGB) = true /\
  result (get_format (Some [4; 4; 3]) gl.GL_TEXTURE_CUBE_MAP) tt = Raise ValueError.
Proof.
  assert (H1 : gl.GL_TEXTURE_2D ∈ [gl.GL_TEXTURE_2D; gl.GL_TEXTURE_3D])
    by (apply elem_of_cons; left; reflexivity).
  assert (H2 : gl.GL_TEXTURE_CUBE_MAP ∉ [gl.GL_TEXTURE_2D; gl.GL_TEXTURE_3D]).
  { intros Hin. apply elem_of_cons in Hin as [Hin|Hin]; [discriminate Hin|].
    apply elem_of_cons in Hin as [Hin|Hin]; [discriminate Hin|].
    now apply not_elem_of_nil in Hin. }
  split; [exact H1|]. split; [exact H2|]. split; [reflexivity|]. split.
  - exact (proj1 (proj2 (proj2
      (proj2 (proj2 (get_format_accepts gl.GL_TEXTURE_2D) H1) [4; 4; 3]))
      gl.GL_RGB eq_refl)).
  - exact (proj1 (get_format_accepts gl.GL_TEXTURE_CUBE_MAP) H2 (Some [4; 4; 3])).
Defined.

(** X7.  [_get_alignment] always finds an alignment: 4 when 4 divides the
    width, else 2 when the width is even, else 1.  The alignment divides
    the width, and 8, although in the list of candidates, is never the
    answer, since 4 is tried first. *)
Theorem get_alignment_value (width : Z) :
  _RawTexture._get_alignment width = Some (alignment_of width) /\
  width `mod` alignment_of width = 0 /\
  alignment_of width ∈ [4; 2; 1] /\
  _RawTexture._get_alignment width <> Some 8.
Proof.
  unfold _RawTexture._get_alignment, alignment_of. cbn.
  assert (H8 : width `mod` 8 = 0 -> width `mod` 4 = 0).
  { intros E. apply Z.mod_divide in E; [|lia]. destruct E as [q ->].
    apply Z.mod_divide; [lia|]. exists (2 * q). lia. }
  assert (H1 : width `mod` 1 = 0) by apply Z.mod_1_r.
  destruct (width `mod` 4 =? 0) eqn:E4.
  { apply Z.eqb_eq in E4.
    split; [reflexivity|]. split; [exact E4|]. split; [|discriminate].
    apply elem_of_cons; now left. }
  apply Z.eqb_neq in E4.
  destruct (width `mod` 8 =? 0) eqn:E8.
  { apply Z.eqb_eq in E8. now apply H8 in E8. }
  destruct (width `mod` 2 =? 0) eqn:E2.
  { apply Z.eqb_eq in E2.
    split; [reflexivity|]. split; [exact E2|]. split; [|discriminate].
    apply elem_of_cons; right. apply elem_of_cons; now left. }
  rewrite H1. cbn.
  split; [reflexivity|]. split; [reflexivity|]. split; [|discriminate].
  apply elem_of_cons; right. apply elem_of_cons; right. apply elem_of_cons; now left.
Qed.

(** ** Bookkeeping calls *)

Global Instance same_world_preorder : PreOrder same_world.
Proof.
  split.
  - intros st. reflexivity.
  - intros s1 s2 s3 H1 H2. unfold same_world in *. congruence.
Qed.

Lemma same_world_set_self f : respects same_world (set_self f).
Proof. intros st. reflexivity. Qed.

Ltac keep_world :=
  repeat first
    [ respects_step
    | apply respects_pure; [apply _ | reflexivity]
    | apply same_world_set_self ].





Section Parameters.
Context {N : gl.Namespace}.


End Parameters.


Section Deferred.
Context {N : gl.Namespace}.

(** X9.  Describing a texture sends nothing to OpenGL: [set_data],
    [set_storage], [set_parameter], [__call__] and the constructor leave
    the module state (log of OpenGL calls, enable counters, array store,
    output) exactly as it was, for all arguments and whether they return
    or raise. *)
Theorem description_is_deferred (st : state) (data : pyvalue)
    (offset : option (list Z)) (level : Z) (format : option Z)
    (clim : option clim_t) (shape : list Z) (param : pyparam)
    (value unit_ target : Z) (w : world) :
  globals (final (Texture.set_data data offset level format clim) st) = globals st /\
  globals (final (Texture.set_storage shape level format) st) = globals st /\
  globals (final (Texture.set_parameter param value) st) = globals st /\
  globals (final (Texture.__call__ unit_) st) = globals st /\
  snd (Texture.__init__ target data format clim w) = w.
Proof.
  assert (Hd : forall data offset level format clim,
            respects same_world (Texture.set_data data offset level format clim)).
  { intros. unfold Texture.set_data, Texture.reset_if_error. keep_world. }
  assert (Hs : forall shape level format,
            respects same_world (Texture.set_storage shape level format)).
  { intros. unfold Texture.set_storage, Texture.reset_if_error. keep_world. }
  assert (Hp : forall param value,
            respects same_world (Texture.set_parameter param value)).
  { intros. unfold Texture.set_parameter, Texture.resolve_param. keep_world. }
  split; [apply Hd|]. split; [apply Hs|]. split; [apply Hp|].
  split; [reflexivity|].
  unfold Texture.__init__, _RawTexture.__init__.
  case_bool_decide; [|reflexivity]. cbn [ret].
  match goal with
  | |- snd (match ?c ?s with _ => _ end) = _ =>
      assert (Hc : same_world s (final c s));
      [|unfold final, same_world in Hc; destruct (c s) as [[[]|e] s1]; exact Hc]
  end.
  apply respects_run. keep_world.
  all: first [apply Hp | apply Hd | apply Hs].
Qed.

End Deferred.

(** ** What a description records, and when it is refused *)

Lemma reset_if_error_run t w :
  Texture.reset_if_error (mk_state t w) = (Return tt, mk_state (after_reset t) w).
Proof.
  unfold Texture.reset_if_error, after_reset, bind, get_self, get, ret,
    set_self, modify.
  cbn. destruct (_handle t <? 0); reflexivity.
Qed.

(** X10.  [set_storage] records all or nothing.  When it raises, the
    exception is an [AssertionError] and the texture is as the reset step
    left it: nothing pending was added, the recorded shape was not
    replaced.  When it returns, either it found the shape already
    recorded (and changed nothing), or rank, dimensions (all positive),
    level and format passed, and the texture holds the content-less
    description [(None, None, level, format, None)] and the new shape.  The
    module state is not involved. *)
Theorem set_storage_outcome (shape : list Z) (level : Z) (format : option Z)
    (t : texture) (w : world) :
  let ndim := Texture.MAP_get (_target t) in
  let t1 := after_reset t in
  let recorded :=
    with_texture_shape (Some shape)
      (with_pending_data (Some (mk_pending None None level format None)) t1) in
  (forall e,
     result (Texture.set_storage shape level format) (mk_state t w) = Raise e ->
     e = AssertionError /\
     final (Texture.set_storage shape level format) (mk_state t w) = mk_state t1 w) /\
  (result (Texture.set_storage shape level format) (mk_state t w) = Return tt ->
     (final (Texture.set_storage shape level format) (mk_state t w) = mk_state t1 w /\
      format = None /\ level = 0 /\
      exists ts, _texture_shape t1 = Some ts /\ take ndim ts = take ndim shape) \/
     (final (Texture.set_storage shape level format) (mk_state t w)
        = mk_state recorded w /\
      List.length shape ∈ [ndim; S ndim] /\
      Forall (fun i => 0 < i) shape /\
      0 <= level /\
      Texture.format_ok format = true)).
Proof.
  intros ndim t1 recorded. unfold result, final, Texture.set_storage.
  rewrite (run_bind _ _ _ _ _ (reset_if_error_run t w)). cbv beta.
  rewrite (run_bind get_self _ _ _ _ eq_refl). cbv beta iota. cbn [self].
  fold t1. replace (_target t1) with (_target t)
    by (unfold t1, after_reset; destruct (_handle t <? 0); reflexivity).
  fold ndim.
  destruct (match format with
            | Some _ => false
            | None => match _texture_shape t1 with
                      | Some texture_shape =>
                          (level =? 0)
                          && bool_decide (take ndim texture_shape = take ndim shape)
                      | None => false
                      end
            end) eqn:Esame.
  { cbn. split; [discriminate|]. intros _. left. split; [reflexivity|].
    destruct format; [discriminate|].
    destruct (_texture_shape t1) as [ts|]; [|discriminate].
    apply andb_true_iff in Esame as [El Et].
    apply Z.eqb_eq in El. apply bool_decide_eq_true_1 in Et. eauto. }
  clear Esame.
  unfold bind, assert, set_self, modify, ret, raise. cbn.
  destruct (bool_decide (List.length shape ∈ [ndim; S ndim])) eqn:E1; cbn.
  2: { split; [now intros e [= <-] | discriminate]. }
  destruct (forallb (fun i => i >? 0) shape) eqn:E2; cbn.
  2: { split; [now intros e [= <-] | discriminate]. }
  destruct (level >=? 0) eqn:E3; cbn.
  2: { split; [now intros e [= <-] | discriminate]. }
  destruct (Texture.format_ok format) eqn:E4; cbn.
  2: { split; [now intros e [= <-] | discriminate]. }
  split; [discriminate|]. intros _. right.
  split; [reflexivity|]. split; [now apply bool_decide_eq_true_1 in E1|].
  split; [|split; [lia | reflexivity]].
  apply Forall_forall. intros i Hi.
  rewrite forallb_forall in E2. apply list_elem_of_In in Hi.
  specialize (E2 i Hi). lia.
Qed.

(** X11.  [set_data] records all or nothing, and what it records replaces
    whatever was pending.  Anything but an array is refused with
    [ValueError]; a wrong rank, an offset of the wrong length, a negative
    level or an unknown format with [AssertionError]; in both cases the
    texture is as the reset step left it.  When it returns, the pending
    description is [(array, offset, level, format, clim)] and the
    recorded shape is the shape of the array; the offset is the one given
    (one entry per dimension of the target), or, when none was given, all
    zeros if the texture has a positive handle and that very shape
    recorded, and absent otherwise.  An errored texture therefore never
    takes the fast path. *)
Theorem set_data_outcome (data : pyvalue) (offset : option (list Z)) (level : Z)
    (format : option Z) (clim : option clim_t) (t : texture) (w : world) :
  let ndim := Texture.MAP_get (_target t) in
  let t1 := after_reset t in
  (forall e,
     result (Texture.set_data data offset level format clim) (mk_state t w) = Raise e ->
     (e = ValueError \/ e = AssertionError) /\
     (e = ValueError <-> forall a, data <> PyArray a) /\
     final (Texture.set_data data offset level format clim) (mk_state t w)
       = mk_state t1 w) /\
  (result (Texture.set_data data offset level format clim) (mk_state t w) = Return tt ->
     exists a off,
       data = PyArray a /\
       final (Texture.set_data data offset level format clim) (mk_state t w)
         = mk_state
             (with_texture_shape (Some (shape a))
                (with_pending_data
                   (Some (mk_pending (Some a) off level format clim)) t1)) w /\
       List.length (shape a) ∈ [ndim; S ndim] /\
       0 <= level /\
       Texture.format_ok format = true /\
       match offset with
       | Some o => off = Some o /\ List.length o = ndim
       | None =>
           off = if bool_decide (_texture_shape t1 = Some (shape a))
                    && (0 <? _handle t1)
                 then Some (replicate ndim 0) else None
       end) /\
  (_handle t < 0 -> _texture_shape t1 = None /\ _handle t1 = 0).
Proof.
  intros ndim t1.
  assert (Hreset : _handle t < 0 -> _texture_shape t1 = None /\ _handle t1 = 0).
  { intros Hh. unfold t1, after_reset.
    now replace (_handle t <? 0) with true by lia. }
  split; [|split; [|exact Hreset]]; revert Hreset; intros _.
  all: unfold result, final, Texture.set_data.
  all: rewrite (run_bind _ _ _ _ _ (reset_if_error_run t w)); cbv beta.
  all: rewrite (run_bind get_self _ _ _ _ eq_refl); cbv beta iota; cbn [self].
  all: fold t1; replace (_target t1) with (_target t)
    by (unfold t1, after_reset; destruct (_handle t <? 0); reflexivity).
  all: fold ndim.
  - destruct data as [|a|tp|].
    1,3,4: (cbn; intros e [= <-]; split; [now left|]; split; [|reflexivity];
            split; [intros _ a' [=] | reflexivity]).
    rewrite (run_bind (ret a) _ _ _ _ eq_refl). cbv beta iota.
    intros e He.
    assert (e = AssertionError /\
            snd ((assert (bool_decide (List.length (shape a) ∈ [ndim; S ndim])) ;;
                  offset <- match offset with
                            | Some offset =>
                                assert (len offset =? len (take ndim (shape a))) ;;
                                ret (Some offset)
                            | None =>
                                match _texture_shape t1 with
                                | Some texture_shape =>
                                    if bool_decide (shape a = texture_shape)
                                       && (_handle t1 >? 0)
                                    then ret (Some ((fun _ => 0) <$>
                                                      take ndim texture_shape))
                                    else ret None
                                | None => ret None
                                end
                            end ;;
                  assert (level >=? 0) ;;
                  assert (Texture.format_ok format) ;;
                  set_self (with_pending_data
                              (Some (mk_pending (Some a) offset level format clim))) ;;
                  set_self (with_texture_shape (Some (shape a))))
                   (mk_state t1 w)) = mk_state t1 w) as [-> Hfin].
    { revert He. unfold bind, assert, set_self, modify, ret, raise. cbn.
      destruct (bool_decide (List.length (shape a) ∈ [ndim; S ndim])); cbn;
        [|now intros [= <-]].
      destruct offset as [o|]; cbn.
      - destruct (len o =? len (take ndim (shape a))); cbn; [|now intros [= <-]].
        destruct (level >=? 0); cbn; [|now intros [= <-]].
        destruct (Texture.format_ok format); cbn; [discriminate | now intros [= <-]].
      - destruct (_texture_shape t1) as [ts|]; cbn.
        + destruct (bool_decide (shape a = ts) && (_handle t1 >? 0)); cbn;
            (destruct (level >=? 0); cbn; [|now intros [= <-]]);
            (destruct (Texture.format_ok format); cbn;
               [discriminate | now intros [= <-]]).
        + destruct (level >=? 0); cbn; [|now intros [= <-]].
          destruct (Texture.format_ok format); cbn;
            [discriminate | now intros [= <-]]. }
    split; [now right|]. split; [|exact Hfin].
    split; [discriminate|]. intros Hc. now specialize (Hc a).
  - destruct data as [|a|tp|]; [discriminate| |discriminate..].
    rewrite (run_bind (ret a) _ _ _ _ eq_refl). cbv beta iota.
    unfold bind, assert, set_self, modify, ret, raise. cbn.
    destruct (bool_decide (List.length (shape a) ∈ [ndim; S ndim])) eqn:E1; cbn;
      [|discriminate].
    apply bool_decide_eq_true_1 in E1.
    assert (Hrank : (ndim <= List.length (shape a))%nat).
    { apply elem_of_cons in E1 as [E|E]; [lia|].
      apply elem_of_cons in E as [E|E]; [lia|].
      now apply not_elem_of_nil in E. }
    destruct offset as [o|]; cbn.
    + destruct (len o =? len (take ndim (shape a))) eqn:E2; cbn; [|discriminate].
      destruct (level >=? 0) eqn:E3; cbn; [|discriminate].
      destruct (Texture.format_ok format) eqn:E4; cbn; [|discriminate].
      intros _. exists a, (Some o). split; [reflexivity|]. split; [reflexivity|].
      split; [exact E1|]. split; [lia|]. split; [reflexivity|].
      split; [reflexivity|].
      unfold len in E2. apply Z.eqb_eq, Nat2Z.inj in E2.
      rewrite length_take, Nat.min_l in E2 by exact Hrank. exact E2.
    + destruct (_texture_shape t1) as [ts|] eqn:Ets; cbn.
      * destruct (bool_decide (shape a = ts) && (_handle t1 >? 0)) eqn:Eb; cbn;
          (destruct (level >=? 0) eqn:E3; cbn; [|discriminate]);
          (destruct (Texture.format_ok format) eqn:E4; cbn; [|discriminate]);
          intros _; eexists a, _; (split; [reflexivity|]);
          (split; [reflexivity|]); (split; [exact E1|]); (split; [lia|]);
          (split; [reflexivity|]).
        -- apply andb_true_iff in Eb as [Es Eh].
           apply bool_decide_eq_true_1 in Es. subst ts.
           rewrite bool_decide_eq_true_2 by reflexivity.
           replace (0 <? _handle t1) with true by lia. cbn [andb].
           now rewrite fmap_zero_replicate, length_take, Nat.min_l by exact Hrank.
        -- apply andb_false_iff in Eb as [Es|Eh].
           ++ apply bool_decide_eq_false_1 in Es.
              rewrite bool_decide_eq_false_2 by congruence. reflexivity.
           ++ replace (0 <? _handle t1) with false by lia.
              now rewrite andb_false_r.
      * destruct (level >=? 0) eqn:E3; cbn; [|discriminate].
        destruct (Texture.format_ok format) eqn:E4; cbn; [|discriminate].
        intros _. exists a, None. split; [reflexivity|]. split; [reflexivity|].
        split; [exact E1|]. split; [lia|]. split; reflexivity.
Qed.


Section Constructor.
Context {N : gl.Namespace}.

(** X12.  The constructor refuses any target other than 2D and 3D, and
    any initial value that is neither absent, an array nor a shape, with
    [ValueError].  A texture it returns has the target given, handle 0
    (no OpenGL object yet), no texture unit, and min and mag filter set to
    [GL_LINEAR] in both parameter dictionaries; it carries no pending
    description when built without data, the description of the array
    (no offset, level 0) when built from an array, and a content-less
    description when built from a shape. *)
Theorem constructor_state (target : Z) (data : pyvalue) (format : option Z)
    (clim : option clim_t) (w : world) :
  (target ∉ [gl.GL_TEXTURE_2D; gl.GL_TEXTURE_3D] \/ data = PyOther ->
     result (Texture.__init__ target data format clim) w = Raise ValueError) /\
  (forall t,
     result (Texture.__init__ target data format clim) w = Return t ->
     target ∈ [gl.GL_TEXTURE_2D; gl.GL_TEXTURE_3D] /\
     _target t = target /\ _handle t = 0 /\ _unit t = -1 /\
     _texture_params t = [(gl.GL_TEXTURE_MIN_FILTER, gl.GL_LINEAR);
                          (gl.GL_TEXTURE_MAG_FILTER, gl.GL_LINEAR)] /\
     _pending_params t = _texture_params t /\
     (_pending_data t, _texture_shape t) =
       match data with
       | PyArray a => (Some (mk_pending (Some a) None 0 format clim), Some (shape a))
       | PyTuple s => (Some (mk_pending None None 0 format None), Some s)
       | _ => (None, None)
       end).
Proof.
  unfold result, Texture.__init__, _RawTexture.__init__.
  case_bool_decide as Htg.
  2: { cbn. split; [reflexivity | discriminate]. }
  cbn [ret].
  unfold Texture.set_parameter, Texture.resolve_param, Texture.set_data,
    Texture.set_storage,
    Texture.reset_if_error, bind, get_self, get, ret, raise, set_self, modify, assert.
  cbn.
  destruct data as [|a|s|]; cbn.
  - split; [intros [Hc|Hc]; [contradiction | discriminate]|].
    intros t Ht. simplify_eq. cbn.
    split_and!; first [exact Htg | reflexivity].
  - split; [intros [Hc|Hc]; [contradiction | discriminate]|].
    destruct (bool_decide (List.length (shape a) ∈ _)); cbn; [|discriminate].
    destruct (Texture.format_ok format); cbn; [|discriminate].
    intros t Ht. simplify_eq. cbn.
    split_and!; first [exact Htg | reflexivity].
  - split; [intros [Hc|Hc]; [contradiction | discriminate]|].
    destruct format; cbn;
      (destruct (bool_decide (List.length s ∈ _)); cbn; [|discriminate]);
      (destruct (forallb _ s); cbn; [|discriminate]);
      try (destruct (bool_decide (_ ∈ [gl.GL_RGB; _; _; _; _])); cbn; [|discriminate]);
      intros t Ht; simplify_eq; cbn;
      split_and!; first [exact Htg | reflexivity].
  - split; [reflexivity | discriminate].
Qed.

End Constructor.

(** ** Release, parameters, binding *)

Lemma world_log_nil w : set_gl_log (gl_log w ++ []) w = w.
Proof. destruct w. unfold set_gl_log. cbn. now rewrite app_nil_r. Qed.

(** X13.  [delete] never raises, whatever the hook [_delete] of the
    subclass does, and leaves the handle at 0.  On a texture it issues
    [glDeleteTextures] for the handle exactly when the handle is positive,
    and nothing otherwise; a second [delete] in a row issues nothing. *)
Theorem delete_releases_once (t : texture) (w : world) :
  (forall (hook : M state unit) (st : state),
     result (GLObject.delete hook) st = Return tt /\
     _handle (self (final (GLObject.delete hook) st)) = 0) /\
  Texture.delete (mk_state t w)
  = (Return tt,
     mk_state (with_handle 0 t)
       (if _handle t >? 0
        then set_gl_log (gl_log w ++ [gl.glDeleteTextures [_handle t]]) w
        else w)) /\
  (Texture.delete ;; Texture.delete) (mk_state t w) = Texture.delete (mk_state t w).
Proof.
  assert (Hrun : forall t w, Texture.delete (mk_state t w)
    = (Return tt,
       mk_state (with_handle 0 t)
         (if _handle t >? 0
          then set_gl_log (gl_log w ++ [gl.glDeleteTextures [_handle t]]) w
          else w))).
  { clear. intros t w.
    unfold Texture.delete, GLObject.delete, _RawTexture._delete, _RawTexture.gl_,
      try_pass, bind, get_self, get, ret, set_self, modify, in_world, zoom, gl_call.
    cbn. destruct (_handle t >? 0); reflexivity. }
  split; [|split].
  - intros hook st. unfold GLObject.delete, result, final, try_pass, bind,
      get_self, get, ret, set_self, modify. cbn.
    destruct (_handle (self st) >? 0); cbn.
    + destruct (hook st) as [[[]|e] st']; cbn; split; reflexivity.
    + split; reflexivity.
  - apply Hrun.
  - unfold bind at 1. rewrite Hrun. rewrite Hrun. cbn.
    destruct (_handle t >? 0); reflexivity.
Qed.

Lemma flush_run_rev (r : list (Z * Z)) : forall t w rounds,
  _pending_params t = reverse r -> (List.length r <= rounds)%nat ->
  Texture.flush_pending_params rounds (mk_state t w)
  = (Return tt,
     mk_state (with_pending_params [] t)
       (set_gl_log (gl_log w ++ parameter_calls (_target t) r) w)).
Proof.
  induction r as [|[p v] r IH]; intros t w rounds Hp Hr.
  - cbn in Hp. unfold parameter_calls. cbn [fmap list_fmap]. rewrite world_log_nil.
    assert (Et : with_pending_params [] t = t).
    { destruct t. cbn in Hp. unfold with_pending_params. cbn. now rewrite Hp. }
    rewrite Et. destruct rounds as [|n]; [reflexivity|].
    cbn [Texture.flush_pending_params]. unfold bind, get_self, get, ret. cbn.
    rewrite Hp. reflexivity.
  - destruct rounds as [|n]; [cbn in Hr; lia|].
    cbn [Texture.flush_pending_params].
    rewrite (run_bind get_self _ _ _ _ eq_refl). cbv beta iota. cbn [self].
    unfold dict.popitem. rewrite Hp, reverse_involutive.
    rewrite (run_bind (set_self _) _ _ _ _ eq_refl). cbv beta iota.
    rewrite (run_bind (_RawTexture.gl_ _) _ _ _ _ eq_refl). cbv beta iota.
    cbn [self globals].
    rewrite IH; [|reflexivity|cbn in Hr; lia].
    cbn. unfold set_gl_log. cbn. now rewrite <- app_assoc.
Qed.

(** X14.  The loop that sends the pending parameters terminates within
    as many rounds as there are items: it issues one [glTexParameter] per
    pending item, the item set last first ([popitem]), and leaves the
    pending dictionary empty; nothing else of the texture changes. *)
Theorem flush_pending_params_run (t : texture) (w : world) (rounds : nat) :
  (List.length (_pending_params t) <= rounds)%nat ->
  Texture.flush_pending_params rounds (mk_state t w)
  = (Return tt,
     mk_state (with_pending_params [] t)
       (set_gl_log
          (gl_log w ++ parameter_calls (_target t) (reverse (_pending_params t))) w)).
Proof.
  intros Hr. apply flush_run_rev.
  - now rewrite reverse_involutive.
  - now rewrite length_reverse.
Qed.

Lemma raw_enable_run t w :
  _RawTexture._enable (mk_state t w)
  = (Return tt,
     mk_state t
       (mk_world (arrays w)
          (<[_target t := counter w (_target t) + 1]> (ENABLE_QUEUE w))
          (gl_log w
             ++ (if counter w (_target t) =? 0 then [gl.glEnable (_target t)] else [])
             ++ (if _unit t >=? 0
                 then [gl.glActiveTexture (gl.GL_TEXTURE0 + _unit t)] else [])
             ++ [gl.glBindTexture (_target t) (_handle t)])
          (stdout w))).
Proof.
  unfold _RawTexture._enable.
  rewrite (run_bind get_self _ _ _ _ eq_refl). cbv beta iota. cbn [self].
  unfold bind at 1. unfold in_world at 1, zoom. rewrite push_enable_run. cbn [globals self].
  unfold _RawTexture.gl_, in_world, zoom, gl_call, bind, modify, ret, set_gl_log.
  destruct (_unit t >=? 0); cbn; rewrite <- ?app_assoc; reflexivity.
Qed.

Lemma raw_disable_run t w :
  _RawTexture._disable (mk_state t w)
  = (Return tt,
     mk_state (if _unit t >=? 0 then with_unit (-1) t else t)
       (mk_world (arrays w)
          (<[_target t := Z.max 0 (counter w (_target t) - 1)]> (ENABLE_QUEUE w))
          (gl_log w
             ++ (if _unit t >=? 0
                 then [gl.glActiveTexture (gl.GL_TEXTURE0 + _unit t)] else [])
             ++ [gl.glBindTexture (_target t) 0; gl.glActiveTexture gl.GL_TEXTURE0]
             ++ (if counter w (_target t) =? 1 then [gl.glDisable (_target t)] else []))
          (stdout w))).
Proof.
  unfold _RawTexture._disable.
  rewrite (run_bind get_self _ _ _ _ eq_refl). cbv beta iota. cbn [self].
  destruct (_unit t >=? 0).
  - unfold bind, _RawTexture.gl_, in_world, zoom, gl_call, modify, ret, set_self,
      set_gl_log. cbn -[pop_enable]. rewrite pop_enable_run. cbn. unfold counter. cbn.
    rewrite <- !app_assoc. reflexivity.
  - unfold bind, _RawTexture.gl_, in_world, zoom, gl_call, modify, ret, set_self,
      set_gl_log. cbn -[pop_enable]. rewrite pop_enable_run. cbn. unfold counter. cbn.
    rewrite <- !app_assoc. reflexivity.
Qed.

(** X15.  Binding a texture and releasing it again is balanced on the
    shared counters: with no counter negative, every counter is afterwards
    what it was; [glEnable] and [glDisable] of the target are both issued
    when the target was at rest and neither otherwise; the texture unit is
    selected for the bind and for the release when one was set (a unit
    that is not negative), and is then forgotten (reset to -1); nothing
    else of the texture changes. *)
Theorem enable_disable_balanced (t : texture) (w : world) :
  0 <= counter w (_target t) ->
  let st' := final (_RawTexture._enable ;; _RawTexture._disable) (mk_state t w) in
  let unit_calls :=
    if _unit t >=? 0 then [gl.glActiveTexture (gl.GL_TEXTURE0 + _unit t)] else [] in
  let rest := counter w (_target t) =? 0 in
  result (_RawTexture._enable ;; _RawTexture._disable) (mk_state t w) = Return tt /\
  (forall e, counter (globals st') e = counter w e) /\
  self st' = (if _unit t >=? 0 then with_unit (-1) t else t) /\
  gl_log (globals st') =
    gl_log w
      ++ (if rest then [gl.glEnable (_target t)] else [])
      ++ unit_calls ++ [gl.glBindTexture (_target t) (_handle t)]
      ++ unit_calls ++ [gl.glBindTexture (_target t) 0; gl.glActiveTexture gl.GL_TEXTURE0]
      ++ (if rest then [gl.glDisable (_target t)] else []).
Proof.
  intros Hc. unfold result, final. unfold bind.
  rewrite raw_enable_run, raw_disable_run. cbn [fst snd self globals gl_log].
  rewrite counter_insert.
  split; [reflexivity|]. split; [|split].
  - intros e. destruct (decide (_target t = e)) as [<-|Hne].
    + rewrite counter_insert. lia.
    + unfold counter. cbn [ENABLE_QUEUE].
      rewrite !lookup_insert_ne by exact Hne. reflexivity.
  - reflexivity.
  - replace (counter w (_target t) + 1 =? 1) with (counter w (_target t) =? 0) by lia.
    rewrite <- !app_assoc. reflexivity.
Qed.

Lemma flush_pending_params_run_witness :
  (List.length (_pending_params storage44) <= 5)%nat /\
  gl_log (globals (final (Texture.flush_pending_params 5)
                     (mk_state storage44 world0)))
  = [gl.glTexParameter gl.GL_TEXTURE_2D gl.GL_TEXTURE_MAG_FILTER gl.GL_LINEAR;
     gl.glTexParameter gl.GL_TEXTURE_2D gl.GL_TEXTURE_MIN_FILTER gl.GL_LINEAR].
Proof.
  assert (H : (List.length (_pending_params storage44) <= 5)%nat) by (cbn; lia).
  split; [exact H|].
  unfold final.
  rewrite (flush_pending_params_run storage44 world0 5 H).
  reflexivity.
Defined.

Lemma enable_disable_balanced_witness :
  0 <= counter world0 (_target resident44) /\
  gl_log (globals (final (_RawTexture._enable ;;
                          _RawTexture._disable)
                     (mk_state resident44 world0)))
  = [gl.glEnable gl.GL_TEXTURE_2D; gl.glBindTexture gl.GL_TEXTURE_2D 1;
     gl.glBindTexture gl.GL_TEXTURE_2D 0; gl.glActiveTexture gl.GL_TEXTURE0;
     gl.glDisable gl.GL_TEXTURE_2D].
Proof.
  assert (H : 0 <= counter world0 (_target resident44)) by (vm_compute; discriminate).
  split; [exact H|].
  exact (proj2 (proj2 (proj2
    (enable_disable_balanced resident44 world0 H)))).
Defined.

(** ** Scopes and capabilities *)

Section Scope.
Context {K : Kernels} {D : gl.Driver}.
Variable ext_available : string -> bool.

(** X16.  A [with] block on a texture whose activation has nothing to do
    (an errored texture, or one without OpenGL object and without pending
    description) still runs the release on leaving: the body runs on the
    state as it was, then the texture is unbound and [pop_enable] is
    called although [push_enable] was not.  With an empty body the counter
    of the target goes down by one (not below zero), and [glDisable] is
    issued when it stood at one. *)
Theorem with_unready_texture (t : texture) (w : world) (body : M state unit) :
  _handle t < 0 \/
  (_handle t = 0 /\ _pending_data t = None /\
   (_target t = gl.GL_TEXTURE_3D -> ext_available "GL_texture_3D" = true)) ->
  ContextManager.with_ ext_available body (mk_state t w)
  = (match result body (mk_state t w) with
     | Return _ => Return tt
     | Raise e => Raise e
     end,
     final _RawTexture._disable (final body (mk_state t w))) /\
  let st' := final (ContextManager.with_ ext_available (ret tt)) (mk_state t w) in
  counter (globals st') (_target t) = Z.max 0 (counter w (_target t) - 1) /\
  gl_log (globals st') =
    gl_log w
      ++ (if _unit t >=? 0 then [gl.glActiveTexture (gl.GL_TEXTURE0 + _unit t)] else [])
      ++ [gl.glBindTexture (_target t) 0; gl.glActiveTexture gl.GL_TEXTURE0]
      ++ (if counter w (_target t) =? 1 then [gl.glDisable (_target t)] else []).
Proof.
  intros Hun.
  assert (Henter : Texture._enable ext_available (mk_state t w)
                   = (Return tt, mk_state t w)).
  { unfold Texture._enable.
    rewrite (run_bind get_self _ _ _ _ eq_refl). cbv beta iota. cbn [self].
    destruct Hun as [Hneg|(H0 & Hp & H3)].
    - replace (_handle t <? 0) with true by lia. reflexivity.
    - replace (_handle t <? 0) with false by lia.
      replace ((_target t =? gl.GL_TEXTURE_3D) && negb (ext_available "GL_texture_3D"))
        with false.
      2: { destruct (_target t =? gl.GL_TEXTURE_3D) eqn:E3; [|reflexivity].
           apply Z.eqb_eq in E3. now rewrite (H3 E3). }
      rewrite Hp.
      rewrite (run_bind (ret false) _ _ _ _ eq_refl). cbv beta iota.
      rewrite (run_bind get_self _ _ _ _ eq_refl). cbv beta iota. cbn [self].
      rewrite H0. reflexivity. }
  assert (Hwith : forall body,
    ContextManager.with_ ext_available body (mk_state t w)
    = (match result body (mk_state t w) with
       | Return _ => Return tt
       | Raise e => Raise e
       end,
       final _RawTexture._disable (final body (mk_state t w)))).
  { intros b. unfold ContextManager.with_, ContextManager.__enter__,
      ContextManager.__exit__.
    rewrite (run_bind _ _ _ _ _ Henter). unfold result, final.
    destruct (b (mk_state t w)) as [[[]|e] [t' w']]; cbn [fst snd];
      rewrite raw_disable_run; reflexivity. }
  split; [apply Hwith|].
  cbv zeta. unfold final at 1 2. rewrite Hwith. cbn [snd].
  unfold final. cbn [ret snd]. rewrite raw_disable_run. cbn [globals gl_log snd].
  rewrite counter_insert. split; reflexivity.
Qed.

End Scope.

(** X17.  The counters of different capabilities do not interfere: a run
    of [push_enable] and [pop_enable] calls on capabilities other than [e]
    leaves the counter of [e] as it was and issues neither [glEnable] nor
    [glDisable] of [e]. *)
Theorem counters_independent (ops : list enable_op) (e : Z) (w : world) :
  Forall (fun o => op_enum o <> e) ops ->
  counter (final (run_ops ops) w) e = counter w e /\
  exists calls,
    gl_log (final (run_ops ops) w) = gl_log w ++ calls /\
    (gl.glEnable e ∉ calls) /\ (gl.glDisable e ∉ calls).
Proof.
  intros Hops. revert w. induction Hops as [|o ops Ho _ IH]; intros w.
  - split; [reflexivity|]. exists []. cbn. rewrite app_nil_r.
    split; [reflexivity|]. split; apply not_elem_of_nil.
  - unfold run_ops, final in *. cbn [for_each]. unfold bind.
    destruct o as [x|x]; cbn [run_op op_enum] in *.
    + rewrite push_enable_run.
      match goal with
      | |- context [for_each ops run_op ?w1] => destruct (IH w1) as (Ec & calls & El & Hn1 & Hn2)
      end.
      split.
      * rewrite Ec. now apply counter_insert_ne.
      * eexists. split; [rewrite El; cbn [gl_log]; rewrite <- app_assoc; reflexivity|].
        destruct (counter w x =? 0); cbn [app].
        -- split; intros Hin; apply elem_of_cons in Hin as [Hin|Hin];
             first [congruence | contradiction].
        -- split; assumption.
    + rewrite pop_enable_run.
      match goal with
      | |- context [for_each ops run_op ?w1] => destruct (IH w1) as (Ec & calls & El & Hn1 & Hn2)
      end.
      split.
      * rewrite Ec. now apply counter_insert_ne.
      * eexists. split; [rewrite El; cbn [gl_log]; rewrite <- app_assoc; reflexivity|].
        destruct (counter w x =? 1); cbn [app].
        -- split; intros Hin; apply elem_of_cons in Hin as [Hin|Hin];
             first [congruence | contradiction].
        -- split; assumption.
Qed.

Lemma with_unready_texture_witness :
  (_handle errored_texture < 0 \/
   (_handle errored_texture = 0 /\ _pending_data errored_texture = None /\
    (_target errored_texture = gl.GL_TEXTURE_3D ->
     ext_available_now "GL_texture_3D" = true))) /\
  gl_log (globals (final (ContextManager.with_ (K := ieee.kernels)
                            (D := driver.counting) ext_available_now (ret tt))
                     (mk_state errored_texture
                        (set_ENABLE_QUEUE {[gl.GL_TEXTURE_2D := 1]} world0))))
  = [gl.glBindTexture gl.GL_TEXTURE_2D 0; gl.glActiveTexture gl.GL_TEXTURE0;
     gl.glDisable gl.GL_TEXTURE_2D].
Proof.
  assert (H : _handle errored_texture < 0 \/
   (_handle errored_texture = 0 /\ _pending_data errored_texture = None /\
    (_target errored_texture = gl.GL_TEXTURE_3D ->
     ext_available_now "GL_texture_3D" = true))) by (left; reflexivity).
  split; [exact H|].
  exact (proj2 (proj2 (with_unready_texture (K := ieee.kernels) (D := driver.counting)
                  ext_available_now errored_texture
                  (set_ENABLE_QUEUE {[gl.GL_TEXTURE_2D := 1]} world0) (ret tt) H))).
Defined.

Lemma counters_independent_witness :
  Forall (fun o => op_enum o <> gl.GL_TEXTURE_3D)
    [Push gl.GL_TEXTURE_2D; Pop gl.GL_TEXTURE_2D; Pop gl.GL_TEXTURE_2D] /\
  counter (final (run_ops [Push gl.GL_TEXTURE_2D; Pop gl.GL_TEXTURE_2D;
                           Pop gl.GL_TEXTURE_2D])
             (set_ENABLE_QUEUE {[gl.GL_TEXTURE_3D := 2]} world0)) gl.GL_TEXTURE_3D
  = 2.
Proof.
  assert (H : Forall (fun o => op_enum o <> gl.GL_TEXTURE_3D)
    [Push gl.GL_TEXTURE_2D; Pop gl.GL_TEXTURE_2D; Pop gl.GL_TEXTURE_2D]).
  { repeat constructor; discriminate. }
  split; [exact H|].
  rewrite (proj1 (counters_independent _ gl.GL_TEXTURE_3D
                    (set_ENABLE_QUEUE {[gl.GL_TEXTURE_3D := 2]} world0) H)).
  reflexivity.
Defined.

(** ** Upload and allocation *)

Lemma target_cases (target : Z) :
  target ∈ [gl.GL_TEXTURE_2D; gl.GL_TEXTURE_3D] ->
  target = gl.GL_TEXTURE_2D \/ target = gl.GL_TEXTURE_3D.
Proof.
  intros Htg.
  apply elem_of_cons in Htg as [Htg|Htg]; [now left|].
  apply elem_of_cons in Htg as [Htg|Htg]; [now right|].
  now apply not_elem_of_nil in Htg.
Qed.

Lemma D_image_run {S} (target : Z) (s : S) :
  target ∈ [gl.GL_TEXTURE_2D; gl.GL_TEXTURE_3D] ->
  _RawTexture.D_image target s
  = (Return (glTexImage target, Texture.MAP_get target), s).
Proof. intros H. destruct (target_cases _ H) as [-> | ->]; reflexivity. Qed.

Lemma get_alignment_run (width : Z) :
  _RawTexture._get_alignment width = Some (alignment_of width).
Proof.
  unfold _RawTexture._get_alignment, alignment_of. cbn.
  destruct (width `mod` 4 =? 0) eqn:E4; [reflexivity|].
  apply Z.eqb_neq in E4.
  destruct (width `mod` 8 =? 0) eqn:E8.
  { apply Z.eqb_eq in E8. exfalso. apply E4.
    apply Z.mod_divide in E8; [|lia]. destruct E8 as [q ->].
    apply Z.mod_divide; [lia|]. exists (2 * q). lia. }
  destruct (width `mod` 2 =? 0); [reflexivity|].
  now rewrite Z.mod_1_r.
Qed.

Lemma gl_run c t w :
  _RawTexture.gl_ c (mk_state t w)
  = (Return tt, mk_state t (set_gl_log (gl_log w ++ [c]) w)).
Proof. reflexivity. Qed.

Lemma allocate_run t w shape fmt level :
  _target t ∈ [gl.GL_TEXTURE_2D; gl.GL_TEXTURE_3D] ->
  _RawTexture._allocate (Some shape) fmt level (mk_state t w)
  = (Return tt,
     mk_state t
       (set_gl_log
          (gl_log w ++
             [glTexImage (_target t)
                (image_args (_target t) level fmt
                   (reverse (take (Texture.MAP_get (_target t)) shape))
                   gl.GL_UNSIGNED_BYTE gl.Anone)]) w)).
Proof.
  intros Htg. unfold _RawTexture._allocate.
  rewrite (run_bind get_self _ _ _ _ eq_refl). cbv beta iota. cbn [self].
  rewrite (run_bind _ _ _ _ _ (D_image_run (_target t) _ Htg)). cbv beta iota zeta.
  rewrite (run_bind (ret shape) _ _ _ _ eq_refl). cbv beta iota.
  apply gl_run.
Qed.

Lemma upload_run t w d fmt level :
  _target t ∈ [gl.GL_TEXTURE_2D; gl.GL_TEXTURE_3D] ->
  _RawTexture._upload d fmt level (mk_state t w)
  = match DTYPES !! np.name (dtype d), last (shape d) with
    | None, _ => (Raise ValueError, mk_state t w)
    | Some _, None => (Raise IndexError, mk_state t w)
    | Some gltype, Some width =>
        (Return tt,
         mk_state t
           (set_gl_log
              (gl_log w ++
                 with_alignment (alignment_of width)
                   [glTexImage (_target t)
                      (image_args (_target t) level fmt
                         (reverse (take (Texture.MAP_get (_target t)) (shape d)))
                         gltype (gl.Adata d))]) w))
    end.
Proof.
  intros Htg. unfold _RawTexture._upload.
  rewrite (run_bind get_self _ _ _ _ eq_refl). cbv beta iota. cbn [self].
  rewrite (run_bind _ _ _ _ _ (D_image_run (_target t) _ Htg)). cbv beta iota zeta.
  unfold _RawTexture._get_size_and_type.
  destruct (DTYPES !! np.name (dtype d)) as [g|] eqn:Eg; [|reflexivity].
  rewrite (run_bind (ret _) _ _ _ _ eq_refl). cbv beta iota.
  destruct (last (shape d)) as [width|] eqn:El; [|reflexivity].
  rewrite (run_bind (ret width) _ _ _ _ eq_refl). cbv beta iota.
  rewrite get_alignment_run. unfold with_alignment.
  destruct (alignment_of width =? 4) eqn:E4.
  - apply Z.eqb_eq in E4. rewrite E4.
    rewrite bool_decide_eq_false_2 by (intros H; now apply H).
    rewrite (run_bind (ret tt) _ _ _ _ eq_refl). cbv beta iota.
    rewrite (run_bind (_RawTexture.gl_ _) _ _ _ _ (gl_run _ _ _)). reflexivity.
  - apply Z.eqb_neq in E4.
    rewrite bool_decide_eq_true_2 by (intros [= H]; lia).
    rewrite (run_bind (_RawTexture.gl_ _) _ _ _ _ (gl_run _ _ _)). cbv beta iota.
    rewrite (run_bind (_RawTexture.gl_ _) _ _ _ _ (gl_run _ _ _)). cbv beta iota.
    rewrite gl_run. unfold set_gl_log, image_args.
    cbn [gl_log arrays ENABLE_QUEUE stdout]. rewrite <- !app_assoc. reflexivity.
Qed.

Lemma unpack_alignment_app log calls :
  unpack_alignment (log ++ calls)
  = fold_left
      (fun a c =>
         match c with
         | gl.glPixelStorei pname (Some v) =>
             if pname =? gl.GL_UNPACK_ALIGNMENT then v else a
         | _ => a
         end)
      calls (unpack_alignment log).
Proof. unfold unpack_alignment. now rewrite fold_left_app. Qed.

(** X18.  [_upload] is all or nothing towards OpenGL.  For an element
    kind [DTYPES] does not know it raises [ValueError], for an array
    without dimensions [IndexError], and nothing is issued.  Otherwise it
    issues the image call of the target with the leading dimensions
    reversed (width first), the element type of [DTYPES] and the array as
    pixels; when the alignment of the rows is not 4, the call is bracketed
    by [glPixelStorei] setting that alignment before and 4 after.  So an
    unpack alignment of 4 is an invariant of [_upload], whatever the
    outcome. *)
Theorem upload_restores_alignment (t : texture) (w : world) (data : ndarray)
    (format level : Z) :
  _target t ∈ [gl.GL_TEXTURE_2D; gl.GL_TEXTURE_3D] ->
  _RawTexture._upload data format level (mk_state t w)
  = match DTYPES !! np.name (dtype data), last (shape data) with
    | None, _ => (Raise ValueError, mk_state t w)
    | Some _, None => (Raise IndexError, mk_state t w)
    | Some gltype, Some width =>
        (Return tt,
         mk_state t
           (set_gl_log
              (gl_log w ++
                 with_alignment (alignment_of width)
                   [glTexImage (_target t)
                      (image_args (_target t) level format
                         (reverse (take (Texture.MAP_get (_target t)) (shape data)))
                         gltype (gl.Adata data))]) w))
    end /\
  (unpack_alignment (gl_log w) = 4 ->
   unpack_alignment
     (gl_log (globals (final (_RawTexture._upload data format level) (mk_state t w))))
   = 4).
Proof.
  intros Htg. split; [apply upload_run, Htg|].
  intros H4. unfold final. rewrite (upload_run _ _ _ _ _ Htg).
  destruct (DTYPES !! np.name (dtype data)) as [g|]; [|exact H4].
  destruct (last (shape data)) as [width|]; [|exact H4].
  cbn [snd globals gl_log set_gl_log]. rewrite unpack_alignment_app, H4.
  unfold with_alignment, glTexImage.
  destruct (alignment_of width =? 4), (_target t =? gl.GL_TEXTURE_2D); reflexivity.
Qed.

Lemma upload_restores_alignment_witness :
  _target resident22 ∈ [gl.GL_TEXTURE_2D; gl.GL_TEXTURE_3D] /\
  gl_log (globals (final (_RawTexture._upload (mk_ndarray 0 np.uint8 [2; 3])
                            gl.GL_LUMINANCE 0)
                     (mk_state resident22 world0)))
  = [gl.glPixelStorei gl.GL_UNPACK_ALIGNMENT (Some 1);
     gl.glTexImage2D
       [gl.Aint gl.GL_TEXTURE_2D; gl.Aint 0; gl.Aint gl.GL_LUMINANCE;
        gl.Aint 3; gl.Aint 2;
        gl.Aint 0; gl.Aint gl.GL_LUMINANCE; gl.Aint gl.GL_UNSIGNED_BYTE;
        gl.Adata (mk_ndarray 0 np.uint8 [2; 3])];
     gl.glPixelStorei gl.GL_UNPACK_ALIGNMENT (Some 4)].
Proof.
  assert (H : _target resident22 ∈ [gl.GL_TEXTURE_2D; gl.GL_TEXTURE_3D]).
  { apply elem_of_cons. now left. }
  split; [exact H|].
  unfold final.
  rewrite (proj1 (upload_restores_alignment resident22 world0
                    (mk_ndarray 0 np.uint8 [2; 3]) gl.GL_LUMINANCE 0 H)).
  reflexivity.
Defined.

(** ** The first activation: full upload *)

Lemma delete_run t w :
  Texture.delete (mk_state t w)
  = (Return tt,
     mk_state (with_handle 0 t) (set_gl_log (gl_log w ++ release_calls t) w)).
Proof.
  unfold Texture.delete, GLObject.delete, _RawTexture._delete, _RawTexture.gl_,
    try_pass, bind, get_self, get, ret, set_self, modify, in_world, zoom, gl_call,
    release_calls.
  cbn. destruct (_handle t >? 0); cbn; [reflexivity|].
  now rewrite world_log_nil.
Qed.

Lemma replay_run target (l : list (Z * Z)) : forall t w,
  for_each l (fun pv => _RawTexture.gl_ (gl.glTexParameter target (fst pv) (snd pv)))
    (mk_state t w)
  = (Return tt, mk_state t (set_gl_log (gl_log w ++ parameter_calls target l) w)).
Proof.
  induction l as [|pv l IH]; intros t w.
  - cbn. now rewrite world_log_nil.
  - cbn [for_each]. rewrite (run_bind _ _ _ _ _ (gl_run _ _ _)). rewrite IH.
    unfold set_gl_log, parameter_calls.
    cbn [gl_log arrays ENABLE_QUEUE stdout fmap list_fmap].
    now rewrite <- app_assoc.
Qed.

Section Realloc.
Context {K : Kernels} {D : gl.Driver}.
Variable ext_available : string -> bool.

Lemma create_run t w :
  _RawTexture._create (mk_state t w)
  = (Return tt,
     mk_state (with_handle (gl.gen_textures (gl_log w)) t)
       (set_gl_log (gl_log w ++ [gl.glGenTextures 1]) w)).
Proof. reflexivity. Qed.

Lemma is_texture_run h t w :
  in_world (glIsTexture h) (mk_state t w)
  = (Return (gl.is_texture (gl_log w) h),
     mk_state t (set_gl_log (gl_log w ++ [gl.glIsTexture h]) w)).
Proof. reflexivity. Qed.

(** The (re)upload branch of [_process_pending_data], for an image step
    that issues the calls [img]. *)
Lemma process_realloc_run t w data conv h' offset level format clim fmt img :
  Texture.truthy offset = false ->
  match data with
  | Some a => exists d, conv = Some d /\
                convert_data ext_available a clim (arrays w) = (Return d, h')
  | None => conv = None /\ h' = arrays w
  end ->
  result (match format with
          | None => get_format (match conv with
                                | Some d => Some (shape d)
                                | None => _texture_shape t
                                end) (_target t)
          | Some f => ret f
          end) tt = Return fmt ->
  (forall t' w', _target t' = _target t ->
     match conv with
     | None => _RawTexture._allocate (_texture_shape t) fmt level
     | Some d => _RawTexture._upload d fmt level
     end (mk_state t' w')
     = (Return tt, mk_state t' (set_gl_log (gl_log w' ++ img) w'))) ->
  let newh := gl.gen_textures (gl_log w ++ release_calls t) in
  Texture._process_pending_data ext_available data offset level format clim
    (mk_state t w)
  = (Return tt,
     mk_state (with_pending_params [] (with_handle newh t))
       (mk_world h' (ENABLE_QUEUE w)
          (gl_log w ++ release_calls t
             ++ [gl.glGenTextures 1; gl.glBindTexture (_target t) newh]
             ++ img ++ parameter_calls (_target t) (_texture_params t))
          (stdout w))).
Proof.
  intros Hoff Hconv Hfmt Himg newh.
  unfold Texture._process_pending_data.
  assert (E1 : match data with
               | Some d =>
                   bind (in_world (in_arrays (convert_data ext_available d clim)))
                     (fun d' => ret (Some d'))
               | None => ret None
               end (mk_state t w)
               = (Return conv, mk_state t (set_arrays h' w))).
  { destruct data as [a|].
    - destruct Hconv as (d & -> & Hc).
      unfold bind, in_world, in_arrays, zoom. cbn. now rewrite Hc.
    - destruct Hconv as [-> ->]. destruct w. reflexivity. }
  rewrite (run_bind _ _ _ _ _ E1). cbv beta iota.
  rewrite (run_bind get_self _ _ _ _ eq_refl). cbv beta iota. cbn [self].
  assert (E3 : match format with
               | None => get_format (match conv with
                                     | Some d => Some (shape d)
                                     | None => _texture_shape t
                                     end) (_target t)
               | Some f => ret f
               end (mk_state t (set_arrays h' w))
               = (Return fmt, mk_state t (set_arrays h' w))).
  { destruct format as [f|].
    - cbn in Hfmt. now injection Hfmt as ->.
    - rewrite get_format_run. now rewrite Hfmt. }
  rewrite (run_bind _ _ _ _ _ E3). cbv beta iota.
  rewrite Hoff.
  rewrite (run_bind _ _ _ _ _ (delete_run _ _)). cbv beta iota.
  rewrite (run_bind _ _ _ _ _ (create_run _ _)). cbv beta iota.
  rewrite (run_bind get_self _ _ _ _ eq_refl). cbv beta iota. cbn [self].
  rewrite (run_bind _ _ _ _ _ (gl_run _ _ _)). cbv beta iota.
  assert (E6 : forall t' w', _target t' = _target t ->
    match conv with
    | Some d => _RawTexture._upload d fmt level
    | None =>
        _RawTexture._allocate
          match conv with
          | Some d => Some (shape d)
          | None => _texture_shape t
          end fmt level
    end (mk_state t' w')
    = (Return tt, mk_state t' (set_gl_log (gl_log w' ++ img) w'))).
  { intros t' w' Et. specialize (Himg t' w' Et). destruct conv; exact Himg. }
  match goal with
  | |- bind _ _ (mk_state ?t' ?w') = _ =>
      rewrite (run_bind _ _ _ _ _ (E6 t' w' eq_refl))
  end.
  cbv beta iota.
  rewrite (run_bind _ _ _ _ _ (replay_run _ _ _ _)). cbv beta iota.
  unfold set_self, modify, set_gl_log, set_arrays, with_pending_params, with_handle.
  cbn [self globals gl_log arrays ENABLE_QUEUE stdout _target _handle _unit
       _pending_data _texture_shape _texture_params _pending_params].
  subst newh. rewrite <- !app_assoc. reflexivity.
Qed.

(** The activation of a texture whose pending description asks for a full
    upload, by the answers of the driver about the new name. *)
Lemma enable_realloc_run t w data conv h' offset level format clim fmt img :
  (_target t = gl.GL_TEXTURE_3D -> ext_available "GL_texture_3D" = true) ->
  0 <= _handle t ->
  _pending_data t = Some (mk_pending data offset level format clim) ->
  Texture.truthy offset = false ->
  match data with
  | Some a => exists d, conv = Some d /\
                convert_data ext_available a clim (arrays w) = (Return d, h')
  | None => conv = None /\ h' = arrays w
  end ->
  result (match format with
          | None => get_format (match conv with
                                | Some d => Some (shape d)
                                | None => _texture_shape t
                                end) (_target t)
          | Some f => ret f
          end) tt = Return fmt ->
  (forall t' w', _target t' = _target t ->
     match conv with
     | None => _RawTexture._allocate (_texture_shape t) fmt level
     | Some d => _RawTexture._upload d fmt level
     end (mk_state t' w')
     = (Return tt, mk_state t' (set_gl_log (gl_log w' ++ img) w'))) ->
  let newh := gl.gen_textures (gl_log w ++ release_calls t) in
  let uploaded :=
    gl_log w ++ release_calls t
      ++ [gl.glGenTextures 1; gl.glBindTexture (_target t) newh]
      ++ img ++ parameter_calls (_target t) (_texture_params t) in
  let t1 := with_pending_params [] (with_handle newh (with_pending_data None t)) in
  (gl.is_texture uploaded newh = true -> newh <> 0 ->
   gl.is_texture (uploaded ++ [gl.glIsTexture newh]) newh = true ->
   Texture._enable ext_available (mk_state t w)
   = (Return tt,
      mk_state t1
        (mk_world h'
           (<[_target t := counter w (_target t) + 1]> (ENABLE_QUEUE w))
           (uploaded ++ [gl.glIsTexture newh; gl.glIsTexture newh]
              ++ (if counter w (_target t) =? 0 then [gl.glEnable (_target t)] else [])
              ++ (if _unit t >=? 0
                  then [gl.glActiveTexture (gl.GL_TEXTURE0 + _unit t)] else [])
              ++ [gl.glBindTexture (_target t) newh])
           (stdout w)))) /\
  (gl.is_texture uploaded newh = false ->
   Texture._enable ext_available (mk_state t w)
   = (Return tt,
      mk_state (with_handle (-1) t1)
        (mk_world h' (ENABLE_QUEUE w) (uploaded ++ [gl.glIsTexture newh])
           (stdout w ++ [warning])))).
Proof.
  intros H3D Hh Hpd Hoff Hconv Hfmt Himg newh uploaded t1.
  pose proof (process_realloc_run (with_pending_data None t) w data conv h' offset
                level format clim fmt img Hoff Hconv Hfmt Himg) as Hrun.
  cbv zeta in Hrun.
  change (_target (with_pending_data None t)) with (_target t) in Hrun.
  change (_texture_params (with_pending_data None t)) with (_texture_params t) in Hrun.
  change (release_calls (with_pending_data None t)) with (release_calls t) in Hrun.
  fold newh in Hrun. fold uploaded in Hrun. fold t1 in Hrun.
  unfold Texture._enable.
  rewrite (run_bind get_self _ _ _ _ eq_refl). cbv beta iota. cbn [self].
  replace (_handle t <? 0) with false by lia.
  replace ((_target t =? gl.GL_TEXTURE_3D) && negb (ext_available "GL_texture_3D"))
    with false.
  2: { destruct (_target t =? gl.GL_TEXTURE_3D) eqn:E3; [|reflexivity].
       apply Z.eqb_eq in E3. now rewrite (H3D E3). }
  rewrite Hpd. cbn [pd_data pd_offset pd_level pd_format pd_clim].
  split.
  - intros Hok Hnz Hok2.
    assert (E : bind (set_self (with_pending_data None))
                  (fun _ =>
                     bind (Texture._process_pending_data ext_available data offset
                             level format clim)
                       (fun _ =>
                          bind get_self (fun t =>
                            bind (in_world (glIsTexture (_handle t))) (fun ok =>
                              if ok : bool then ret false
                              else
                                bind (set_self (with_handle (-1))) (fun _ =>
                                  bind (in_world (print
                                     "Warning enabling texture, the texture is not valid."))
                                    (fun _ => ret true))))))
                  (mk_state t w)
                = (Return false,
                   mk_state t1
                     (mk_world h' (ENABLE_QUEUE w) (uploaded ++ [gl.glIsTexture newh])
                        (stdout w)))).
    { rewrite (run_bind (set_self _) _ _ _ _ eq_refl). cbv beta iota.
      cbn [self globals].
      rewrite (run_bind _ _ _ _ _ Hrun). cbv beta iota.
      rewrite (run_bind get_self _ _ _ _ eq_refl). cbv beta iota. cbn [self].
      change (_handle t1) with newh.
      rewrite (run_bind _ _ _ _ _ (is_texture_run _ _ _)). cbv beta iota.
      cbn [gl_log]. rewrite Hok. reflexivity. }
    rewrite (run_bind _ _ _ _ _ E). cbv beta iota.
    rewrite (run_bind get_self _ _ _ _ eq_refl). cbv beta iota. cbn [self].
    change (_handle t1) with newh.
    replace (newh =? 0) with false by lia.
    rewrite (run_bind _ _ _ _ _ (is_texture_run _ _ _)). cbv beta iota.
    cbn [gl_log]. rewrite Hok2. cbn [negb].
    rewrite (run_bind _ _ _ _ _ (raw_enable_run _ _)). cbv beta iota.
    rewrite (run_bind get_self _ _ _ _ eq_refl). cbv beta iota. cbn [self].
    change (_pending_params t1) with (@nil (Z * Z)).
    cbn [List.length Texture.flush_pending_params].
    unfold ret, set_gl_log, counter.
    cbn [self globals gl_log arrays ENABLE_QUEUE stdout].
    change (_target t1) with (_target t). change (_unit t1) with (_unit t).
    change (_handle t1) with newh.
    rewrite <- !app_assoc. reflexivity.
  - intros Hbad.
    assert (E : bind (set_self (with_pending_data None))
                  (fun _ =>
                     bind (Texture._process_pending_data ext_available data offset
                             level format clim)
                       (fun _ =>
                          bind get_self (fun t =>
                            bind (in_world (glIsTexture (_handle t))) (fun ok =>
                              if ok : bool then ret false
                              else
                                bind (set_self (with_handle (-1))) (fun _ =>
                                  bind (in_world (print
                                     "Warning enabling texture, the texture is not valid."))
                                    (fun _ => ret true))))))
                  (mk_state t w)
                = (Return true,
                   mk_state (with_handle (-1) t1)
                     (mk_world h' (ENABLE_QUEUE w) (uploaded ++ [gl.glIsTexture newh])
                        (stdout w ++ [warning])))).
    { rewrite (run_bind (set_self _) _ _ _ _ eq_refl). cbv beta iota.
      cbn [self globals].
      rewrite (run_bind _ _ _ _ _ Hrun). cbv beta iota.
      rewrite (run_bind get_self _ _ _ _ eq_refl). cbv beta iota. cbn [self].
      change (_handle t1) with newh.
      rewrite (run_bind _ _ _ _ _ (is_texture_run _ _ _)). cbv beta iota.
      cbn [gl_log]. rewrite Hbad. reflexivity. }
    rewrite (run_bind _ _ _ _ _ E). reflexivity.
Qed.

End Realloc.
Section FirstActivation.
Context {K : Kernels} {D : gl.Driver}.
Variable ext_available : string -> bool.

(** X19.  Activation of a texture that carries a storage description (as
    [set_storage] records it) and is not errored.  The old texture, if
    there is one, is released first; then a name is generated and bound,
    storage is allocated with the leading dimensions of the recorded shape
    reversed (width first), element type [GL_UNSIGNED_BYTE] and no pixels,
    and every parameter ever set is replayed in the order it was first
    set; the pending parameters are dropped, so none is sent twice.  When
    the driver then knows the new name as a texture (asked twice), the
    capability of the target is pushed and the texture bound under its
    new handle.  When it does not, the texture becomes errored (handle
    -1), one warning is printed, and nothing is pushed or bound. *)
Theorem enable_allocates (t : texture) (w : world) (shape : list Z) (level : Z)
    (format : option Z) (fmt : Z) :
  _target t ∈ [gl.GL_TEXTURE_2D; gl.GL_TEXTURE_3D] ->
  (_target t = gl.GL_TEXTURE_3D -> ext_available "GL_texture_3D" = true) ->
  0 <= _handle t ->
  _pending_data t = Some (mk_pending None None level format None) ->
  _texture_shape t = Some shape ->
  result (match format with
          | None => get_format (Some shape) (_target t)
          | Some f => ret f
          end) tt = Return fmt ->
  let newh := gl.gen_textures (gl_log w ++ release_calls t) in
  let uploaded :=
    gl_log w ++ release_calls t
      ++ [gl.glGenTextures 1; gl.glBindTexture (_target t) newh;
          glTexImage (_target t)
            (image_args (_target t) level fmt
               (reverse (take (Texture.MAP_get (_target t)) shape))
               gl.GL_UNSIGNED_BYTE gl.Anone)]
      ++ parameter_calls (_target t) (_texture_params t) in
  let t1 := with_pending_params [] (with_handle newh (with_pending_data None t)) in
  (gl.is_texture uploaded newh = true -> newh <> 0 ->
   gl.is_texture (uploaded ++ [gl.glIsTexture newh]) newh = true ->
   Texture._enable ext_available (mk_state t w)
   = (Return tt,
      mk_state t1
        (mk_world (arrays w)
           (<[_target t := counter w (_target t) + 1]> (ENABLE_QUEUE w))
           (uploaded ++ [gl.glIsTexture newh; gl.glIsTexture newh]
              ++ (if counter w (_target t) =? 0 then [gl.glEnable (_target t)] else [])
              ++ (if _unit t >=? 0
                  then [gl.glActiveTexture (gl.GL_TEXTURE0 + _unit t)] else [])
              ++ [gl.glBindTexture (_target t) newh])
           (stdout w)))) /\
  (gl.is_texture uploaded newh = false ->
   Texture._enable ext_available (mk_state t w)
   = (Return tt,
      mk_state (with_handle (-1) t1)
        (mk_world (arrays w) (ENABLE_QUEUE w) (uploaded ++ [gl.glIsTexture newh])
           (stdout w ++ [warning])))).
Proof.
  intros Htg H3D Hh Hpd Hs Hfmt.
  exact (enable_realloc_run ext_available t w None None (arrays w) None level format
           None fmt
           [glTexImage (_target t)
              (image_args (_target t) level fmt
                 (reverse (take (Texture.MAP_get (_target t)) shape))
                 gl.GL_UNSIGNED_BYTE gl.Anone)]
           H3D Hh Hpd eq_refl (conj eq_refl eq_refl)
           ltac:(rewrite Hs; exact Hfmt)
           ltac:(intros t' w' Et; rewrite Hs, <- Et; apply allocate_run;
                 rewrite Et; exact Htg)).
Qed.

(** X20.  Activation of a texture that carries an array without offset
    (as [set_data] records it on a texture of another shape, or on one
    without OpenGL object) and is not errored, when the array converts.
    The converted array has an element type [DTYPES] knows; the old
    texture, if any, is released, a name is generated and bound, the
    converted array is uploaded whole, under the unpack alignment of its
    rows, and every parameter ever set is replayed; the pending parameters
    are dropped.  The outcome then depends on the driver as for a storage
    description: bound under the new handle, or errored with one
    warning. *)
Theorem enable_uploads (t : texture) (w : world) (a d' : ndarray) (h' : heap)
    (offset : option (list Z)) (level : Z) (format : option Z)
    (clim : option clim_t) (fmt width : Z) :
  _target t ∈ [gl.GL_TEXTURE_2D; gl.GL_TEXTURE_3D] ->
  (_target t = gl.GL_TEXTURE_3D -> ext_available "GL_texture_3D" = true) ->
  0 <= _handle t ->
  _pending_data t = Some (mk_pending (Some a) offset level format clim) ->
  Texture.truthy offset = false ->
  convert_data ext_available a clim (arrays w) = (Return d', h') ->
  last (shape a) = Some width ->
  result (match format with
          | None => get_format (Some (shape a)) (_target t)
          | Some f => ret f
          end) tt = Return fmt ->
  exists gltype,
    DTYPES !! np.name (dtype d') = Some gltype /\
    let newh := gl.gen_textures (gl_log w ++ release_calls t) in
    let uploaded :=
      gl_log w ++ release_calls t
        ++ [gl.glGenTextures 1; gl.glBindTexture (_target t) newh]
        ++ with_alignment (alignment_of width)
             [glTexImage (_target t)
                (image_args (_target t) level fmt
                   (reverse (take (Texture.MAP_get (_target t)) (shape a)))
                   gltype (gl.Adata d'))]
        ++ parameter_calls (_target t) (_texture_params t) in
    let t1 := with_pending_params [] (with_handle newh (with_pending_data None t)) in
    (gl.is_texture uploaded newh = true -> newh <> 0 ->
     gl.is_texture (uploaded ++ [gl.glIsTexture newh]) newh = true ->
     Texture._enable ext_available (mk_state t w)
     = (Return tt,
        mk_state t1
          (mk_world h'
             (<[_target t := counter w (_target t) + 1]> (ENABLE_QUEUE w))
             (uploaded ++ [gl.glIsTexture newh; gl.glIsTexture newh]
                ++ (if counter w (_target t) =? 0
                    then [gl.glEnable (_target t)] else [])
                ++ (if _unit t >=? 0
                    then [gl.glActiveTexture (gl.GL_TEXTURE0 + _unit t)] else [])
                ++ [gl.glBindTexture (_target t) newh])
             (stdout w)))) /\
    (gl.is_texture uploaded newh = false ->
     Texture._enable ext_available (mk_state t w)
     = (Return tt,
        mk_state (with_handle (-1) t1)
          (mk_world h' (ENABLE_QUEUE w) (uploaded ++ [gl.glIsTexture newh])
             (stdout w ++ [warning])))).
Proof.
  intros Htg H3D Hh Hpd Hoff Hconv Hw Hfmt.
  destruct (convert_data_spec (arrays w) ext_available a clim (arrays w)
              (extends_refl _)) as [_ (Hr & _)].
  unfold result in Hr. rewrite Hconv in Hr.
  destruct (Hr d' eq_refl) as [Hup Hshape].
  assert (Hk : gl_kind (dtype d')).
  { destruct Hup as [E|[[E _]|[E _]]]; unfold gl_kind; auto. }
  destruct (DTYPES_gl_kind _ Hk) as [gltype Hg]. exists gltype. split; [exact Hg|].
  rewrite <- Hshape in Hw, Hfmt |- *.
  apply (enable_realloc_run ext_available t w (Some a) (Some d') h' offset level
           format clim fmt _ H3D Hh Hpd Hoff).
  - exists d'. split; [reflexivity | exact Hconv].
  - exact Hfmt.
  - intros t' w' Et. rewrite upload_run by (rewrite Et; exact Htg).
    rewrite Hg, Hw, Et. reflexivity.
Qed.

End FirstActivation.

Lemma enable_allocates_witness :
  (_target storage44 ∈ [gl.GL_TEXTURE_2D; gl.GL_TEXTURE_3D]) /\
  0 <= _handle storage44 /\
  Texture._enable (K := ieee.kernels) (D := driver.counting) ext_available_now
    (mk_state storage44 world0)
  = (Return tt,
     mk_state resident44
       (mk_world [] {[gl.GL_TEXTURE_2D := 1]}
          [gl.glGenTextures 1; gl.glBindTexture gl.GL_TEXTURE_2D 1;
           gl.glTexImage2D
             [gl.Aint gl.GL_TEXTURE_2D; gl.Aint 0; gl.Aint gl.GL_LUMINANCE;
              gl.Aint 4; gl.Aint 4;
              gl.Aint 0; gl.Aint gl.GL_LUMINANCE; gl.Aint gl.GL_UNSIGNED_BYTE;
              gl.Anone];
           gl.glTexParameter gl.GL_TEXTURE_2D gl.GL_TEXTURE_MIN_FILTER gl.GL_LINEAR;
           gl.glTexParameter gl.GL_TEXTURE_2D gl.GL_TEXTURE_MAG_FILTER gl.GL_LINEAR;
           gl.glIsTexture 1; gl.glIsTexture 1;
           gl.glEnable gl.GL_TEXTURE_2D; gl.glBindTexture gl.GL_TEXTURE_2D 1]
          [])).
Proof.
  assert (Htg : _target storage44 ∈ [gl.GL_TEXTURE_2D; gl.GL_TEXTURE_3D]).
  { apply elem_of_cons. now left. }
  assert (Hh : 0 <= _handle storage44) by (cbn; lia).
  split; [exact Htg|]. split; [exact Hh|].
  refine (proj1 (enable_allocates (K := ieee.kernels) (D := driver.counting)
                   ext_available_now storage44 world0 [4; 4] 0 None gl.GL_LUMINANCE
                   Htg _ Hh eq_refl eq_refl eq_refl) _ _ _).
  - discriminate.
  - reflexivity.
  - discriminate.
  - reflexivity.
Defined.

Lemma enable_uploads_witness :
  (_target resident22 ∈ [gl.GL_TEXTURE_2D; gl.GL_TEXTURE_3D]) /\
  0 <= _handle resident22 /\
  last (shape image8) = Some 2 /\
  gl_log (globals (final (Texture._enable (K := ieee.kernels) (D := driver.counting)
                            ext_available_now)
                     (mk_state
                        (with_pending_data
                           (Some (mk_pending (Some image8) None 0 None None))
                           resident22)
                        world_ex)))
  = [gl.glDeleteTextures [1];
     gl.glGenTextures 1; gl.glBindTexture gl.GL_TEXTURE_2D 1;
     gl.glPixelStorei gl.GL_UNPACK_ALIGNMENT (Some 2);
     gl.glTexImage2D
       [gl.Aint gl.GL_TEXTURE_2D; gl.Aint 0; gl.Aint gl.GL_LUMINANCE;
        gl.Aint 2; gl.Aint 2;
        gl.Aint 0; gl.Aint gl.GL_LUMINANCE; gl.Aint gl.GL_UNSIGNED_BYTE;
        gl.Adata image8];
     gl.glPixelStorei gl.GL_UNPACK_ALIGNMENT (Some 4);
     gl.glTexParameter gl.GL_TEXTURE_2D gl.GL_TEXTURE_MIN_FILTER gl.GL_LINEAR;
     gl.glTexParameter gl.GL_TEXTURE_2D gl.GL_TEXTURE_MAG_FILTER gl.GL_LINEAR;
     gl.glIsTexture 1; gl.glIsTexture 1;
     gl.glEnable gl.GL_TEXTURE_2D; gl.glBindTexture gl.GL_TEXTURE_2D 1].
Proof.
  assert (Htg : _target resident22 ∈ [gl.GL_TEXTURE_2D; gl.GL_TEXTURE_3D]).
  { apply elem_of_cons. now left. }
  assert (Hh : 0 <= _handle resident22) by (cbn; lia).
  split; [exact Htg|]. split; [exact Hh|]. split; [reflexivity|].
  destruct (enable_uploads (K := ieee.kernels) (D := driver.counting)
              ext_available_now
              (with_pending_data
                 (Some (mk_pending (Some image8) None 0 None None)) resident22)
              world_ex image8 image8 heap_ex None 0 None None gl.GL_LUMINANCE 2
              Htg ltac:(discriminate) Hh eq_refl eq_refl eq_refl eq_refl eq_refl)
    as (g & Hg & Hok & _).
  assert (Eg : g = gl.GL_UNSIGNED_BYTE) by (vm_compute in Hg; injection Hg as Hg; symmetry; exact Hg).
  subst g. unfold final.
  rewrite Hok; [reflexivity | reflexivity | discriminate | reflexivity].
Defined.

(** ** Activation: the other paths *)

Section Paths.
Context {K : Kernels} {D : gl.Driver}.
Variable ext_available : string -> bool.

(** X21.  A sub-image update needs an OpenGL object.  When the pending
    description carries an offset (a non-empty one) and the texture has no
    object (handle 0) or the driver does not know its handle as a texture,
    activation raises [ValueError] after binding the handle (and, for a
    positive handle, asking the driver once).  The pending description has
    been taken out of the texture before, so it is lost: the array is not
    uploaded by this activation nor kept for the next. *)
Theorem update_without_texture (t : texture) (w : world) (a d' : ndarray)
    (h' : heap) (z : Z) (zs : list Z) (level : Z) (format : option Z)
    (clim : option clim_t) (fmt : Z) :
  (_target t = gl.GL_TEXTURE_3D -> ext_available "GL_texture_3D" = true) ->
  0 <= _handle t ->
  _pending_data t = Some (mk_pending (Some a) (Some (z :: zs)) level format clim) ->
  convert_data ext_available a clim (arrays w) = (Return d', h') ->
  result (match format with
          | None => get_format (Some (shape a)) (_target t)
          | Some f => ret f
          end) tt = Return fmt ->
  _handle t = 0 \/
  gl.is_texture (gl_log w ++ [gl.glBindTexture (_target t) (_handle t)]) (_handle t)
    = false ->
  Texture._enable ext_available (mk_state t w)
  = (Raise ValueError,
     mk_state (with_pending_data None t)
       (mk_world h' (ENABLE_QUEUE w)
          (gl_log w ++ [gl.glBindTexture (_target t) (_handle t)]
             ++ (if _handle t =? 0 then [] else [gl.glIsTexture (_handle t)]))
          (stdout w))).
Proof.
  intros H3D Hh Hpd Hconv Hfmt Hmiss.
  destruct (convert_data_spec (arrays w) ext_available a clim (arrays w)
              (extends_refl _)) as [_ (Hr & _)].
  unfold result in Hr. rewrite Hconv in Hr.
  destruct (Hr d' eq_refl) as [_ Hshape].
  unfold Texture._enable.
  rewrite (run_bind get_self _ _ _ _ eq_refl). cbv beta iota. cbn [self].
  replace (_handle t <? 0) with false by lia.
  replace ((_target t =? gl.GL_TEXTURE_3D) && negb (ext_available "GL_texture_3D"))
    with false.
  2: { destruct (_target t =? gl.GL_TEXTURE_3D) eqn:E3; [|reflexivity].
       apply Z.eqb_eq in E3. now rewrite (H3D E3). }
  rewrite Hpd. cbn [pd_data pd_offset pd_level pd_format pd_clim].
  apply run_bind_raise.
  rewrite (run_bind (set_self _) _ _ _ _ eq_refl). cbv beta iota. cbn [self globals].
  apply run_bind_raise.
  unfold Texture._process_pending_data.
  assert (E1 : bind (in_world (in_arrays (convert_data ext_available a clim)))
                 (fun d' => ret (Some d')) (mk_state (with_pending_data None t) w)
               = (Return (Some d'), mk_state (with_pending_data None t) (set_arrays h' w))).
  { unfold bind, in_world, in_arrays, zoom. cbn. now rewrite Hconv. }
  rewrite (run_bind _ _ _ _ _ E1). cbv beta iota.
  rewrite (run_bind get_self _ _ _ _ eq_refl). cbv beta iota. cbn [self].
  change (_target (with_pending_data None t)) with (_target t).
  change (_handle (with_pending_data None t)) with (_handle t).
  assert (E3 : match format with
               | None => get_format (Some (shape d')) (_target t)
               | Some f => ret f
               end (mk_state (with_pending_data None t) (set_arrays h' w))
               = (Return fmt, mk_state (with_pending_data None t) (set_arrays h' w))).
  { rewrite Hshape. destruct format as [f|].
    - cbn in Hfmt. now injection Hfmt as ->.
    - rewrite get_format_run. now rewrite Hfmt. }
  rewrite (run_bind _ _ _ _ _ E3). cbv beta iota.
  cbn [Texture.truthy].
  rewrite (run_bind _ _ _ _ _ (gl_run _ _ _)). cbv beta iota.
  destruct (_handle t =? 0) eqn:E0.
  - apply Z.eqb_eq in E0. replace (_handle t <=? 0) with true by lia.
    rewrite (run_bind (ret true) _ _ _ _ eq_refl). cbv beta iota.
    unfold raise, set_gl_log, set_arrays. cbn [gl_log arrays ENABLE_QUEUE stdout].
    now rewrite app_nil_r.
  - apply Z.eqb_neq in E0. replace (_handle t <=? 0) with false by lia.
    destruct Hmiss as [H0|Hbad]; [contradiction|].
    match goal with
    | |- bind (bind (in_world (glIsTexture _)) _) _ ?st = _ =>
        assert (E5 : bind (in_world (glIsTexture (_handle t)))
                       (fun ok => ret (negb ok)) st
                     = (Return true,
                        mk_state (with_pending_data None t)
                          (mk_world h' (ENABLE_QUEUE w)
                             (gl_log w ++ [gl.glBindTexture (_target t) (_handle t);
                                           gl.glIsTexture (_handle t)])
                             (stdout w))))
    end.
    { rewrite (run_bind _ _ _ _ _ (is_texture_run _ _ _)).
      cbn [gl_log set_gl_log set_arrays arrays ENABLE_QUEUE stdout].
      rewrite Hbad. unfold ret, set_gl_log.
      cbn [negb gl_log arrays ENABLE_QUEUE stdout]. now rewrite <- app_assoc. }
    rewrite (run_bind _ _ _ _ _ E5). reflexivity.
Qed.

(** X22.  Activation of a texture with an OpenGL object and nothing
    pending.  The driver is asked whether the handle is a texture.  If it
    is not, [RuntimeError] is raised and nothing else is issued.  If it
    is, the capability of the target is pushed, the texture unit selected
    when one is set, the texture bound, and the pending parameters are
    sent, the one set last first; afterwards none is pending. *)
Theorem enable_resident (t : texture) (w : world) :
  (_target t = gl.GL_TEXTURE_3D -> ext_available "GL_texture_3D" = true) ->
  0 < _handle t ->
  _pending_data t = None ->
  Texture._enable ext_available (mk_state t w)
  = if gl.is_texture (gl_log w) (_handle t)
    then
      (Return tt,
       mk_state (with_pending_params [] t)
         (mk_world (arrays w)
            (<[_target t := counter w (_target t) + 1]> (ENABLE_QUEUE w))
            (gl_log w ++ [gl.glIsTexture (_handle t)]
               ++ (if counter w (_target t) =? 0 then [gl.glEnable (_target t)] else [])
               ++ (if _unit t >=? 0
                   then [gl.glActiveTexture (gl.GL_TEXTURE0 + _unit t)] else [])
               ++ [gl.glBindTexture (_target t) (_handle t)]
               ++ parameter_calls (_target t) (reverse (_pending_params t)))
            (stdout w)))
    else
      (Raise RuntimeError,
       mk_state t (set_gl_log (gl_log w ++ [gl.glIsTexture (_handle t)]) w)).
Proof.
  intros H3D Hh Hpd.
  unfold Texture._enable.
  rewrite (run_bind get_self _ _ _ _ eq_refl). cbv beta iota. cbn [self].
  replace (_handle t <? 0) with false by lia.
  replace ((_target t =? gl.GL_TEXTURE_3D) && negb (ext_available "GL_texture_3D"))
    with false.
  2: { destruct (_target t =? gl.GL_TEXTURE_3D) eqn:E3; [|reflexivity].
       apply Z.eqb_eq in E3. now rewrite (H3D E3). }
  rewrite Hpd.
  rewrite (run_bind (ret false) _ _ _ _ eq_refl). cbv beta iota.
  rewrite (run_bind get_self _ _ _ _ eq_refl). cbv beta iota. cbn [self].
  replace (_handle t =? 0) with false by lia.
  rewrite (run_bind _ _ _ _ _ (is_texture_run _ _ _)). cbv beta iota.
  destruct (gl.is_texture (gl_log w) (_handle t)); cbn [negb]; [|reflexivity].
  rewrite (run_bind _ _ _ _ _ (raw_enable_run _ _)). cbv beta iota.
  rewrite (run_bind get_self _ _ _ _ eq_refl). cbv beta iota. cbn [self].
  rewrite (flush_run_rev (reverse (_pending_params t))).
  - unfold set_gl_log, counter. cbn [gl_log arrays ENABLE_QUEUE stdout].
    rewrite <- !app_assoc. reflexivity.
  - now rewrite reverse_involutive.
  - now rewrite length_reverse.
Qed.

(** X23.  What a returning activation guarantees: when [_enable] returns
    and leaves a positive handle, nothing is pending any more, neither
    data nor parameters, and the texture is bound: the last calls issued
    are the bind of target and handle and, after it, parameter calls
    only. *)
Theorem activation_postcondition (st : state) :
  result (Texture._enable ext_available) st = Return tt ->
  0 < _handle (self (final (Texture._enable ext_available) st)) ->
  let st' := final (Texture._enable ext_available) st in
  _pending_data (self st') = None /\
  _pending_params (self st') = [] /\
  exists pre params,
    gl_log (globals st')
    = pre ++ [gl.glBindTexture (_target (self st')) (_handle (self st'))]
          ++ parameter_calls (_target (self st')) params.
Proof.
  intros Hret Hpos st'.
  split; [apply enable_consumes; subst st'; lia|].
  subst st'. revert Hret Hpos. destruct st as [t w].
  unfold result, final, Texture._enable.
  rewrite (run_bind get_self _ _ _ _ eq_refl). cbv beta iota. cbn [self].
  destruct (_handle t <? 0) eqn:Eneg.
  { cbn. apply Z.ltb_lt in Eneg. intros _ Hpos. lia. }
  destruct ((_target t =? gl.GL_TEXTURE_3D) && negb (ext_available "GL_texture_3D")).
  { cbn. intros _ Hpos. lia. }
  match goal with
  | |- context [bind ?c ?k (mk_state t w)] =>
      assert (Hinv : forall st1, c (mk_state t w) = (Return true, st1) ->
                                 _handle (self st1) = -1);
      [| destruct (c (mk_state t w)) as [[inv|e] [t1 w1]] eqn:Ec1 ]
  end.
  { intros st1. destruct (_pending_data t) as [pd|]; [|discriminate].
    rewrite (run_bind (set_self _) _ _ _ _ eq_refl). cbv beta iota.
    unfold bind at 1.
    destruct (Texture._process_pending_data _ _ _ _ _ _ _) as [[[]|e] [t2 w2]];
      [|discriminate].
    rewrite (run_bind get_self _ _ _ _ eq_refl). cbv beta iota. cbn [self].
    rewrite (run_bind _ _ _ _ _ (is_texture_run _ _ _)). cbv beta iota.
    destruct (gl.is_texture (gl_log w2) (_handle t2)); [discriminate|].
    cbn. intros [= <-]. reflexivity. }
  2: { rewrite (run_bind_raise _ _ _ _ _ Ec1). discriminate. }
  rewrite (run_bind _ _ _ _ _ Ec1). cbv beta iota.
  destruct inv.
  { cbn. intros _ Hpos. pose proof (Hinv _ eq_refl) as Hm. cbn in Hm. lia. }
  clear Hinv.
  rewrite (run_bind get_self _ _ _ _ eq_refl). cbv beta iota. cbn [self].
  destruct (_handle t1 =? 0) eqn:E0.
  { cbn. apply Z.eqb_eq in E0. intros _ Hpos. lia. }
  rewrite (run_bind _ _ _ _ _ (is_texture_run _ _ _)). cbv beta iota.
  destruct (gl.is_texture (gl_log w1) (_handle t1)); cbn [negb]; [|discriminate].
  rewrite (run_bind _ _ _ _ _ (raw_enable_run _ _)). cbv beta iota.
  rewrite (run_bind get_self _ _ _ _ eq_refl). cbv beta iota. cbn [self].
  rewrite (flush_run_rev (reverse (_pending_params t1)));
    [| now rewrite reverse_involutive | now rewrite length_reverse].
  cbn [fst snd self globals gl_log set_gl_log]. intros _ _.
  split; [reflexivity|].
  eexists _, (reverse (_pending_params t1)).
  change (_target (with_pending_params [] t1)) with (_target t1).
  change (_handle (with_pending_params [] t1)) with (_handle t1).
  rewrite !app_assoc. reflexivity.
Qed.

(** X24.  A 3D texture needs the capability [GL_texture_3D]: without it,
    activation of a 3D texture sends nothing to OpenGL and touches no
    array, whatever is pending, and leaves the texture errored; no other
    attribute of the texture changes, so the pending description is
    kept. *)
Theorem enable_3d_needs_extension (t : texture) (w : world) :
  _target t = gl.GL_TEXTURE_3D ->
  ext_available "GL_texture_3D" = false ->
  Texture._enable ext_available (mk_state t w)
  = (Return tt, mk_state (if _handle t <? 0 then t else with_handle (-1) t) w) /\
  _handle (self (final (Texture._enable ext_available) (mk_state t w))) < 0.
Proof.
  intros Htg Hext.
  assert (E : Texture._enable ext_available (mk_state t w)
              = (Return tt,
                 mk_state (if _handle t <? 0 then t else with_handle (-1) t) w)).
  { unfold Texture._enable.
    rewrite (run_bind get_self _ _ _ _ eq_refl). cbv beta iota. cbn [self].
    destruct (_handle t <? 0); [reflexivity|].
    rewrite Htg, Hext. reflexivity. }
  split; [exact E|].
  unfold final. rewrite E. cbn [snd self].
  destruct (_handle t <? 0) eqn:En; [apply Z.ltb_lt in En; exact En|].
  cbn. lia.
Qed.

End Paths.

Lemma update_without_texture_witness :
  0 <= _handle (with_handle 0 resident22) /\
  (_handle (with_handle 0 resident22) = 0 \/
   gl.is_texture (Driver := driver.counting)
     (gl_log world_ex ++ [gl.glBindTexture gl.GL_TEXTURE_2D 0]) 0 = false) /\
  Texture._enable (K := ieee.kernels) (D := driver.counting) ext_available_now
    (mk_state
       (with_pending_data (Some (mk_pending (Some image8) (Some [0; 0]) 0 None None))
          (with_handle 0 resident22))
       world_ex)
  = (Raise ValueError,
     mk_state (with_handle 0 resident22)
       (set_gl_log [gl.glBindTexture gl.GL_TEXTURE_2D 0] world_ex)).
Proof.
  assert (Hh : 0 <= _handle (with_handle 0 resident22)) by (cbn; lia).
  assert (Hm : _handle (with_handle 0 resident22) = 0 \/
   gl.is_texture (Driver := driver.counting)
     (gl_log world_ex ++ [gl.glBindTexture gl.GL_TEXTURE_2D 0]) 0 = false)
    by (left; reflexivity).
  split; [exact Hh|]. split; [exact Hm|].
  exact (update_without_texture (K := ieee.kernels) (D := driver.counting)
           ext_available_now
           (with_pending_data
              (Some (mk_pending (Some image8) (Some [0; 0]) 0 None None))
              (with_handle 0 resident22))
           world_ex image8 image8 heap_ex 0 [0] 0 None None gl.GL_LUMINANCE
           ltac:(discriminate) Hh eq_refl eq_refl eq_refl Hm).
Defined.

Lemma enable_resident_witness :
  0 < _handle resident44 /\
  _pending_data resident44 = None /\
  result (Texture._enable (K := ieee.kernels) (D := driver.counting) ext_available_now)
    (mk_state
       (with_pending_params [(gl.GL_TEXTURE_MIN_FILTER, gl.GL_LINEAR)] resident44)
       (set_gl_log [gl.glGenTextures 1; gl.glBindTexture gl.GL_TEXTURE_2D 1] world0))
  = Return tt.
Proof.
  assert (Hh : 0 < _handle resident44) by (cbn; lia).
  split; [exact Hh|]. split; [reflexivity|].
  unfold result.
  rewrite (enable_resident (K := ieee.kernels) (D := driver.counting)
             ext_available_now
             (with_pending_params [(gl.GL_TEXTURE_MIN_FILTER, gl.GL_LINEAR)] resident44)
             (set_gl_log [gl.glGenTextures 1; gl.glBindTexture gl.GL_TEXTURE_2D 1] world0)
             ltac:(discriminate) Hh eq_refl).
  reflexivity.
Defined.

Lemma activation_postcondition_witness :
  result (Texture._enable (K := ieee.kernels) (D := driver.counting) ext_available_now)
    (mk_state storage44 world0) = Return tt /\
  0 < _handle (self (final (Texture._enable (K := ieee.kernels) (D := driver.counting)
                              ext_available_now)
                       (mk_state storage44 world0))) /\
  _pending_params (self (final (Texture._enable (K := ieee.kernels)
                                  (D := driver.counting) ext_available_now)
                           (mk_state storage44 world0))) = [].
Proof.
  assert (Hr : result (Texture._enable (K := ieee.kernels) (D := driver.counting)
                         ext_available_now)
                 (mk_state storage44 world0) = Return tt) by reflexivity.
  assert (Hp : 0 < _handle (self (final (Texture._enable (K := ieee.kernels)
                                          (D := driver.counting) ext_available_now)
                                   (mk_state storage44 world0)))) by reflexivity.
  split; [exact Hr|]. split; [exact Hp|].
  exact (proj1 (proj2 (activation_postcondition (K := ieee.kernels)
                         (D := driver.counting) ext_available_now
                         (mk_state storage44 world0) Hr Hp))).
Defined.

Lemma enable_3d_needs_extension_witness :
  _target (mk_texture gl.GL_TEXTURE_3D 0 (-1) None None [] []) = gl.GL_TEXTURE_3D /\
  _handle (self (final (Texture._enable (K := ieee.kernels) (D := driver.counting)
                          (fun _ => false))
                   (mk_state (mk_texture gl.GL_TEXTURE_3D 0 (-1) None None [] [])
                      world0))) < 0.
Proof.
  split; [reflexivity|].
  exact (proj2 (enable_3d_needs_extension (K := ieee.kernels) (D := driver.counting)
                  (fun _ => false)
                  (mk_texture gl.GL_TEXTURE_3D 0 (-1) None None [] []) world0
                  eq_refl eq_refl)).
Defined.

(** ** Examples of the description calls *)

Lemma set_storage_outcome_witness :
  result (Texture.set_storage [4; 4] 0 None)
    (mk_state (mk_texture gl.GL_TEXTURE_2D 0 (-1) None None [] []) world0)
  = Return tt /\
  Forall (fun i => 0 < i) [4; 4].
Proof.
  assert (Hr : result (Texture.set_storage [4; 4] 0 None)
                 (mk_state (mk_texture gl.GL_TEXTURE_2D 0 (-1) None None [] []) world0)
               = Return tt) by reflexivity.
  split; [exact Hr|].
  destruct (proj2 (set_storage_outcome [4; 4] 0 None
                     (mk_texture gl.GL_TEXTURE_2D 0 (-1) None None [] []) world0) Hr)
    as [(_ & _ & _ & ts & Hts & _)|(_ & _ & HF & _)].
  - discriminate Hts.
  - exact HF.
Defined.

Lemma set_data_outcome_witness :
  result (Texture.set_data (PyArray image8) None 0 None None)
    (mk_state resident22 world_ex) = Return tt /\
  exists a off,
    PyArray image8 = PyArray a /\
    final (Texture.set_data (PyArray image8) None 0 None None)
      (mk_state resident22 world_ex)
    = mk_state
        (with_texture_shape (Some (shape a))
           (with_pending_data (Some (mk_pending (Some a) off 0 None None))
              (after_reset resident22))) world_ex.
Proof.
  assert (Hr : result (Texture.set_data (PyArray image8) None 0 None None)
                 (mk_state resident22 world_ex) = Return tt) by reflexivity.
  split; [exact Hr|].
  destruct (proj1 (proj2 (set_data_outcome (PyArray image8) None 0 None None
                            resident22 world_ex)) Hr)
    as (a & off & Ea & Ef & _).
  exists a, off. split; [exact Ea | exact Ef].
Defined.

Lemma constructor_state_witness :
  result (Texture.__init__ (N := driver.names) gl.GL_TEXTURE_2D (PyTuple [4; 4])
            None None) world0
  = Return storage44 /\
  _handle storage44 = 0.
Proof.
  assert (Hr : result (Texture.__init__ (N := driver.names) gl.GL_TEXTURE_2D
                         (PyTuple [4; 4]) None None) world0
               = Return storage44) by reflexivity.
  split; [exact Hr|].
  exact (proj1 (proj2 (proj2
    (proj2 (constructor_state (N := driver.names) gl.GL_TEXTURE_2D
              (PyTuple [4; 4]) None None world0)
       storage44 Hr)))).
Defined.
